(** * Node.js runtime version resolution

    A shallow embedding of
    [packages/now-build-utils/src/fs/node-version.ts]: the table of known
    Node.js runtimes, the module-level message fragments, and
    [getSupportedNodeVersion] with its three effects (rejecting the
    promise, the [debug] line, the boxed [console.warn] notice).

    Time is the number of milliseconds since the epoch, as [Date.now()]
    and [Date.prototype.getTime()] give it.

    Two more parts follow the resolver: the updates of the Gatsby
    configuration files with their cleanup ([Gatsby]), and the domain
    transfer command ([TransferIn]). *)

From Stdlib Require Import ZArith List String Ascii Bool Lia.
Import ListNotations.
Local Open Scope string_scope.
Local Open Scope Z_scope.

(** ** JavaScript built-ins used by the module *)

Module Js.

Definition dquote : ascii := "034"%char.
Definition backslash : ascii := "092"%char.
Definition newline : ascii := "010"%char.

Definition str (c : ascii) : string := String c EmptyString.

(** [nl] is the one-character string ['\n']. *)
Definition nl : string := str newline.

(** Truthiness of an optional string ([if (engineRange)]): [undefined]
    and the empty string are falsy. *)
Definition truthy (s : option string) : bool :=
  match s with
  | None => false
  | Some EmptyString => false
  | Some (String _ _) => true
  end.

(** Truthiness of an optional boolean ([isAuto?: boolean]). *)
Definition truthyFlag (b : option bool) : bool :=
  match b with
  | Some true => true
  | _ => false
  end.

(** [a + s] where [s] may be [undefined]. *)
Definition orUndefined (s : option string) : string :=
  match s with
  | Some s => s
  | None => "undefined"
  end.

(** *** Decimal rendering *)

Definition digit (n : Z) : ascii :=
  ascii_of_nat (48 + Z.to_nat (n mod 10)).

(** The [k] low decimal digits of [n], most significant first. *)
Fixpoint digits (k : nat) (n : Z) : string :=
  match k with
  | O => EmptyString
  | S k' => digits k' (n / 10) ++ str (digit n)
  end.

(** *** [Date.prototype.toISOString().split('T')[0]] *)

Definition msPerDay : Z := 86400000.

(** Day number of a time value: [Day(t) = floor(t / msPerDay)]. *)
Definition Day (t : Z) : Z := t / msPerDay.

(** Proleptic Gregorian year, month (1..12) and day of month (1..31)
    of a day number counted from 1970-01-01. *)
Definition civil (day : Z) : Z * Z * Z :=
  let z := day + 719468 in
  let era := z / 146097 in
  let doe := z - era * 146097 in
  let yoe := (doe - doe / 1460 + doe / 36524 - doe / 146096) / 365 in
  let doy := doe - (365 * yoe + yoe / 4 - yoe / 100) in
  let mp := (5 * doy + 2) / 153 in
  let d := doy - (153 * mp + 2) / 5 + 1 in
  let m := if mp <? 10 then mp + 3 else mp - 9 in
  let y := yoe + era * 400 in
  (if m <=? 2 then y + 1 else y, m, d).

(** Years 0..9999 print with four digits, the others with a sign and
    six digits. *)
Definition isoYear (y : Z) : string :=
  if (0 <=? y) && (y <=? 9999) then digits 4 y
  else if y <? 0 then "-" ++ digits 6 (- y)
  else "+" ++ digits 6 y.

Definition isoDate (t : Z) : string :=
  let '(y, m, d) := civil (Day t) in
  isoYear y ++ "-" ++ digits 2 m ++ "-" ++ digits 2 d.

(** *** [JSON.stringify] on an array of strings *)

Definition hexDigit (n : nat) : ascii :=
  if Nat.ltb n 10 then ascii_of_nat (48 + n) else ascii_of_nat (87 + n).

Definition escapeChar (c : ascii) : string :=
  let n := nat_of_ascii c in
  if Ascii.eqb c dquote then String backslash (str dquote)
  else if Ascii.eqb c backslash then String backslash (str backslash)
  else if Nat.eqb n 8 then String backslash "b"
  else if Nat.eqb n 9 then String backslash "t"
  else if Nat.eqb n 10 then String backslash "n"
  else if Nat.eqb n 12 then String backslash "f"
  else if Nat.eqb n 13 then String backslash "r"
  else if Nat.ltb n 32 then
    String backslash
      ("u00" ++ str (hexDigit (Nat.div n 16)) ++ str (hexDigit (Nat.modulo n 16)))
  else str c.

Fixpoint escape (s : string) : string :=
  match s with
  | EmptyString => EmptyString
  | String c rest => escapeChar c ++ escape rest
  end.

Definition quote (s : string) : string :=
  str dquote ++ escape s ++ str dquote.

Fixpoint join (sep : string) (l : list string) : string :=
  match l with
  | [] => EmptyString
  | [s] => s
  | s :: rest => s ++ sep ++ join sep rest
  end.

Definition stringifyArray (l : list string) : string :=
  "[" ++ join "," (map quote l) ++ "]".

End Js.

(** ** The table of runtimes *)

(** [NodeVersion] of [../types]: [discontinueDate] is the time value of
    the optional [Date]. *)
Record NodeVersion : Type := mkNodeVersion {
  major : Z;
  range : string;
  runtime : string;
  discontinueDate : option Z
}.

(** [new Date('2020-01-06')]: midnight UTC of that day. *)
Definition date_2020_01_06 : Z := 1578268800000.

Definition node12 : NodeVersion := mkNodeVersion 12 "12.x" "nodejs12.x" None.
Definition node10 : NodeVersion := mkNodeVersion 10 "10.x" "nodejs10.x" None.
Definition node8 : NodeVersion :=
  mkNodeVersion 8 "8.10.x" "nodejs8.10" (Some date_2020_01_06).

Definition allOptions : list NodeVersion := [node12; node10; node8].

(** ** Effects

    A call of [getSupportedNodeVersion] writes lines (the [debug] helper,
    [console.warn]) and either returns or throws; being [async], a throw
    rejects the returned promise. *)

Inductive Event : Type :=
| DebugLine (message : string)
| ConsoleWarn (text : string).

(** What a call can throw: a [NowBuildError] of this module, with its
    [code] and [message], or the [TypeError] of [semver]. The text of
    the latter is made by [semver], from the string it could not read;
    it is not kept here. *)
Inductive Thrown : Type :=
| NowBuildError (code message : string)
| TypeError.

Inductive Completion (A : Type) : Type :=
| Normal (a : A)
| Abrupt (e : Thrown).
Arguments Normal {A} a.
Arguments Abrupt {A} e.

(** The events written so far, in order, and how the computation ended. *)
Definition Eff (A : Type) : Type := (list Event * Completion A)%type.

Definition ret {A} (a : A) : Eff A := ([], Normal a).
Definition throw {A} (e : Thrown) : Eff A := ([], Abrupt e).
Definition emit (ev : Event) : Eff unit := ([ev], Normal tt).

Definition bind {A B} (m : Eff A) (k : A -> Eff B) : Eff B :=
  match m with
  | (out, Normal a) => let (out', c) := k a in ((out ++ out')%list, c)
  | (out, Abrupt e) => (out, Abrupt e)
  end.

Declare Scope eff_scope.
Delimit Scope eff_scope with eff.
Notation "x <- m ;; k" := (bind m (fun x => k))
  (at level 61, m at next level, right associativity) : eff_scope.
Notation "m ;; k" := (bind m (fun _ => k))
  (at level 61, right associativity) : eff_scope.
Local Open Scope eff_scope.

Definition events {A} (m : Eff A) : list Event := fst m.
Definition settled {A} (m : Eff A) : Completion A := snd m.

(** The texts given to [console.warn], in order. *)
Definition warnings {A} (m : Eff A) : list string :=
  flat_map (fun ev => match ev with ConsoleWarn t => [t] | DebugLine _ => [] end)
           (events m).

(** [Array.prototype.some] with a callback that updates a captured
    variable of type [S] and may throw: the callback is run on the
    elements in order until it answers [true]. *)
Fixpoint Array_some {A S : Type} (cb : A -> S -> Eff (S * bool))
         (l : list A) (s : S) : Eff (S * bool) :=
  match l with
  | [] => ret (s, false)
  | x :: rest =>
      r <- cb x s ;;
      if snd r then ret (fst r, true) else Array_some cb rest (fst r)
  end.

(** ** The module *)

Definition NODE_VERSION_INVALID : string := "NOW_BUILD_UTILS_NODE_VERSION_INVALID".
Definition NODE_VERSION_DISCONTINUED : string :=
  "NOW_BUILD_UTILS_NODE_VERSION_DISCONTINUED".

(** [isDiscontinued], with the value [Date.now()] gives it as [today]. *)
Definition isDiscontinued (today : Z) (o : NodeVersion) : bool :=
  match discontinueDate o with
  | Some t => t <=? today
  | None => false
  end.

(** What an index outside the array would give; [allOptions] is never
    indexed outside its bounds (see [getOldestNodeVersion_index]). *)
Definition noNodeVersion : NodeVersion :=
  mkNodeVersion 0 EmptyString EmptyString None.

Definition getOldestNodeVersion : NodeVersion :=
  nth (List.length allOptions - 1) allOptions noNodeVersion.

Definition getLatestNodeVersion : NodeVersion :=
  nth 0 allOptions noNodeVersion.

(** The module-level constants. [supportedOptions] and [pleaseUse] are
    evaluated once, when the module is loaded: [loadTime] is what
    [Date.now()] gave then (each call of the filter reads the clock, but
    one option only carries a date, so one reading only is compared). *)
Definition supportedOptions (loadTime : Z) : list NodeVersion :=
  filter (fun o => negb (isDiscontinued loadTime o)) allOptions.

Definition pleaseUseOf (ranges : list string) : string :=
  "Please use one of the following `engines` in your `package.json`: "
  ++ Js.stringifyArray ranges.

Definition pleaseUse (loadTime : Z) : string :=
  pleaseUseOf (map range (supportedOptions loadTime)).

Definition pleaseAdd : string :=
  "Please add " ++ Js.str Js.dquote ++ "engines" ++ Js.str Js.dquote ++ ": { "
  ++ Js.str Js.dquote ++ "node" ++ Js.str Js.dquote ++ ": " ++ Js.str Js.dquote
  ++ range getLatestNodeVersion
  ++ Js.str Js.dquote ++ " } to your `package.json` file.".

Definition upstreamProvider : string :=
  "This change is the result of a decision made by an upstream infrastructure provider (AWS)."
  ++ Js.nl
  ++ "Read more: https://docs.aws.amazon.com/lambda/latest/dg/runtime-support-policy.html".

(** The two introductions of the invalid-range message. *)
Definition invalidIntroAuto : string :=
  "This project is using an invalid version of Node.js and must be changed.".
Definition invalidIntroFound (engineRange : string) : string :=
  "Found `engines` in `package.json` with an invalid Node.js version range: "
  ++ engineRange.

(** The two introductions of the discontinued message. *)
Definition discontinuedIntroAuto : string :=
  "This project is using a discontinued version of Node.js and must be upgraded."
  ++ Js.nl ++ pleaseAdd.
Definition discontinuedIntroFound (loadTime : Z) (engineRange : string) : string :=
  "Found `engines` in `package.json` with a discontinued Node.js version range: "
  ++ engineRange ++ Js.nl ++ pleaseUse loadTime.

(** The text framed by [boxen]; [hint] is [pleaseAdd] or [pleaseUse]. *)
Definition notice (selection : NodeVersion) (d hint : string) : string :=
  "NOTICE" ++ Js.nl
  ++ Js.nl ++ "Node.js version " ++ range selection ++ " has reached end-of-life."
  ++ Js.nl ++ "As a result, deployments created on or after " ++ d
  ++ " will fail to build."
  ++ Js.nl ++ hint ++ Js.nl ++ upstreamProvider.

Section Resolver.

(** The [semver] package: [intersects(r1, r2)] builds [new Range(r1)]
    and [new Range(r2)], each of which throws a [TypeError] on a string
    that is not a range, and compares the two. *)
Variable SemverRange : Type.
Variable parseRange : string -> option SemverRange.
Variable rangeIntersects : SemverRange -> SemverRange -> bool.

(** [boxen(text, { padding: 1 })]. *)
Variable boxen : string -> string.

Definition intersects (r1 r2 : string) : Eff bool :=
  match parseRange r1 with
  | None => throw TypeError
  | Some a =>
      match parseRange r2 with
      | None => throw TypeError
      | Some b => ret (rangeIntersects a b)
      end
  end.

Definition debug (message : string) : Eff unit := emit (DebugLine message).
Definition console_warn (text : string) : Eff unit := emit (ConsoleWarn text).

(** Lines 42 to 62: the fallback, the scan and the invalid-range
    rejection. The value is the [selection] the rest of the function
    goes on with. *)
Definition select (loadTime : Z) (engineRange : option string)
           (isAuto : option bool) : Eff NodeVersion :=
  let selection := getOldestNodeVersion in
  if Js.truthy engineRange then
    r <- Array_some
           (fun o (_ : NodeVersion) =>
              let selection := o in
              b <- intersects (range o) (Js.orUndefined engineRange) ;;
              ret (selection, b))
           allOptions selection ;;
    let selection := fst r in
    let found := snd r in
    if negb found then
      let intro :=
        if Js.truthyFlag isAuto || negb (Js.truthy engineRange)
        then invalidIntroAuto
        else invalidIntroFound (Js.orUndefined engineRange) in
      throw (NowBuildError NODE_VERSION_INVALID
                           (intro ++ Js.nl ++ pleaseUse loadTime))
    else ret selection
  else ret selection.

(** Lines 64 to 105, from the [selection] on. *)
Definition settle (loadTime today : Z) (engineRange : option string)
           (isAuto : option bool) (selection : NodeVersion) : Eff NodeVersion :=
  let default := Js.truthyFlag isAuto || negb (Js.truthy engineRange) in
  if isDiscontinued today selection then
    let intro :=
      if default then discontinuedIntroAuto
      else discontinuedIntroFound loadTime (Js.orUndefined engineRange) in
    throw (NowBuildError NODE_VERSION_DISCONTINUED
                         (intro ++ Js.nl ++ upstreamProvider))
  else
    debug (if default
           then "Using default Node.js range: " ++ range selection
           else (if Js.truthy engineRange then "Found" else "Missing")
                ++ " `engines` in `package.json`, selecting range: "
                ++ range selection) ;;
    match discontinueDate selection with
    | Some t =>
        let d := Js.isoDate t in
        console_warn
          (boxen (notice selection d
                         (if default then pleaseAdd else pleaseUse loadTime)))
    | None => ret tt
    end ;;
    ret selection.

(** [getSupportedNodeVersion(engineRange, isAuto)], in a module loaded
    at [loadTime] and called at [today]. *)
Definition getSupportedNodeVersion (loadTime today : Z)
           (engineRange : option string) (isAuto : option bool)
  : Eff NodeVersion :=
  selection <- select loadTime engineRange isAuto ;;
  settle loadTime today engineRange isAuto selection.

End Resolver.

(** ** An instance of the [semver] interface

    The x-ranges ([12.x], [8.10.x], [8], [*], [8.10.3]): enough of
    [semver] to run the resolver on concrete requests. A range is kept
    as the numbers before its first wildcard. *)

Module XRange.

Definition isDigit (c : ascii) : bool :=
  let n := nat_of_ascii c in Nat.leb 48 n && Nat.leb n 57.

Fixpoint number (s : string) (acc : N) : option N :=
  match s with
  | EmptyString => Some acc
  | String c rest =>
      if isDigit c
      then number rest (10 * acc + N.of_nat (nat_of_ascii c - 48))%N
      else None
  end.

(** The pieces of [s] between dots; [cur] is the piece being read. *)
Fixpoint split (s : string) (cur : string) : list string :=
  match s with
  | EmptyString => [cur]
  | String c rest =>
      if Ascii.eqb c "."%char then cur :: split rest EmptyString
      else split rest (cur ++ Js.str c)
  end.

Definition isWildcard (s : string) : bool :=
  String.eqb s "x" || String.eqb s "X" || String.eqb s "*".

Definition isNumber (s : string) : bool :=
  match s with
  | EmptyString => false
  | _ => match number s 0%N with Some _ => true | None => false end
  end.

(** [Some l]: the numbers before the first wildcard; [None]: a piece
    is neither a number nor a wildcard. *)
Fixpoint pieces (l : list string) : option (list N) :=
  match l with
  | [] => Some []
  | p :: rest =>
      if isWildcard p then
        if forallb (fun q => isWildcard q || isNumber q) rest
        then Some [] else None
      else
        match isNumber p, number p 0%N, pieces rest with
        | true, Some n, Some ns => Some (n :: ns)
        | _, _, _ => None
        end
  end.

(** The empty string is the range of all versions. *)
Definition parse (s : string) : option (list N) :=
  match s with
  | EmptyString => Some []
  | _ =>
      let l := split s EmptyString in
      if Nat.leb (List.length l) 3 then pieces l else None
  end.

(** Two x-ranges share a version when they agree on the numbers both
    give. *)
Fixpoint meets (a b : list N) : bool :=
  match a, b with
  | x :: a', y :: b' => N.eqb x y && meets a' b'
  | _, _ => true
  end.

(** A frame that leaves the text as it is. *)
Definition plain (text : string) : string := text.

Definition resolve : Z -> Z -> option string -> option bool -> Eff NodeVersion :=
  getSupportedNodeVersion (list N) parse meets plain.

End XRange.

(** ** Reading an outcome *)

(** The [code] of the [NowBuildError] a call was rejected with. *)
Definition rejectionCode {A} (c : Completion A) : option string :=
  match c with
  | Abrupt (NowBuildError code _) => Some code
  | _ => None
  end.

Definition rejectionMessage {A} (c : Completion A) : option string :=
  match c with
  | Abrupt (NowBuildError _ message) => Some message
  | _ => None
  end.

(** An outcome without the wording of its error message. *)
Definition withoutWording (c : Completion NodeVersion) : Completion NodeVersion :=
  match c with
  | Abrupt (NowBuildError code _) => Abrupt (NowBuildError code EmptyString)
  | other => other
  end.

(** [needle] occurs in [text]. *)
Definition occursIn (needle text : string) : Prop :=
  exists before after, text = before ++ needle ++ after.

(** Every element of the list has a larger [major] than the next one. *)
Fixpoint newestFirst (l : list NodeVersion) : bool :=
  match l with
  | a :: ((b :: _) as rest) => (major b <? major a) && newestFirst rest
  | _ => true
  end.

(** The ranges of the options that are not discontinued at [time]. *)
Definition supportedRangesAt (time : Z) : list string :=
  map range (filter (fun o => negb (isDiscontinued time o)) allOptions).

(** The invalid-range message in its two wordings, listing the ranges
    supported at [time]. *)
Definition invalidRangeMessageAt (time : Z) (engineRange : string)
           (isAuto : option bool) : string :=
  (if Js.truthyFlag isAuto then invalidIntroAuto
   else invalidIntroFound engineRange)
  ++ Js.nl ++ pleaseUseOf (supportedRangesAt time).

(** The discontinued message of a call without a usable range. *)
Definition discontinuedMessageAuto : string :=
  discontinuedIntroAuto ++ Js.nl ++ upstreamProvider.

(** The line given to [debug]. *)
Definition debugLine (r : option string) (isAuto : option bool)
           (o : NodeVersion) : string :=
  if Js.truthyFlag isAuto || negb (Js.truthy r)
  then "Using default Node.js range: " ++ range o
  else (if Js.truthy r then "Found" else "Missing")
       ++ " `engines` in `package.json`, selecting range: " ++ range o.

(** The advice that closes the notice. *)
Definition hint (loadTime : Z) (r : option string) (isAuto : option bool) : string :=
  if Js.truthyFlag isAuto || negb (Js.truthy r) then pleaseAdd
  else pleaseUse loadTime.

(** ** Reading a message

    What a reader of a message sees, written without the functions the
    module builds its messages with. *)

(** The end of a line. *)
Definition lineBreak : string := String "010"%char EmptyString.

(** [text] between double quotes. *)
Definition quoted (text : string) : string :=
  String "034"%char (text ++ String "034"%char EmptyString).

Fixpoint commaSeparated (l : list string) : string :=
  match l with
  | [] => EmptyString
  | [s] => s
  | s :: rest => s ++ "," ++ commaSeparated rest
  end.

(** A list of ranges as a message shows it: between square brackets,
    each range between double quotes, commas between them. *)
Definition listOfRanges (ranges : list string) : string :=
  "[" ++ commaSeparated (map quoted ranges) ++ "]".

(** [occursIn], decided: [needle] starts [text] or occurs further on. *)
Fixpoint occurs (needle text : string) : bool :=
  String.prefix needle text ||
  match text with
  | EmptyString => false
  | String _ rest => occurs needle rest
  end.

(** A text without a line break. *)
Fixpoint singleLine (s : string) : bool :=
  match s with
  | EmptyString => true
  | String c rest => negb (Ascii.eqb c "010"%char) && singleLine rest
  end.

(** A frame keeps what it frames: a text that occurs in one line of the
    framed text occurs in the result. *)
Definition keepsLines (frame : string -> string) : Prop :=
  forall needle text,
    singleLine needle = true -> occursIn needle text -> occursIn needle (frame text).

(** *** Reading a calendar date

    The day a text [YYYY-MM-DD] names, counted from 1970-01-01, by the
    rules of the Gregorian calendar. *)

Definition digitValue (c : ascii) : option Z :=
  let n := Z.of_nat (nat_of_ascii c) in
  if (48 <=? n) && (n <=? 57) then Some (n - 48) else None.

Definition twoDigits (a b : ascii) : option Z :=
  match digitValue a, digitValue b with
  | Some x, Some y => Some (10 * x + y)
  | _, _ => None
  end.

Definition leapYear (y : Z) : bool :=
  (y mod 4 =? 0) && (negb (y mod 100 =? 0) || (y mod 400 =? 0)).

Definition monthLength (y m : Z) : Z :=
  if m =? 2 then (if leapYear y then 29 else 28)
  else if (m =? 4) || (m =? 6) || (m =? 9) || (m =? 11) then 30
  else 31.

(** The leap years among the years 1 to [y]. *)
Definition leapYearsUpTo (y : Z) : Z := y / 4 - y / 100 + y / 400.

(** The days from 1970-01-01 to the first of January of year [y]. *)
Definition daysBeforeYear (y : Z) : Z :=
  365 * (y - 1970) + (leapYearsUpTo (y - 1) - leapYearsUpTo 1969).

(** The days of year [y] before its month [m]. *)
Definition daysBeforeMonth (y m : Z) : Z :=
  fold_right Z.add 0
    (map (fun k => monthLength y (Z.of_nat k)) (seq 1 (Z.to_nat m - 1))).

Definition dayNumber (y m d : Z) : Z :=
  daysBeforeYear y + daysBeforeMonth y m + (d - 1).

Definition readDate (text : string) : option Z :=
  match text with
  | String y1 (String y2 (String y3 (String y4 (String dash1
      (String m1 (String m2 (String dash2
        (String d1 (String d2 EmptyString))))))))) =>
      match twoDigits y1 y2, twoDigits y3 y4, twoDigits m1 m2, twoDigits d1 d2 with
      | Some c, Some y, Some m, Some d =>
          let year := 100 * c + y in
          if Ascii.eqb dash1 "-"%char && Ascii.eqb dash2 "-"%char
             && (1 <=? m) && (m <=? 12) && (1 <=? d) && (d <=? monthLength year m)
          then Some (dayNumber year m d)
          else None
      | _, _, _, _ => None
      end
  | _ => None
  end.

Section Semver.

Variable SemverRange : Type.
Variable parseRange : string -> option SemverRange.
Variable rangeIntersects : SemverRange -> SemverRange -> bool.

(** What the call [intersects(r1, r2)] gives: [Some true] when the two
    ranges share a version, [Some false] when their intersection is
    empty, [None] when it throws. *)
Definition intersection (r1 r2 : string) : option bool :=
  match parseRange r1, parseRange r2 with
  | Some a, Some b => Some (rangeIntersects a b)
  | _, _ => None
  end.

(** The range of [o] intersects the requested range. *)
Definition matches (requested : string) (o : NodeVersion) : bool :=
  match intersection (range o) requested with
  | Some true => true
  | _ => false
  end.

(** Following the specification: the first option of the newest-to-oldest
    list whose range intersects the requested range. *)
Definition firstMatch (requested : string) : option NodeVersion :=
  find (matches requested) allOptions.

(** The ranges of the table are ranges for [semver]. *)
Definition knownRangesParse : Prop :=
  forall o, In o allOptions -> parseRange (range o) <> None.

(** The four ways the first phase can end. *)
Inductive Selected (loadTime : Z) (r : option string) (isAuto : option bool)
  : Eff NodeVersion -> Prop :=
| SelectedFallback :
    Js.truthy r = false ->
    Selected loadTime r isAuto (ret getOldestNodeVersion)
| SelectedInvalid :
    Js.truthy r = true ->
    (forall o, In o allOptions -> intersection (range o) (Js.orUndefined r) = Some false) ->
    Selected loadTime r isAuto
             (throw (NowBuildError NODE_VERSION_INVALID
                       (invalidRangeMessageAt loadTime (Js.orUndefined r) isAuto)))
| SelectedFirst pre o post :
    Js.truthy r = true ->
    allOptions = (pre ++ o :: post)%list ->
    (forall o', In o' pre -> intersection (range o') (Js.orUndefined r) = Some false) ->
    intersection (range o) (Js.orUndefined r) = Some true ->
    Selected loadTime r isAuto (ret o)
| SelectedThrows pre o post :
    Js.truthy r = true ->
    allOptions = (pre ++ o :: post)%list ->
    (forall o', In o' pre -> intersection (range o') (Js.orUndefined r) = Some false) ->
    intersection (range o) (Js.orUndefined r) = None ->
    Selected loadTime r isAuto (throw TypeError).

End Semver.

(** * Gatsby plug-in injection: the configuration files

    A shallow embedding of the file updates of [injectPlugins] and of
    [cleanupGatsbyFiles]. The file system is the set of regular files of
    the project directory [dir], each under its name: [path.join(dir, name)]
    is the file [name], and the path with a suffix appended the file
    [name ++ suffix]. *)

Module Gatsby.

Definition Files : Type := string -> option string.

Definition put (p content : string) (fs : Files) : Files :=
  fun p' => if String.eqb p' p then Some content else fs p'.

Definition del (p : string) (fs : Files) : Files :=
  fun p' => if String.eqb p' p then None else fs p'.

(** How a sequence of file operations ends: normally, or on a call that
    threw ([ENOENT]); either way with the files as they are then. *)
Inductive Outcome (A : Type) : Type :=
| Ok (a : A) (fs : Files)
| Throws (fs : Files).
Arguments Ok {A} a fs.
Arguments Throws {A} fs.

Definition FsM (A : Type) : Type := Files -> Outcome A.

Definition ret {A} (a : A) : FsM A := fun fs => Ok a fs.

Definition bind {A B} (m : FsM A) (k : A -> FsM B) : FsM B :=
  fun fs =>
    match m fs with
    | Ok a fs' => k a fs'
    | Throws fs' => Throws fs'
    end.

Declare Scope fs_scope.
Delimit Scope fs_scope with fs.
Notation "x <- m ;; k" := (bind m (fun x => k))
  (at level 61, m at next level, right associativity) : fs_scope.
Notation "m ;; k" := (bind m (fun _ => k))
  (at level 61, right associativity) : fs_scope.
Local Open Scope fs_scope.

Definition filesAfter {A} (m : FsM A) (fs : Files) : Files :=
  match m fs with
  | Ok _ fs' => fs'
  | Throws fs' => fs'
  end.

Definition threw {A} (m : FsM A) (fs : Files) : bool :=
  match m fs with
  | Ok _ _ => false
  | Throws _ => true
  end.

(** [fileExists] of [./_shared], which is not among the sources: taken
    to answer whether there is a file at the path. *)
Definition fileExists (p : string) : FsM bool :=
  fun fs => Ok (match fs p with Some _ => true | None => false end) fs.

(** [fs.writeFile]: creates the file or replaces its content. *)
Definition writeFile (p content : string) : FsM unit :=
  fun fs => Ok tt (put p content fs).

(** [fs.rename] and [fs.renameSync]: the file takes the new name,
    replacing a file that has it; without a file at the old name the call
    throws. *)
Definition rename (oldPath newPath : string) : FsM unit :=
  fun fs =>
    match fs oldPath with
    | Some content => Ok tt (put newPath content (del oldPath fs))
    | None => Throws fs
    end.

(** [fs.rmSync]: throws without a file at the path. *)
Definition rmSync (p : string) : FsM unit :=
  fun fs =>
    match fs p with
    | Some _ => Ok tt (del p fs)
    | None => Throws fs
    end.

(** [tryReadFileSync]: the content, or [undefined] when the file cannot
    be read. *)
Definition tryReadFileSync (filePath : string) : FsM (option string) :=
  fun fs => Ok (fs filePath) fs.

Definition GATSBY_CONFIG_FILE : string := "gatsby-config".
Definition GATSBY_NODE_FILE : string := "gatsby-node".

Definition GENERATED_FILE_COMMENT : string :=
  "// This file was generated by @vercel/static-build".

Definition q : string := Js.str Js.dquote.

(** [JSON.stringify({ plugins })]. *)
Definition stringifyPlugins (plugins : list string) : string :=
  "{" ++ q ++ "plugins" ++ q ++ ":" ++ Js.stringifyArray plugins ++ "}".

(** The texts of the generated files. *)

Definition configStub (plugins : list string) : string :=
  GENERATED_FILE_COMMENT ++ Js.nl
  ++ "module.exports = " ++ stringifyPlugins plugins.

Definition configTs (plugins : list string) : string :=
  GENERATED_FILE_COMMENT ++ Js.nl
  ++ "import userConfig from " ++ q
  ++ "./gatsby-config.ts.__vercel_builder_backup__.ts" ++ q ++ ";" ++ Js.nl
  ++ "import type { PluginRef } from " ++ q ++ "gatsby" ++ q ++ ";" ++ Js.nl
  ++ Js.nl
  ++ "const preferDefault = (m: any) => (m && m.default) || m;" ++ Js.nl
  ++ Js.nl
  ++ "const vercelConfig = Object.assign(" ++ Js.nl
  ++ "  {}," ++ Js.nl
  ++ "  preferDefault(userConfig)" ++ Js.nl
  ++ ");" ++ Js.nl
  ++ Js.nl
  ++ "if (!vercelConfig.plugins) {" ++ Js.nl
  ++ "  vercelConfig.plugins = [];" ++ Js.nl
  ++ "}" ++ Js.nl
  ++ Js.nl
  ++ "for (const plugin of " ++ Js.stringifyArray plugins ++ ") {" ++ Js.nl
  ++ "  const hasPlugin = vercelConfig.plugins.find(" ++ Js.nl
  ++ "    (p: PluginRef) =>" ++ Js.nl
  ++ "      p && (p === plugin || p.resolve === plugin)" ++ Js.nl
  ++ "  );" ++ Js.nl
  ++ Js.nl
  ++ "  if (!hasPlugin) {" ++ Js.nl
  ++ "    vercelConfig.plugins = vercelConfig.plugins.slice();" ++ Js.nl
  ++ "    vercelConfig.plugins.push(plugin);" ++ Js.nl
  ++ "  }" ++ Js.nl
  ++ "}" ++ Js.nl
  ++ Js.nl
  ++ "export default vercelConfig;" ++ Js.nl.

Definition configMjs (plugins : list string) : string :=
  GENERATED_FILE_COMMENT ++ Js.nl
  ++ "import userConfig from " ++ q
  ++ "./gatsby-config.mjs.__vercel_builder_backup__.mjs" ++ q ++ ";" ++ Js.nl
  ++ Js.nl
  ++ "const preferDefault = (m) => (m && m.default) || m;" ++ Js.nl
  ++ Js.nl
  ++ "const vercelConfig = Object.assign(" ++ Js.nl
  ++ "  {}," ++ Js.nl
  ++ "  preferDefault(userConfig)" ++ Js.nl
  ++ ");" ++ Js.nl
  ++ Js.nl
  ++ "if (!vercelConfig.plugins) {" ++ Js.nl
  ++ "  vercelConfig.plugins = [];" ++ Js.nl
  ++ "}" ++ Js.nl
  ++ Js.nl
  ++ "for (const plugin of " ++ Js.stringifyArray plugins ++ ") {" ++ Js.nl
  ++ "  const hasPlugin = vercelConfig.plugins.find(" ++ Js.nl
  ++ "    (p) => p && (p === plugin || p.resolve === plugin)" ++ Js.nl
  ++ "  );" ++ Js.nl
  ++ Js.nl
  ++ "  if (!hasPlugin) {" ++ Js.nl
  ++ "    vercelConfig.plugins = vercelConfig.plugins.slice();" ++ Js.nl
  ++ "    vercelConfig.plugins.push(plugin);" ++ Js.nl
  ++ "  }" ++ Js.nl
  ++ "}" ++ Js.nl
  ++ Js.nl
  ++ "export default vercelConfig;" ++ Js.nl.

Definition configJs (plugins : list string) : string :=
  GENERATED_FILE_COMMENT ++ Js.nl
  ++ "const userConfig = require(" ++ q
  ++ "./gatsby-config.js.__vercel_builder_backup__.js" ++ q ++ ");" ++ Js.nl
  ++ Js.nl
  ++ "const preferDefault = m => (m && m.default) || m;" ++ Js.nl
  ++ Js.nl
  ++ "const vercelConfig = Object.assign(" ++ Js.nl
  ++ "  {}," ++ Js.nl
  ++ "  preferDefault(userConfig)" ++ Js.nl
  ++ ");" ++ Js.nl
  ++ Js.nl
  ++ "if (!vercelConfig.plugins) {" ++ Js.nl
  ++ "  vercelConfig.plugins = [];" ++ Js.nl
  ++ "}" ++ Js.nl
  ++ Js.nl
  ++ "for (const plugin of " ++ Js.stringifyArray plugins ++ ") {" ++ Js.nl
  ++ "  const hasPlugin = vercelConfig.plugins.find(" ++ Js.nl
  ++ "    (p) => p && (p === plugin || p.resolve === plugin)" ++ Js.nl
  ++ "  );" ++ Js.nl
  ++ Js.nl
  ++ "  if (!hasPlugin) {" ++ Js.nl
  ++ "    vercelConfig.plugins = vercelConfig.plugins.slice();" ++ Js.nl
  ++ "    vercelConfig.plugins.push(plugin);" ++ Js.nl
  ++ "  }" ++ Js.nl
  ++ "}" ++ Js.nl
  ++ "module.exports = vercelConfig;" ++ Js.nl.

Definition nodeStub : string :=
  GENERATED_FILE_COMMENT ++ Js.nl
  ++ "module.exports = require('@vercel/gatsby-plugin-vercel-builder/gatsby-node.js');".

Definition nodeTs : string :=
  GENERATED_FILE_COMMENT ++ Js.nl
  ++ "import type { GatsbyNode } from 'gatsby';" ++ Js.nl
  ++ "import * as vercelBuilder from '@vercel/gatsby-plugin-vercel-builder/gatsby-node.js';" ++ Js.nl
  ++ "import * as gatsbyNode from './gatsby-node.ts.__vercel_builder_backup__.ts';" ++ Js.nl
  ++ Js.nl
  ++ "export * from './gatsby-node.ts.__vercel_builder_backup__.ts';" ++ Js.nl
  ++ Js.nl
  ++ "export const onPostBuild: GatsbyNode['onPostBuild'] = async (args, options) => {" ++ Js.nl
  ++ "  if (typeof (gatsbyNode as any).onPostBuild === 'function') {" ++ Js.nl
  ++ "    await (gatsbyNode as any).onPostBuild(args, options);" ++ Js.nl
  ++ "  }" ++ Js.nl
  ++ "  await vercelBuilder.onPostBuild(args, options);" ++ Js.nl
  ++ "};" ++ Js.nl.

Definition nodeMjs : string :=
  GENERATED_FILE_COMMENT ++ Js.nl
  ++ "import * as vercelBuilder from '@vercel/gatsby-plugin-vercel-builder/gatsby-node.js';" ++ Js.nl
  ++ "import * as gatsbyNode from './gatsby-node.mjs.__vercel_builder_backup__.mjs';" ++ Js.nl
  ++ Js.nl
  ++ "export * from './gatsby-node.mjs.__vercel_builder_backup__.mjs';" ++ Js.nl
  ++ Js.nl
  ++ "export const onPostBuild = async (args, options) => {" ++ Js.nl
  ++ "  if (typeof gatsbyNode.onPostBuild === 'function') {" ++ Js.nl
  ++ "    await gatsbyNode.onPostBuild(args, options);" ++ Js.nl
  ++ "  }" ++ Js.nl
  ++ "  await vercelBuilder.onPostBuild(args, options);" ++ Js.nl
  ++ "};" ++ Js.nl.

Definition nodeJs : string :=
  GENERATED_FILE_COMMENT ++ Js.nl
  ++ "const vercelBuilder = require('@vercel/gatsby-plugin-vercel-builder/gatsby-node.js');" ++ Js.nl
  ++ "const gatsbyNode = require('./gatsby-node.js.__vercel_builder_backup__.js');" ++ Js.nl
  ++ Js.nl
  ++ "const origOnPostBuild = gatsbyNode.onPostBuild;" ++ Js.nl
  ++ Js.nl
  ++ "gatsbyNode.onPostBuild = async (args, options) => {" ++ Js.nl
  ++ "  if (typeof origOnPostBuild === 'function') {" ++ Js.nl
  ++ "    await origOnPostBuild(args, options);" ++ Js.nl
  ++ "  }" ++ Js.nl
  ++ "  await vercelBuilder.onPostBuild(args, options);" ++ Js.nl
  ++ "};" ++ Js.nl
  ++ Js.nl
  ++ "module.exports = gatsbyNode;" ++ Js.nl.

Definition updateGatsbyConfigTs (configPath : string) (plugins : list string)
  : FsM unit :=
  let renamedPath := configPath ++ ".__vercel_builder_backup__.ts" in
  backedUp <- fileExists renamedPath ;;
  (if negb backedUp then rename configPath renamedPath else ret tt) ;;
  writeFile configPath (configTs plugins).

Definition updateGatsbyConfigMjs (configPath : string) (plugins : list string)
  : FsM unit :=
  let renamedPath := configPath ++ ".__vercel_builder_backup__.mjs" in
  backedUp <- fileExists renamedPath ;;
  (if negb backedUp then rename configPath renamedPath else ret tt) ;;
  writeFile configPath (configMjs plugins).

Definition updateGatsbyConfigJs (configPath : string) (plugins : list string)
  : FsM unit :=
  let renamedPath := configPath ++ ".__vercel_builder_backup__.js" in
  backedUp <- fileExists renamedPath ;;
  (if negb backedUp then rename configPath renamedPath else ret tt) ;;
  writeFile configPath (configJs plugins).

Definition updateGatsbyConfig (plugins : list string) : FsM unit :=
  let gatsbyConfigPathTs := GATSBY_CONFIG_FILE ++ ".ts" in
  let gatsbyConfigPathMjs := GATSBY_CONFIG_FILE ++ ".mjs" in
  let gatsbyConfigPathJs := GATSBY_CONFIG_FILE ++ ".js" in
  isTs <- fileExists gatsbyConfigPathTs ;;
  if isTs then updateGatsbyConfigTs gatsbyConfigPathTs plugins
  else
    isMjs <- fileExists gatsbyConfigPathMjs ;;
    if isMjs then updateGatsbyConfigMjs gatsbyConfigPathMjs plugins
    else
      isJs <- fileExists gatsbyConfigPathJs ;;
      if isJs then updateGatsbyConfigJs gatsbyConfigPathJs plugins
      else writeFile gatsbyConfigPathJs (configStub plugins).

Definition updateGatsbyNodeTs (configPath : string) : FsM unit :=
  let renamedPath := configPath ++ ".__vercel_builder_backup__.ts" in
  backedUp <- fileExists renamedPath ;;
  (if negb backedUp then rename configPath renamedPath else ret tt) ;;
  writeFile configPath nodeTs.

Definition updateGatsbyNodeMjs (configPath : string) : FsM unit :=
  let renamedPath := configPath ++ ".__vercel_builder_backup__.mjs" in
  backedUp <- fileExists renamedPath ;;
  (if negb backedUp then rename configPath renamedPath else ret tt) ;;
  writeFile configPath nodeMjs.

Definition updateGatsbyNodeJs (configPath : string) : FsM unit :=
  let renamedPath := configPath ++ ".__vercel_builder_backup__.js" in
  backedUp <- fileExists renamedPath ;;
  (if negb backedUp then rename configPath renamedPath else ret tt) ;;
  writeFile configPath nodeJs.

Definition updateGatsbyNode : FsM unit :=
  let gatsbyNodePathTs := GATSBY_NODE_FILE ++ ".ts" in
  let gatsbyNodePathMjs := GATSBY_NODE_FILE ++ ".mjs" in
  let gatsbyNodePathJs := GATSBY_NODE_FILE ++ ".js" in
  isTs <- fileExists gatsbyNodePathTs ;;
  if isTs then updateGatsbyNodeTs gatsbyNodePathTs
  else
    isMjs <- fileExists gatsbyNodePathMjs ;;
    if isMjs then updateGatsbyNodeMjs gatsbyNodePathMjs
    else
      isJs <- fileExists gatsbyNodePathJs ;;
      if isJs then updateGatsbyNodeJs gatsbyNodePathJs
      else writeFile gatsbyNodePathJs nodeStub.

(** [for (const x of l) body]. *)
Fixpoint forOf {A} (l : list A) (body : A -> FsM unit) : FsM unit :=
  match l with
  | [] => ret tt
  | x :: rest => body x ;; forOf rest body
  end.

(** [content && content.startsWith(prefix)]. *)
Definition startsWith (content : option string) (prefix : string) : bool :=
  Js.truthy content && String.prefix prefix (Js.orUndefined content).

(** The body of the [try] of [cleanupGatsbyFiles]. *)
Definition cleanupBody : FsM unit :=
  let backup := ".__vercel_builder_backup__" in
  let fileEndings := [".js"; ".ts"; ".mjs"] in
  forOf [GATSBY_CONFIG_FILE; GATSBY_NODE_FILE] (fun fileName =>
    forOf fileEndings (fun fileEnding =>
      let baseFile := fileName ++ fileEnding in
      let backupFile := baseFile ++ backup ++ fileEnding in
      baseFileContent <- tryReadFileSync baseFile ;;
      backupFileContent <- tryReadFileSync backupFile ;;
      (if startsWith baseFileContent GENERATED_FILE_COMMENT
       then rmSync baseFile else ret tt) ;;
      (if Js.truthy backupFileContent
       then rename backupFile baseFile else ret tt))).

(** [cleanupGatsbyFiles(dir)]: the files it leaves, and whether its
    [catch] ran. *)
Definition cleanupGatsbyFiles (fs : Files) : Files * bool :=
  (filesAfter cleanupBody fs, threw cleanupBody fs).

(** The six configuration files, each with the name of its backup, in
    the order [cleanupGatsbyFiles] visits them. *)
Definition pairs : list (string * string) :=
  flat_map
    (fun fileName =>
       map (fun fileEnding =>
              (fileName ++ fileEnding,
               (fileName ++ fileEnding) ++ ".__vercel_builder_backup__" ++ fileEnding))
           [".js"; ".ts"; ".mjs"])
    [GATSBY_CONFIG_FILE; GATSBY_NODE_FILE].

Definition names (l : list (string * string)) : list string :=
  (map fst l ++ map snd l)%list.

(** What one round of the loop leaves under the name of the file:
    the backup if it has content, nothing if the file is a generated one,
    the file otherwise. *)
Definition restored (fs : Files) (baseFile backupFile : string) : option string :=
  if Js.truthy (fs backupFile) then fs backupFile
  else if startsWith (fs baseFile) GENERATED_FILE_COMMENT then None
  else fs baseFile.

(** What it leaves under the name of the backup. *)
Definition keptBackup (fs : Files) (backupFile : string) : option string :=
  if Js.truthy (fs backupFile) then None else fs backupFile.

(** The files after one round of the loop. *)
Definition roundFiles (baseFile backupFile : string) (fs : Files) : Files :=
  let fs1 :=
    if startsWith (fs baseFile) GENERATED_FILE_COMMENT then del baseFile fs else fs in
  match fs backupFile with
  | Some (String c rest) => put baseFile (String c rest) (del backupFile fs1)
  | _ => fs1
  end.

Fixpoint cleaned (l : list (string * string)) (fs : Files) (p : string)
  : option string :=
  match l with
  | [] => fs p
  | (baseFile, backupFile) :: rest =>
      if String.eqb p baseFile then restored fs baseFile backupFile
      else if String.eqb p backupFile then keptBackup fs backupFile
      else cleaned rest fs p
  end.

(** A project directory nothing was injected into: no backup, no
    generated file. *)
Definition pristine (fs : Files) : Prop :=
  forall baseFile backupFile,
    In (baseFile, backupFile) pairs ->
    fs backupFile = None /\ startsWith (fs baseFile) GENERATED_FILE_COMMENT = false.

(** The file an update works on: the first there is of [.ts], [.mjs]
    and [.js]. *)
Definition selected (fileName : string) (fs : Files) : option string :=
  match fs (fileName ++ ".ts"), fs (fileName ++ ".mjs"), fs (fileName ++ ".js") with
  | Some _, _, _ => Some (fileName ++ ".ts")
  | None, Some _, _ => Some (fileName ++ ".mjs")
  | None, None, Some _ => Some (fileName ++ ".js")
  | None, None, None => None
  end.

(** One round of the loop of [cleanupGatsbyFiles], for a file and its
    backup. *)
Definition round (baseFile backupFile : string) : FsM unit :=
  baseFileContent <- tryReadFileSync baseFile ;;
  backupFileContent <- tryReadFileSync backupFile ;;
  (if startsWith baseFileContent GENERATED_FILE_COMMENT
   then rmSync baseFile else ret tt) ;;
  (if Js.truthy backupFileContent then rename backupFile baseFile else ret tt).

Fixpoint distinct (l : list string) : bool :=
  match l with
  | [] => true
  | x :: rest => negb (existsb (String.eqb x) rest) && distinct rest
  end.

(** The files after the steps the six update functions share, run on a
    file there is: the file is kept under the name of the backup unless
    there is a backup already, and the generated text takes its place. *)
Definition backedUp (configPath renamedPath content : string) (fs : Files) : Files :=
  put configPath content
      (match fs renamedPath, fs configPath with
       | None, Some user => put renamedPath user (del configPath fs)
       | _, _ => fs
       end).

(** The files after [updateGatsbyConfig] or [updateGatsbyNode], from the
    four texts it may write. *)
Definition updatedFiles (fileName textTs textMjs textJs textStub : string)
           (fs : Files) : Files :=
  match fs (fileName ++ ".ts"), fs (fileName ++ ".mjs"), fs (fileName ++ ".js") with
  | Some _, _, _ =>
      backedUp (fileName ++ ".ts")
               ((fileName ++ ".ts") ++ ".__vercel_builder_backup__.ts") textTs fs
  | None, Some _, _ =>
      backedUp (fileName ++ ".mjs")
               ((fileName ++ ".mjs") ++ ".__vercel_builder_backup__.mjs") textMjs fs
  | None, None, Some _ =>
      backedUp (fileName ++ ".js")
               ((fileName ++ ".js") ++ ".__vercel_builder_backup__.js") textJs fs
  | None, None, None => put (fileName ++ ".js") textStub fs
  end.

(** The ending of the file an update works on, and the text it writes. *)
Definition chosenEnding (fileName : string) (fs : Files) : string :=
  match fs (fileName ++ ".ts"), fs (fileName ++ ".mjs") with
  | Some _, _ => ".ts"
  | None, Some _ => ".mjs"
  | None, None => ".js"
  end.

Definition writtenText (fileName textTs textMjs textJs textStub : string)
           (fs : Files) : string :=
  match fs (fileName ++ ".ts"), fs (fileName ++ ".mjs"), fs (fileName ++ ".js") with
  | Some _, _, _ => textTs
  | None, Some _, _ => textMjs
  | None, None, Some _ => textJs
  | None, None, None => textStub
  end.

(** [fs'] is [fs] after some files were replaced by generated ones: each
    of the six files is as it was, with its backup, or is a generated file
    whose backup holds what the file was. *)
Definition injected (fs fs' : Files) : Prop :=
  (forall baseFile backupFile,
      In (baseFile, backupFile) pairs ->
      (fs' baseFile = fs baseFile /\ fs' backupFile = fs backupFile) \/
      (startsWith (fs' baseFile) GENERATED_FILE_COMMENT = true /\
       fs' backupFile = fs baseFile /\ fs baseFile <> Some EmptyString)) /\
  (forall p, ~ In p (names pairs) -> fs' p = fs p).

(** A project directory to run the functions on. *)
Definition exampleProject : Files :=
  fun p =>
    if String.eqb p "gatsby-config.js" then Some "module.exports = { plugins: [] }"
    else if String.eqb p "gatsby-node.ts" then Some "export const onPreInit = () => {}"
    else if String.eqb p "package.json" then Some "{}"
    else None.


End Gatsby.

(** * Domain transfer

    A shallow embedding of [transferIn] of
    [src/commands/domains/transfer-in.ts]. What the function calls (the
    scope lookup, [psl], the prompt, the transfer request, the output
    helpers) is taken as given; the function is the sequence of its
    observable steps and what it returns. *)

Module TransferIn.

(** A thrown value, with its [code] and [message]. *)
Record ApiError : Type := mkApiError {
  errorCode : option string;
  errorMessage : string
}.

(** [await getScope(client)]. *)
Inductive ScopeOutcome : Type :=
| ScopeResolved (contextName : string)
| ScopeRejected (err : ApiError).

(** [psl.parse(domainName)]: either field may be [null]. *)
Record ParsedDomain : Type := mkParsedDomain {
  domain : option string;
  subdomain : option string
}.

(** [await textInput(...)]. *)
Inductive PromptOutcome : Type :=
| Typed (value : string)
| PromptRejected (err : ApiError).

(** [await transferInDomain(client, domainName, authCode)]: an instance
    of one of three error classes with its [meta.domain], any other value,
    or a rejection. *)
Inductive TransferOutcome : Type :=
| InvalidDomain (metaDomain : string)
| DomainNotAvailable (metaDomain : string)
| DomainNotTransferable (metaDomain : string)
| OtherValue
| TransferRejected (err : ApiError).

Inductive Step : Type :=
| OutputError (message : string)
| Prompt (label : string)
| SpinnerStart (text : string)
| SpinnerStop
| TransferRequest (domainName authCode : string)
| ConsoleLog (text : string)
| OutputPrint (text : string).

Inductive Result : Type :=
| Returned (exitCode : Z)
| Thrown (err : ApiError).

(** [isValidAuthCode]: [!!(code && code.length > 0)]. *)
Definition isValidAuthCode (code : option string) : bool :=
  Js.truthy code && Nat.ltb 0 (String.length (Js.orUndefined code)).

Section World.

Variable getScope : ScopeOutcome.
Variable pslParse : string -> ParsedDomain.
Variable textInput : PromptOutcome.
Variable transferInDomain : string -> string -> TransferOutcome.

(** [cmd], [param], [chalk.cyan], and what [transferStamp()] gives. *)
Variable cmd : string -> string.
Variable param : string -> string.
Variable cyan : string -> string.
Variable elapsed : string.

(** Lines 70 to 99: from the transfer request on. *)
Definition transfer (domainName authCode : string) : list Step * Result :=
  match transferInDomain domainName authCode with
  | TransferRejected err =>
      ([SpinnerStart "Transferring"; TransferRequest domainName authCode],
       Thrown err)
  | InvalidDomain metaDomain =>
      ([SpinnerStart "Transferring"; TransferRequest domainName authCode; SpinnerStop;
        OutputError ("The domain " ++ metaDomain ++ " is not valid.")],
       Returned 1)
  | DomainNotAvailable metaDomain
  | DomainNotTransferable metaDomain =>
      ([SpinnerStart "Transferring"; TransferRequest domainName authCode; SpinnerStop;
        OutputError ("The domain " ++ Js.str Js.dquote ++ metaDomain
                     ++ Js.str Js.dquote ++ " is not transferable.")],
       Returned 1)
  | OtherValue =>
      ([SpinnerStart "Transferring"; TransferRequest domainName authCode; SpinnerStop;
        ConsoleLog (cyan "> Success!" ++ " Domain " ++ param domainName
                    ++ " transfer started " ++ elapsed);
        OutputPrint ("We have initiated a transfer for " ++ domainName ++ "."
                     ++ Js.nl
                     ++ "To finalize the transfer, we are waiting for approval from your current registrar.")],
       Returned 0)
  end.

(** [transferIn(ctx, opts, args, output)], with [code] for
    [opts['--code']]. *)
Definition transferIn (code : option string) (args : list string)
  : list Step * Result :=
  match getScope with
  | ScopeRejected err =>
      if match errorCode err with
         | Some c => String.eqb c "not_authorized"
         | None => false
         end
      then ([OutputError (errorMessage err)], Returned 1)
      else ([], Thrown err)
  | ScopeResolved _ =>
      let domainName := nth_error args 0 in
      if negb (Js.truthy domainName) then
        ([OutputError ("Missing domain name. Run " ++ cmd "now domains --help")],
         Returned 1)
      else
        let parsed := pslParse (Js.orUndefined domainName) in
        if Js.truthy (subdomain parsed) || negb (Js.truthy (domain parsed)) then
          ([OutputError ("Invalid domain name " ++ Js.str Js.dquote
                         ++ Js.orUndefined domainName ++ Js.str Js.dquote
                         ++ ". Run " ++ cmd "now domains --help")],
           Returned 1)
        else if isValidAuthCode code then
          transfer (Js.orUndefined domainName) (Js.orUndefined code)
        else
          match textInput with
          | PromptRejected err => ([Prompt "Transfer auth code: "], Thrown err)
          | Typed authCode =>
              let (steps, result) := transfer (Js.orUndefined domainName) authCode in
              (Prompt "Transfer auth code: " :: steps, result)
          end
  end.

End World.

(** The transfer requests among the steps, and the error lines. *)
Definition requests (steps : list Step) : list (string * string) :=
  flat_map (fun s => match s with
                     | TransferRequest d c => [(d, c)]
                     | _ => []
                     end) steps.

Definition errorLines (steps : list Step) : list string :=
  flat_map (fun s => match s with OutputError m => [m] | _ => [] end) steps.

Definition successLines (steps : list Step) : list string :=
  flat_map (fun s => match s with
                     | ConsoleLog t => [t]
                     | OutputPrint t => [t]
                     | _ => []
                     end) steps.

Definition prompts (steps : list Step) : nat :=
  List.length (filter (fun s => match s with Prompt _ => true | _ => false end) steps).

(** The domain name passes the checks of lines 50 to 61. *)
Definition acceptedName (pslParse : string -> ParsedDomain) (args : list string)
  : option string :=
  match nth_error args 0 with
  | Some (String c rest as domainName) =>
      if Js.truthy (subdomain (pslParse domainName))
         || negb (Js.truthy (domain (pslParse domainName)))
      then None else Some domainName
  | _ => None
  end.

(** The auth code sent: the option when it is valid, what is typed at
    the prompt otherwise. *)
Definition authCodeFor (code : option string) (textInput : PromptOutcome)
  : option string :=
  if isValidAuthCode code then Some (Js.orUndefined code)
  else match textInput with
       | Typed value => Some value
       | PromptRejected _ => None
       end.

Definition spinnerStarts (steps : list Step) : nat :=
  List.length (filter (fun s => match s with SpinnerStart _ => true | _ => false end)
                      steps).

Definition spinnerStops (steps : list Step) : nat :=
  List.length (filter (fun s => match s with SpinnerStop => true | _ => false end)
                      steps).

Definition scopeResolved (getScope : ScopeOutcome) : bool :=
  match getScope with
  | ScopeResolved _ => true
  | ScopeRejected _ => false
  end.

(** A run to try the function on: the scope resolves, [psl] takes a name
    without a dot for a name without a root domain and a name with two
    dots for a name with a subdomain, and the registrar accepts. *)
Definition dots (s : string) : nat :=
  List.length (filter (Ascii.eqb ".") (list_ascii_of_string s)).

Definition examplePsl (s : string) : ParsedDomain :=
  match dots s with
  | O => mkParsedDomain None None
  | S O => mkParsedDomain (Some s) None
  | _ => mkParsedDomain (Some s) (Some "www")
  end.

Definition exampleRun (code : option string) (args : list string)
  : list Step * Result :=
  transferIn (ScopeResolved "me") examplePsl (Typed "typed-code")
             (fun _ _ => OtherValue) (fun s => s) (fun s => s) (fun s => s) "[1s]"
             code args.

End TransferIn.

(** ** The scan *)

Section Scan.

Variable SemverRange : Type.
Variable parseRange : string -> option SemverRange.
Variable rangeIntersects : SemverRange -> SemverRange -> bool.

Local Abbreviation meet := (intersection SemverRange parseRange rangeIntersects).
Local Abbreviation call := (intersects SemverRange parseRange rangeIntersects).

(** The callback of line 45, for the requested range [r]. *)
Local Abbreviation callback r :=
  (fun o (_ : NodeVersion) =>
     let selection := o in b <- call (range o) r ;; ret (selection, b)).

Lemma intersects_intersection r1 r2 :
  call r1 r2 =
  match meet r1 r2 with
  | Some b => ret b
  | None => throw TypeError
  end.
Proof.
  unfold intersects, intersection.
  destruct (parseRange r1); [destruct (parseRange r2)|]; reflexivity.
Qed.

Lemma last_cons {A} (a s : A) (l : list A) : last (a :: l) s = last l a.
Proof.
  revert a s. induction l as [|b l IH]; intros a s; [reflexivity|].
  change (last (a :: b :: l) s) with (last (b :: l) s).
  rewrite (IH b s), (IH b a). reflexivity.
Qed.

(** No callback answers [true]: the scan ends on the last element. *)
Lemma scan_none r l s :
  (forall o, In o l -> meet (range o) r = Some false) ->
  Array_some (callback r) l s = ret (last l s, false).
Proof.
  revert s. induction l as [|a l IH]; intros s Hall; [reflexivity|].
  rewrite last_cons.
  cbn [Array_some]. rewrite intersects_intersection, (Hall a (or_introl eq_refl)).
  cbn [bind ret fst snd app]. rewrite IH by (intros o Ho; apply Hall; right; exact Ho).
  reflexivity.
Qed.

(** The scan stops on the first element whose callback answers [true]. *)
Lemma scan_first r pre o post s :
  (forall o', In o' pre -> meet (range o') r = Some false) ->
  meet (range o) r = Some true ->
  Array_some (callback r) (pre ++ o :: post)%list s = ret (o, true).
Proof.
  revert s. induction pre as [|a pre IH]; intros s Hpre Ho.
  - cbn [Array_some app]. rewrite intersects_intersection, Ho. reflexivity.
  - cbn [Array_some app]. rewrite intersects_intersection, (Hpre a (or_introl eq_refl)).
    cbn [bind ret throw fst snd app].
    rewrite IH; [reflexivity| |exact Ho].
    intros o' Ho'. apply Hpre. right. exact Ho'.
Qed.

(** The scan is abandoned on the first call that throws. *)
Lemma scan_throws r pre o post s :
  (forall o', In o' pre -> meet (range o') r = Some false) ->
  meet (range o) r = None ->
  Array_some (callback r) (pre ++ o :: post)%list s = throw TypeError.
Proof.
  revert s. induction pre as [|a pre IH]; intros s Hpre Ho.
  - cbn [Array_some app]. rewrite intersects_intersection, Ho. reflexivity.
  - cbn [Array_some app]. rewrite intersects_intersection, (Hpre a (or_introl eq_refl)).
    cbn [bind ret throw fst snd app].
    rewrite IH; [reflexivity| |exact Ho].
    intros o' Ho'. apply Hpre. right. exact Ho'.
Qed.

(** Either every call answers [false], or there is a first call that
    does not. *)
Lemma scan_split r (l : list NodeVersion) :
  (forall o, In o l -> meet (range o) r = Some false) \/
  exists pre o post,
    l = (pre ++ o :: post)%list /\
    (forall o', In o' pre -> meet (range o') r = Some false) /\
    meet (range o) r <> Some false.
Proof.
  induction l as [|a l IH].
  - left. intros o [].
  - destruct (meet (range a) r) as [[|]|] eqn:Ha.
    + right. exists [], a, l. repeat split; [intros o' []|congruence].
    + destruct IH as [Hall | (pre & o & post & -> & Hpre & Ho)].
      * left. intros o [<-|Hin]; [exact Ha|apply Hall, Hin].
      * right. exists (a :: pre), o, post. repeat split; [|exact Ho].
        intros o' [<-|Hin]; [exact Ha|apply Hpre, Hin].
    + right. exists [], a, l. repeat split; [intros o' []|congruence].
Qed.

(** [find] stops on the first element that passes the test. *)
Lemma find_first {A} (f : A -> bool) (l : list A) (x : A) :
  find f l = Some x ->
  exists pre post,
    l = (pre ++ x :: post)%list /\ f x = true /\
    forall y, In y pre -> f y = false.
Proof.
  induction l as [|a l IH]; [discriminate|].
  cbn [find]. destruct (f a) eqn:Ha.
  - intros [= <-]. exists [], l. repeat split; [exact Ha|intros y []].
  - intros Hx. destruct (IH Hx) as (pre & post & -> & Hfx & Hpre).
    exists (a :: pre), post. repeat split; [exact Hfx|].
    intros y [<-|Hin]; [exact Ha|apply Hpre, Hin].
Qed.

Lemma matches_true r o :
  matches SemverRange parseRange rangeIntersects r o = true <->
  meet (range o) r = Some true.
Proof.
  unfold matches. destruct (meet (range o) r) as [[|]|]; split; congruence.
Qed.

(** When both strings are ranges, a failed match is an empty
    intersection. *)
Lemma matches_false r o :
  parseRange (range o) <> None -> parseRange r <> None ->
  matches SemverRange parseRange rangeIntersects r o = false ->
  meet (range o) r = Some false.
Proof.
  unfold matches, intersection.
  destruct (parseRange (range o)); [|congruence].
  destruct (parseRange r); [|congruence].
  destruct (rangeIntersects s s0); congruence.
Qed.

Lemma intersection_parses r1 r2 b :
  meet r1 r2 = Some b -> parseRange r2 <> None.
Proof.
  unfold intersection.
  destruct (parseRange r1); [|discriminate].
  destruct (parseRange r2); [congruence|discriminate].
Qed.

End Scan.

(** ** The order of the table *)

Lemma newestFirst_head a l :
  newestFirst (a :: l) = true -> forall x, In x l -> major x < major a.
Proof.
  revert a. induction l as [|b l IH]; intros a H x Hx; [destruct Hx|].
  cbn [newestFirst] in H. apply andb_true_iff in H. destruct H as [Hba Hrest].
  apply Z.ltb_lt in Hba. destruct Hx as [<-|Hx]; [exact Hba|].
  specialize (IH b Hrest x Hx). lia.
Qed.

Lemma newestFirst_tail a l : newestFirst (a :: l) = true -> newestFirst l = true.
Proof.
  destruct l as [|b l]; [reflexivity|].
  cbn [newestFirst]. intros H. apply andb_true_iff in H. apply H.
Qed.

Lemma newestFirst_after pre o post :
  newestFirst (pre ++ o :: post) = true ->
  forall x, In x post -> major x < major o.
Proof.
  induction pre as [|a pre IH]; intros H.
  - apply newestFirst_head. exact H.
  - apply IH. apply (newestFirst_tail a). exact H.
Qed.

Lemma newestFirst_adjacent l :
  newestFirst l = true ->
  forall i a b,
    nth_error l i = Some a -> nth_error l (S i) = Some b -> major b < major a.
Proof.
  induction l as [|x l IH]; intros H i a b Ha Hb.
  - destruct i; discriminate.
  - destruct i as [|i].
    + cbn in Ha. injection Ha as <-. cbn in Hb.
      apply (newestFirst_head x l H). destruct l; [discriminate|].
      cbn in Hb. injection Hb as <-. left. reflexivity.
    + apply (IH (newestFirst_tail x l H) i a b); assumption.
Qed.

Lemma allOptions_newestFirst : newestFirst allOptions = true.
Proof. reflexivity. Qed.

(** The index [allOptions.length - 1] is inside the array, and what it
    holds is the last element. *)
Lemma getOldestNodeVersion_index :
  nth_error allOptions (List.length allOptions - 1) = Some getOldestNodeVersion.
Proof. reflexivity. Qed.

Lemma getOldestNodeVersion_last :
  getOldestNodeVersion = last allOptions noNodeVersion.
Proof. reflexivity. Qed.

Lemma getLatestNodeVersion_index :
  nth_error allOptions 0 = Some getLatestNodeVersion.
Proof. reflexivity. Qed.

Lemma codes_differ : NODE_VERSION_INVALID <> NODE_VERSION_DISCONTINUED.
Proof. discriminate. Qed.

Lemma occursIn_middle before needle after :
  occursIn needle (before ++ needle ++ after).
Proof. exists before, after. reflexivity. Qed.

Lemma append_assoc (a b c : string) : (a ++ b) ++ c = a ++ b ++ c.
Proof. induction a as [|x a IH]; [reflexivity|]. cbn. now rewrite IH. Qed.

(** The notice names the date it is given. *)
Lemma notice_names_date selection d hint : occursIn d (notice selection d hint).
Proof.
  unfold notice.
  exists ("NOTICE" ++ Js.nl ++ Js.nl ++ "Node.js version " ++ range selection
          ++ " has reached end-of-life." ++ Js.nl
          ++ "As a result, deployments created on or after "),
         (" will fail to build." ++ Js.nl ++ hint ++ Js.nl ++ upstreamProvider).
  rewrite !append_assoc. reflexivity.
Qed.

(** ** Occurrences in a text *)

Lemma prefix_starts needle text :
  String.prefix needle text = true <-> exists after, text = needle ++ after.
Proof.
  revert text. induction needle as [|a needle IH]; intros text.
  - split; [intros _; exists text; reflexivity|intros _; destruct text; reflexivity].
  - destruct text as [|b text]; cbn [String.prefix].
    + split; [discriminate|intros (after & H); discriminate].
    + destruct (ascii_dec a b) as [->|Hab].
      * rewrite IH. split; intros (after & H); exists after.
        -- cbn [append]. rewrite H. reflexivity.
        -- cbn [append] in H. congruence.
      * split; [discriminate|]. intros (after & H). cbn [append] in H. congruence.
Qed.

Lemma occurs_spec needle text : occurs needle text = true <-> occursIn needle text.
Proof.
  induction text as [|c text IH]; cbn [occurs].
  - rewrite orb_false_r, prefix_starts. split.
    + intros (after & H). exists EmptyString, after. exact H.
    + intros ([|b before] & after & H); [exists after; exact H|discriminate].
  - rewrite orb_true_iff, prefix_starts, IH. split.
    + intros [(after & H)|(before & after & H)].
      * exists EmptyString, after. exact H.
      * exists (String c before), after. cbn [append]. rewrite H. reflexivity.
    + intros ([|b before] & after & H).
      * left. exists after. exact H.
      * right. exists before, after. cbn [append] in H. congruence.
Qed.

(** The table carries one date: the list of supported ranges has two
    values. *)
Lemma supportedRangesAt_cases time :
  supportedRangesAt time =
  if date_2020_01_06 <=? time then ["12.x"; "10.x"] else ["12.x"; "10.x"; "8.10.x"].
Proof.
  unfold supportedRangesAt, allOptions, isDiscontinued.
  cbn [filter map negb discontinueDate range node12 node10 node8].
  destruct (date_2020_01_06 <=? time); reflexivity.
Qed.

(** [JSON.stringify] has nothing to escape in the ranges of the table. *)
Lemma pleaseUse_text loadTime :
  pleaseUse loadTime =
  "Please use one of the following `engines` in your `package.json`: "
  ++ listOfRanges (supportedRangesAt loadTime).
Proof.
  unfold pleaseUse, pleaseUseOf.
  change (map range (supportedOptions loadTime)) with (supportedRangesAt loadTime).
  rewrite supportedRangesAt_cases. destruct (date_2020_01_06 <=? loadTime); reflexivity.
Qed.

(** The ranges in the list are those of the options not discontinued at
    [time], and no others of the table. *)
Lemma listed_ranges time o :
  In o allOptions ->
  (occursIn (quoted (range o)) (listOfRanges (supportedRangesAt time))
   <-> isDiscontinued time o = false).
Proof.
  intros Hin. rewrite <- occurs_spec, supportedRangesAt_cases.
  destruct Hin as [<-|[<-|[<-|[]]]]; unfold isDiscontinued;
    cbn [discontinueDate node12 node10 node8];
    destruct (date_2020_01_06 <=? time); vm_compute; split; congruence.
Qed.

(** The one date of the table, as the notice prints it, names the day
    of that date. *)
Lemma date_of_table o t :
  In o allOptions -> discontinueDate o = Some t ->
  Js.isoDate t = "2020-01-06" /\ t / 86400000 = 18267.
Proof.
  intros [<-|[<-|[<-|[]]]]; cbn [discontinueDate node12 node10 node8];
    intros [= <-]. split; reflexivity.
Qed.

Lemma table_date_reads o t :
  In o allOptions -> discontinueDate o = Some t ->
  readDate (Js.isoDate t) = Some (t / 86400000).
Proof.
  intros Hin Ht. destruct (date_of_table o t Hin Ht) as [-> ->]. reflexivity.
Qed.

(** ** The two phases of a call *)

Section Phases.

Variable SemverRange : Type.
Variable parseRange : string -> option SemverRange.
Variable rangeIntersects : SemverRange -> SemverRange -> bool.
Variable boxen : string -> string.

Local Abbreviation meet := (intersection SemverRange parseRange rangeIntersects).
Local Abbreviation selection := (select SemverRange parseRange rangeIntersects).
Local Abbreviation resolve :=
  (getSupportedNodeVersion SemverRange parseRange rangeIntersects boxen).

(** Without a usable range the scan is skipped. *)
Lemma select_fallback loadTime r isAuto :
  Js.truthy r = false -> selection loadTime r isAuto = ret getOldestNodeVersion.
Proof. intros H. unfold select. rewrite H. reflexivity. Qed.

Lemma select_invalid loadTime r isAuto :
  Js.truthy r = true ->
  (forall o, In o allOptions -> meet (range o) (Js.orUndefined r) = Some false) ->
  selection loadTime r isAuto =
  throw (NowBuildError NODE_VERSION_INVALID
                       (invalidRangeMessageAt loadTime (Js.orUndefined r) isAuto)).
Proof.
  intros Hr Hall. unfold select. rewrite Hr.
  rewrite (scan_none _ _ _ _ _ _ Hall).
  cbn [bind ret fst snd negb app]. rewrite orb_false_r. reflexivity.
Qed.

Lemma select_first loadTime r isAuto pre o post :
  Js.truthy r = true ->
  allOptions = (pre ++ o :: post)%list ->
  (forall o', In o' pre -> meet (range o') (Js.orUndefined r) = Some false) ->
  meet (range o) (Js.orUndefined r) = Some true ->
  selection loadTime r isAuto = ret o.
Proof.
  intros Hr Hl Hpre Ho. unfold select. rewrite Hr, Hl.
  rewrite (scan_first _ _ _ _ _ _ _ _ Hpre Ho). reflexivity.
Qed.

Lemma select_throws loadTime r isAuto pre o post :
  Js.truthy r = true ->
  allOptions = (pre ++ o :: post)%list ->
  (forall o', In o' pre -> meet (range o') (Js.orUndefined r) = Some false) ->
  meet (range o) (Js.orUndefined r) = None ->
  selection loadTime r isAuto = throw TypeError.
Proof.
  intros Hr Hl Hpre Ho. unfold select. rewrite Hr, Hl.
  rewrite (scan_throws _ _ _ _ _ _ _ _ Hpre Ho). reflexivity.
Qed.

Lemma select_Selected loadTime r isAuto :
  Selected SemverRange parseRange rangeIntersects loadTime r isAuto
           (selection loadTime r isAuto).
Proof.
  destruct (Js.truthy r) eqn:Hr.
  - destruct (scan_split SemverRange parseRange rangeIntersects
                         (Js.orUndefined r) allOptions)
      as [Hall | (pre & o & post & Hl & Hpre & Ho)].
    + rewrite (select_invalid _ _ _ Hr Hall). now apply SelectedInvalid.
    + destruct (meet (range o) (Js.orUndefined r)) as [[|]|] eqn:Hm.
      * rewrite (select_first _ _ _ _ _ _ Hr Hl Hpre Hm).
        now apply (SelectedFirst _ _ _ _ _ _ pre o post).
      * congruence.
      * rewrite (select_throws _ _ _ _ _ _ Hr Hl Hpre Hm).
        now apply (SelectedThrows _ _ _ _ _ _ pre o post).
  - rewrite (select_fallback _ _ _ Hr). now apply SelectedFallback.
Qed.

(** The first phase writes nothing. *)
Lemma select_silent loadTime r isAuto : events (selection loadTime r isAuto) = [].
Proof. destruct (select_Selected loadTime r isAuto); reflexivity. Qed.

Lemma select_in_table loadTime r isAuto o :
  settled (selection loadTime r isAuto) = Normal o -> In o allOptions.
Proof.
  destruct (select_Selected loadTime r isAuto) as [| |pre o' post _ Hl _ _|];
    unfold settled, ret, throw; cbn [snd];
    intros Heq; try discriminate; injection Heq as <-.
  - right. right. left. reflexivity.
  - rewrite Hl. apply in_or_app. right. left. reflexivity.
Qed.

(** The second phase, by cases on the selection. *)
Lemma settle_discontinued loadTime today r isAuto o :
  isDiscontinued today o = true ->
  settle boxen loadTime today r isAuto o =
  throw (NowBuildError NODE_VERSION_DISCONTINUED
           ((if Js.truthyFlag isAuto || negb (Js.truthy r)
             then discontinuedIntroAuto
             else discontinuedIntroFound loadTime (Js.orUndefined r))
            ++ Js.nl ++ upstreamProvider)).
Proof. intros H. unfold settle. rewrite H. reflexivity. Qed.

Lemma settle_dated loadTime today r isAuto o t :
  isDiscontinued today o = false ->
  discontinueDate o = Some t ->
  settle boxen loadTime today r isAuto o =
  ([DebugLine (debugLine r isAuto o);
    ConsoleWarn (boxen (notice o (Js.isoDate t) (hint loadTime r isAuto)))],
   Normal o).
Proof. intros H Ht. unfold settle. rewrite H, Ht. reflexivity. Qed.

Lemma settle_undated loadTime today r isAuto o :
  isDiscontinued today o = false ->
  discontinueDate o = None ->
  settle boxen loadTime today r isAuto o =
  ([DebugLine (debugLine r isAuto o)], Normal o).
Proof. intros H Ht. unfold settle. rewrite H, Ht. reflexivity. Qed.

(** A call is its two phases in sequence. *)
Lemma resolve_selected loadTime today r isAuto o :
  selection loadTime r isAuto = ret o ->
  resolve loadTime today r isAuto = settle boxen loadTime today r isAuto o.
Proof.
  intros H. unfold getSupportedNodeVersion. rewrite H.
  cbn [bind ret app]. destruct (settle _ _ _ _ _ _). reflexivity.
Qed.

Lemma resolve_thrown loadTime today r isAuto e :
  selection loadTime r isAuto = throw e ->
  resolve loadTime today r isAuto = throw e.
Proof. intros H. unfold getSupportedNodeVersion. rewrite H. reflexivity. Qed.

Lemma select_normal loadTime r isAuto o :
  settled (selection loadTime r isAuto) = Normal o ->
  selection loadTime r isAuto = ret o.
Proof.
  intros H. pose proof (select_silent loadTime r isAuto) as E.
  destruct (selection loadTime r isAuto) as [out c]. cbn in *. subst. reflexivity.
Qed.

Lemma select_abrupt loadTime r isAuto e :
  settled (selection loadTime r isAuto) = Abrupt e ->
  selection loadTime r isAuto = throw e.
Proof.
  intros H. pose proof (select_silent loadTime r isAuto) as E.
  destruct (selection loadTime r isAuto) as [out c]. cbn in *. subst. reflexivity.
Qed.

Lemma isDiscontinued_true today o :
  isDiscontinued today o = true <->
  exists t, discontinueDate o = Some t /\ t <= today.
Proof.
  unfold isDiscontinued. destruct (discontinueDate o) as [t|].
  - rewrite Z.leb_le. split; [intros H; exists t; auto|].
    intros (t' & [= <-] & H). exact H.
  - split; [discriminate|]. intros (t' & H & _). discriminate.
Qed.

Lemma isDiscontinued_false_dated today o t :
  discontinueDate o = Some t -> (isDiscontinued today o = false <-> today < t).
Proof. intros H. unfold isDiscontinued. rewrite H. apply Z.leb_gt. Qed.

(** The first match of the specification is where the scan stops. *)
Lemma firstMatch_scan r o :
  knownRangesParse SemverRange parseRange ->
  firstMatch SemverRange parseRange rangeIntersects r = Some o ->
  exists pre post,
    allOptions = (pre ++ o :: post)%list /\
    (forall o', In o' pre -> meet (range o') r = Some false) /\
    meet (range o) r = Some true.
Proof.
  intros Hknown Hfind. unfold firstMatch in Hfind.
  destruct (find_first _ _ _ Hfind) as (pre & post & Hl & Ho & Hpre).
  apply matches_true in Ho.
  exists pre, post. repeat split; [exact Hl| |exact Ho].
  intros o' Hin. apply matches_false.
  - apply Hknown. rewrite Hl. apply in_or_app. left. exact Hin.
  - apply (intersection_parses _ _ _ _ _ _ Ho).
  - apply Hpre, Hin.
Qed.

End Phases.

(** ** What a call gives *)

Section Outcome.

Variable SemverRange : Type.
Variable parseRange : string -> option SemverRange.
Variable rangeIntersects : SemverRange -> SemverRange -> bool.
Variable boxen : string -> string.

Local Abbreviation selection := (select SemverRange parseRange rangeIntersects).
Local Abbreviation resolve :=
  (getSupportedNodeVersion SemverRange parseRange rangeIntersects boxen).

Lemma settle_outcome loadTime today r isAuto o :
  settled (settle boxen loadTime today r isAuto o) =
  if isDiscontinued today o
  then Abrupt (NowBuildError NODE_VERSION_DISCONTINUED
                 ((if Js.truthyFlag isAuto || negb (Js.truthy r)
                   then discontinuedIntroAuto
                   else discontinuedIntroFound loadTime (Js.orUndefined r))
                  ++ Js.nl ++ upstreamProvider))
  else Normal o.
Proof.
  unfold settle. destruct (isDiscontinued today o); [reflexivity|].
  destruct (discontinueDate o); reflexivity.
Qed.

Lemma settle_warnings loadTime today r isAuto o :
  warnings (settle boxen loadTime today r isAuto o) =
  if isDiscontinued today o then []
  else match discontinueDate o with
       | Some t => [boxen (notice o (Js.isoDate t) (hint loadTime r isAuto))]
       | None => []
       end.
Proof.
  unfold settle. destruct (isDiscontinued today o); [reflexivity|].
  destruct (discontinueDate o); reflexivity.
Qed.

(** The outcome of a call, from the outcome of its first phase. *)
Lemma resolve_outcome loadTime today r isAuto :
  settled (resolve loadTime today r isAuto) =
  match settled (selection loadTime r isAuto) with
  | Normal o => settled (settle boxen loadTime today r isAuto o)
  | Abrupt e => Abrupt e
  end.
Proof.
  destruct (settled (selection loadTime r isAuto)) as [o|e] eqn:H.
  - rewrite (resolve_selected _ _ _ boxen _ today _ _ _ (select_normal _ _ _ _ _ _ _ H)).
    reflexivity.
  - rewrite (resolve_thrown _ _ _ boxen _ today _ _ _ (select_abrupt _ _ _ _ _ _ _ H)).
    reflexivity.
Qed.

Lemma resolve_warnings loadTime today r isAuto :
  warnings (resolve loadTime today r isAuto) =
  match settled (selection loadTime r isAuto) with
  | Normal o => warnings (settle boxen loadTime today r isAuto o)
  | Abrupt e => []
  end.
Proof.
  destruct (settled (selection loadTime r isAuto)) as [o|e] eqn:H.
  - rewrite (resolve_selected _ _ _ boxen _ today _ _ _ (select_normal _ _ _ _ _ _ _ H)).
    reflexivity.
  - rewrite (resolve_thrown _ _ _ boxen _ today _ _ _ (select_abrupt _ _ _ _ _ _ _ H)).
    reflexivity.
Qed.

(** The second phase never rejects with the invalid-range code. *)
Lemma settle_not_invalid loadTime today r isAuto o :
  rejectionCode (settled (settle boxen loadTime today r isAuto o))
  <> Some NODE_VERSION_INVALID.
Proof.
  rewrite settle_outcome.
  destruct (isDiscontinued today o); cbn [rejectionCode]; [|discriminate].
  intros H. apply codes_differ. congruence.
Qed.

(** The flag has no part in the first phase but the wording. *)
Lemma select_flag loadTime r isAuto isAuto' :
  withoutWording (settled (selection loadTime r isAuto)) =
  withoutWording (settled (selection loadTime r isAuto')).
Proof.
  destruct (select_Selected SemverRange parseRange rangeIntersects loadTime r isAuto)
    as [Hr|Hr Hall|pre o post Hr Hl Hpre Ho|pre o post Hr Hl Hpre Ho].
  - rewrite (select_fallback _ _ _ _ _ isAuto' Hr). reflexivity.
  - rewrite (select_invalid _ _ _ _ _ isAuto' Hr Hall). reflexivity.
  - rewrite (select_first _ _ _ _ _ isAuto' _ _ _ Hr Hl Hpre Ho). reflexivity.
  - rewrite (select_throws _ _ _ _ _ isAuto' _ _ _ Hr Hl Hpre Ho). reflexivity.
Qed.

Lemma supportedRangesAt_same time time' :
  (forall o, In o allOptions -> isDiscontinued time o = isDiscontinued time' o) ->
  supportedRangesAt time = supportedRangesAt time'.
Proof.
  intros H. unfold supportedRangesAt. f_equal. apply filter_ext_in.
  intros o Ho. rewrite (H o Ho). reflexivity.
Qed.

End Outcome.

(** ** The resolver's contract *)

Section Contract.

Variable SemverRange : Type.
Variable parseRange : string -> option SemverRange.
Variable rangeIntersects : SemverRange -> SemverRange -> bool.
Variable boxen : string -> string.

Local Abbreviation meet := (intersection SemverRange parseRange rangeIntersects).
Local Abbreviation selection := (select SemverRange parseRange rangeIntersects).
Local Abbreviation resolve :=
  (getSupportedNodeVersion SemverRange parseRange rangeIntersects boxen).

(** C1, as amended. For a present requested range that is not the empty
    string and intersects the range of some known option, the scan
    selects the first option of the newest-to-oldest table whose range
    intersects it; no matching option has a larger major version (it is
    the newest match, not the last one); the call returns that option
    whenever it is not discontinued at the time of the call, and is
    rejected with the discontinued error when it is. ([semver] is any
    library that reads the ranges of the table.) *)
Theorem newest_match_wins loadTime today r isAuto o :
  knownRangesParse SemverRange parseRange ->
  r <> EmptyString ->
  firstMatch SemverRange parseRange rangeIntersects r = Some o ->
  settled (selection loadTime (Some r) isAuto) = Normal o /\
  (forall o', In o' allOptions ->
              matches SemverRange parseRange rangeIntersects r o' = true ->
              major o' <= major o) /\
  (isDiscontinued today o = false ->
   settled (resolve loadTime today (Some r) isAuto) = Normal o) /\
  (isDiscontinued today o = true ->
   rejectionCode (settled (resolve loadTime today (Some r) isAuto))
   = Some NODE_VERSION_DISCONTINUED /\
   forall v, settled (resolve loadTime today (Some r) isAuto) <> Normal v).
Proof.
  intros Hknown Hne Hfirst.
  assert (Hr : Js.truthy (Some r) = true) by (destruct r; [congruence|reflexivity]).
  destruct (firstMatch_scan _ _ _ _ _ Hknown Hfirst) as (pre & post & Hl & Hpre & Ho).
  assert (Hsel : selection loadTime (Some r) isAuto = ret o)
    by exact (select_first _ _ _ loadTime (Some r) isAuto pre o post Hr Hl Hpre Ho).
  split; [rewrite Hsel; reflexivity|]. split.
  - intros o' Hin Hm. apply matches_true in Hm.
    rewrite Hl in Hin. apply in_app_or in Hin. destruct Hin as [Hin|[<-|Hin]].
    + rewrite (Hpre o' Hin) in Hm. discriminate.
    + lia.
    + pose proof allOptions_newestFirst as Hord. rewrite Hl in Hord.
      pose proof (newestFirst_after _ _ _ Hord o' Hin). lia.
  - rewrite resolve_outcome, Hsel. cbn [settled snd ret].
    change (snd (settle boxen loadTime today (Some r) isAuto o))
      with (settled (settle boxen loadTime today (Some r) isAuto o)).
    rewrite settle_outcome.
    split; intros Hd; rewrite Hd; [reflexivity|].
    split; [reflexivity|discriminate].
Qed.

(** C2, as amended. For a present requested range that is not the empty
    string and is a range for [semver], the call is rejected with the
    invalid-range error, and returns no option, exactly when no known
    option matches, that is when the intersection of the requested range
    with the range of every known option is empty. For every present
    requested range, when the range of some option intersects it that
    error is not raised. ([semver] is any library that reads the ranges
    of the table.) *)
Theorem invalid_range_iff_no_match loadTime today r isAuto :
  knownRangesParse SemverRange parseRange ->
  (r <> EmptyString -> parseRange r <> None ->
   ((exists message,
        settled (resolve loadTime today (Some r) isAuto)
        = Abrupt (NowBuildError NODE_VERSION_INVALID message))
    <-> forall o, In o allOptions ->
                  matches SemverRange parseRange rangeIntersects r o = false)) /\
  ((exists o, In o allOptions /\
              matches SemverRange parseRange rangeIntersects r o = true) ->
   rejectionCode (settled (resolve loadTime today (Some r) isAuto))
   <> Some NODE_VERSION_INVALID).
Proof.
  intros Hknown.
  assert (Hcode :
    rejectionCode (settled (resolve loadTime today (Some r) isAuto))
    = Some NODE_VERSION_INVALID ->
    Js.truthy (Some r) = true /\
    forall o, In o allOptions -> meet (range o) r = Some false).
  { rewrite resolve_outcome.
    destruct (select_Selected SemverRange parseRange rangeIntersects
                              loadTime (Some r) isAuto)
      as [Hf|Hr Hall|pre o post _ Hl Hpre Ho|pre o post _ Hl Hpre Ho];
      cbn [settled snd ret throw].
    - intros H. exfalso. exact (settle_not_invalid _ _ _ _ _ _ H).
    - intros _. split; [exact Hr|exact Hall].
    - intros H. exfalso. exact (settle_not_invalid _ _ _ _ _ _ H).
    - discriminate. }
  split.
  - intros Hne Hparse.
    assert (Hr : Js.truthy (Some r) = true) by (destruct r; [congruence|reflexivity]).
    split.
    + intros (message & H). rewrite H in Hcode.
      destruct (Hcode eq_refl) as [_ Hall].
      intros o Hin. unfold matches. rewrite (Hall o Hin). reflexivity.
    + intros Hnone. eexists.
      rewrite resolve_outcome, select_invalid; [reflexivity|exact Hr|].
      intros o Hin. apply matches_false; [apply Hknown, Hin|exact Hparse|].
      apply Hnone, Hin.
  - intros (o & Hin & Ho) H. apply matches_true in Ho.
    destruct (Hcode H) as [_ Hall]. rewrite (Hall o Hin) in Ho. discriminate.
Qed.

(** C3. Whatever the requested range, when the option the first phase
    selects (the oldest one by default, or the matched one) carries a
    discontinuation date that is not in the future at the time of the
    call, the call is rejected with the discontinued error and returns
    no option. *)
Theorem discontinued_selection_fails loadTime today r isAuto o t :
  settled (selection loadTime r isAuto) = Normal o ->
  discontinueDate o = Some t ->
  t <= today ->
  rejectionCode (settled (resolve loadTime today r isAuto))
  = Some NODE_VERSION_DISCONTINUED /\
  forall v, settled (resolve loadTime today r isAuto) <> Normal v.
Proof.
  intros Hsel Ht Hpast.
  assert (Hd : isDiscontinued today o = true)
    by (apply isDiscontinued_true; exists t; split; assumption).
  rewrite resolve_outcome, Hsel, settle_outcome, Hd.
  split; [reflexivity|discriminate].
Qed.

(** C4. Without a requested range the call returns the oldest known
    option, the last element of the table, when that option is not
    discontinued at the time of the call, and is rejected with the
    discontinued error when it is; the invalid-range error is never
    raised. *)
Theorem absent_range_fallback loadTime today isAuto :
  settled (resolve loadTime today None isAuto) =
  (if isDiscontinued today getOldestNodeVersion
   then Abrupt (NowBuildError NODE_VERSION_DISCONTINUED discontinuedMessageAuto)
   else Normal getOldestNodeVersion) /\
  getOldestNodeVersion = last allOptions noNodeVersion /\
  rejectionCode (settled (resolve loadTime today None isAuto))
  <> Some NODE_VERSION_INVALID.
Proof.
  assert (Hsel : selection loadTime None isAuto = ret getOldestNodeVersion)
    by (apply select_fallback; reflexivity).
  rewrite resolve_outcome, Hsel. cbn [settled snd ret].
  change (snd (settle boxen loadTime today None isAuto getOldestNodeVersion))
    with (settled (settle boxen loadTime today None isAuto getOldestNodeVersion)).
  split; [|split; [reflexivity|apply settle_not_invalid]].
  rewrite settle_outcome. cbn [Js.truthy negb]. rewrite orb_true_r. reflexivity.
Qed.

(** C5, as amended. The message of every invalid-range rejection, in
    either wording, ends with the list of the ranges of the options that
    were not discontinued when the module was loaded: the list is
    computed once, at load time. A range of the table is in the list
    exactly when its option was not discontinued then. It is the list of
    the ranges supported at the time of the call whenever no option has
    become discontinued in between. *)
Theorem invalid_message_lists_load_time_ranges loadTime today r isAuto message :
  settled (resolve loadTime today r isAuto)
  = Abrupt (NowBuildError NODE_VERSION_INVALID message) ->
  exists requested list,
    r = Some requested /\ requested <> EmptyString /\
    message =
      (if Js.truthyFlag isAuto
       then "This project is using an invalid version of Node.js and must be changed."
       else "Found `engines` in `package.json` with an invalid Node.js version range: "
            ++ requested)
      ++ lineBreak
      ++ "Please use one of the following `engines` in your `package.json`: "
      ++ list /\
    list = listOfRanges (supportedRangesAt loadTime) /\
    (forall o, In o allOptions ->
               (occursIn (quoted (range o)) list <-> isDiscontinued loadTime o = false)) /\
    ((forall o, In o allOptions ->
                isDiscontinued loadTime o = isDiscontinued today o) ->
     list = listOfRanges (supportedRangesAt today)).
Proof.
  intros H.
  assert (Hload : Js.truthy r = true /\
                  message = invalidRangeMessageAt loadTime (Js.orUndefined r) isAuto).
  { rewrite resolve_outcome in H.
    destruct (select_Selected SemverRange parseRange rangeIntersects
                              loadTime r isAuto)
      as [Hf|Hr Hall|pre o post _ Hl Hpre Ho|pre o post _ Hl Hpre Ho];
      cbn [settled snd ret throw] in H.
    - exfalso.
      apply (settle_not_invalid boxen loadTime today r isAuto getOldestNodeVersion).
      rewrite H. reflexivity.
    - injection H as <-. split; [exact Hr|reflexivity].
    - exfalso. apply (settle_not_invalid boxen loadTime today r isAuto o).
      rewrite H. reflexivity.
    - discriminate. }
  destruct Hload as [Hr ->].
  destruct r as [requested|]; [|discriminate].
  exists requested, (listOfRanges (supportedRangesAt loadTime)).
  split; [reflexivity|]. split; [intros ->; discriminate|].
  split; [|split; [reflexivity|split]].
  - unfold invalidRangeMessageAt.
    change (pleaseUseOf (supportedRangesAt loadTime)) with (pleaseUse loadTime).
    rewrite pleaseUse_text. cbn [Js.orUndefined].
    destruct (Js.truthyFlag isAuto); reflexivity.
  - intros o Hin. apply listed_ranges, Hin.
  - intros Hsame. rewrite (supportedRangesAt_same _ _ Hsame). reflexivity.
Qed.

(** C6. When the selected option carries a discontinuation date that is
    strictly in the future, the call still returns that option and gives
    [console.warn] one boxed notice; the notice names the date in its
    line on deployments, as a text [YYYY-MM-DD] that reads as the day of
    that date, and with a frame that keeps the lines of the notice the
    date is in the warning itself. A call that returns an option without
    a date warns of nothing, and neither does a call that fails. *)
Theorem advisory_warning loadTime today r isAuto :
  (forall o t,
      settled (selection loadTime r isAuto) = Normal o ->
      discontinueDate o = Some t ->
      today < t ->
      settled (resolve loadTime today r isAuto) = Normal o /\
      exists date text,
        readDate date = Some (t / 86400000) /\
        warnings (resolve loadTime today r isAuto) = [boxen text] /\
        occursIn ("deployments created on or after " ++ date ++ " will fail to build.")
                 text /\
        (keepsLines boxen -> occursIn date (boxen text))) /\
  (forall o,
      settled (resolve loadTime today r isAuto) = Normal o ->
      discontinueDate o = None ->
      warnings (resolve loadTime today r isAuto) = []) /\
  (forall e,
      settled (resolve loadTime today r isAuto) = Abrupt e ->
      warnings (resolve loadTime today r isAuto) = []).
Proof.
  rewrite resolve_outcome, resolve_warnings.
  destruct (settled (selection loadTime r isAuto)) as [s|e0] eqn:Hsel.
  - rewrite settle_outcome, settle_warnings. split; [|split].
    + intros o t [= <-] Ht Hfuture.
      rewrite (proj2 (isDiscontinued_false_dated today s t Ht) Hfuture), Ht.
      split; [reflexivity|].
      pose proof (table_date_reads s t (select_in_table _ _ _ _ _ _ _ Hsel) Ht) as Hread.
      assert (Hline : occursIn ("deployments created on or after " ++ Js.isoDate t
                                ++ " will fail to build.")
                               (notice s (Js.isoDate t) (hint loadTime r isAuto))).
      { unfold notice.
        exists ("NOTICE" ++ Js.nl ++ Js.nl ++ "Node.js version " ++ range s
                ++ " has reached end-of-life." ++ Js.nl ++ "As a result, "),
               (Js.nl ++ hint loadTime r isAuto ++ Js.nl ++ upstreamProvider).
        rewrite !append_assoc. reflexivity. }
      exists (Js.isoDate t), (notice s (Js.isoDate t) (hint loadTime r isAuto)).
      split; [exact Hread|]. split; [reflexivity|]. split; [exact Hline|].
      intros Hkeeps. apply Hkeeps; [|apply notice_names_date].
      rewrite (proj1 (date_of_table s t (select_in_table _ _ _ _ _ _ _ Hsel) Ht)).
      reflexivity.
    + intros o Ho Hnone. destruct (isDiscontinued today s); [reflexivity|].
      injection Ho as <-. rewrite Hnone. reflexivity.
    + intros e He. destruct (isDiscontinued today s); [reflexivity|discriminate].
  - split; [|split].
    + intros o t Ho. discriminate.
    + intros o Ho. discriminate.
    + reflexivity.
Qed.

(** C7. For every requested range and every time of call, the outcomes
    with the flag set and with the flag unset are the same up to the
    wording of the error message: the same option on success, the same
    error code on failure. *)
Theorem isAuto_does_not_select loadTime today r isAuto isAuto' :
  withoutWording (settled (resolve loadTime today r isAuto)) =
  withoutWording (settled (resolve loadTime today r isAuto')).
Proof.
  rewrite !resolve_outcome.
  pose proof (select_flag SemverRange parseRange rangeIntersects
                          loadTime r isAuto isAuto') as Hflag.
  destruct (settled (selection loadTime r isAuto)) as [o|[c m|]];
    destruct (settled (selection loadTime r isAuto')) as [o'|[c' m'|]];
    cbn [withoutWording] in Hflag; try discriminate.
  - injection Hflag as <-. rewrite !settle_outcome.
    destruct (isDiscontinued today o); reflexivity.
  - exact Hflag.
  - reflexivity.
Qed.

(** C8. The table is ordered strictly from the newest to the oldest
    major version: of two neighbours, the earlier one has the larger
    major version. *)
Theorem table_newest_first i a b :
  nth_error allOptions i = Some a ->
  nth_error allOptions (S i) = Some b ->
  major b < major a.
Proof. apply newestFirst_adjacent. exact allOptions_newestFirst. Qed.

(** C9. With the empty string as requested range the scan is skipped,
    whatever the flag: the call is in every respect (result, error
    message, debug line, notice) the call without a range, so it returns
    the oldest option or is rejected with the discontinued error in its
    default wording, and never with the invalid-range error. *)
Theorem empty_range_as_absent loadTime today isAuto isAuto' :
  selection loadTime (Some EmptyString) isAuto = ret getOldestNodeVersion /\
  resolve loadTime today (Some EmptyString) isAuto
  = resolve loadTime today None isAuto' /\
  settled (resolve loadTime today (Some EmptyString) isAuto)
  = (if isDiscontinued today getOldestNodeVersion
     then Abrupt (NowBuildError NODE_VERSION_DISCONTINUED discontinuedMessageAuto)
     else Normal getOldestNodeVersion) /\
  warnings (resolve loadTime today (Some EmptyString) isAuto)
  = (if isDiscontinued today getOldestNodeVersion then []
     else [boxen (notice getOldestNodeVersion (Js.isoDate date_2020_01_06) pleaseAdd)]) /\
  rejectionCode (settled (resolve loadTime today (Some EmptyString) isAuto))
  <> Some NODE_VERSION_INVALID.
Proof.
  assert (Hsel : forall a, selection loadTime (Some EmptyString) a
                           = ret getOldestNodeVersion)
    by (intros a; apply select_fallback; reflexivity).
  assert (Hsel' : selection loadTime None isAuto' = ret getOldestNodeVersion)
    by (apply select_fallback; reflexivity).
  assert (Hsame : forall o,
             settle boxen loadTime today (Some EmptyString) isAuto o
             = settle boxen loadTime today None isAuto' o).
  { intros o. unfold settle. cbn [Js.truthy negb]. rewrite !orb_true_r. reflexivity. }
  split; [apply Hsel|]. split.
  { rewrite (resolve_selected _ _ _ boxen _ today _ _ _ (Hsel isAuto)).
    rewrite (resolve_selected _ _ _ boxen _ today _ _ _ Hsel').
    apply Hsame. }
  rewrite (resolve_selected _ _ _ boxen _ today _ _ _ (Hsel isAuto)).
  rewrite settle_outcome, settle_warnings.
  unfold hint. cbn [Js.truthy negb]. rewrite !orb_true_r.
  split; [reflexivity|]. split; [reflexivity|].
  destruct (isDiscontinued today getOldestNodeVersion); cbn [rejectionCode];
    [|discriminate].
  intros H. apply codes_differ. congruence.
Qed.

(** C10. An option a call returns is an element of the table. *)
Theorem result_in_table loadTime today r isAuto o :
  settled (resolve loadTime today r isAuto) = Normal o -> In o allOptions.
Proof.
  rewrite resolve_outcome.
  destruct (settled (selection loadTime r isAuto)) as [s|e] eqn:Hsel;
    [|discriminate].
  rewrite settle_outcome. destruct (isDiscontinued today s); [discriminate|].
  intros [= <-]. exact (select_in_table _ _ _ _ _ _ _ Hsel).
Qed.

End Contract.

(** ** The contract on concrete calls

    The calls below run the resolver with the x-range instance. Times:
    [date_2020_01_06] is the instant Node.js 8.10 is discontinued. *)

Lemma XRange_knownRangesParse : knownRangesParse (list N) XRange.parse.
Proof.
  intros o [<-|[<-|[<-|[]]]]; vm_compute; discriminate.
Qed.

(** The date of the notice. *)

Example isoDate_2020_01_06 : Js.isoDate date_2020_01_06 = "2020-01-06".
Proof. reflexivity. Qed.

Example isoDate_epoch : Js.isoDate 0 = "1970-01-01".
Proof. reflexivity. Qed.

Example isoDate_before_epoch : Js.isoDate (-1) = "1969-12-31".
Proof. reflexivity. Qed.

Example isoDate_leap : Js.isoDate 1709164800000 = "2024-02-29".
Proof. reflexivity. Qed.

Example isoDate_2000 : Js.isoDate 951782400000 = "2000-02-29".
Proof. reflexivity. Qed.

Example isoDate_1900 : Js.isoDate (-2208988800000) = "1900-01-01".
Proof. reflexivity. Qed.

Example isoDate_9999 : Js.isoDate 253402300799999 = "9999-12-31".
Proof. reflexivity. Qed.

Example isoDate_10000 : Js.isoDate 253402300800000 = "+010000-01-01".
Proof. reflexivity. Qed.

Example isoDate_year_0 : Js.isoDate (-62167219200000) = "0000-01-01".
Proof. reflexivity. Qed.

Example isoDate_before_year_0 : Js.isoDate (-62167219200001) = "-000001-12-31".
Proof. reflexivity. Qed.

(** The printed date, read back. *)

Example readDate_isoDate :
  map (fun t => readDate (Js.isoDate t))
      [0; -1; 1709164800000; 951782400000; -2208988800000; 253402300799999;
       -62167219200000; 1578268799999]
  = map (fun t => Some (t / 86400000))
      [0; -1; 1709164800000; 951782400000; -2208988800000; 253402300799999;
       -62167219200000; 1578268799999].
Proof. reflexivity. Qed.

Example readDate_rejects :
  map readDate ["2020-02-30"; "2019-02-29"; "2020-13-01"; "2020-1-6"; "+010000-01-01"]
  = [None; None; None; None; None].
Proof. reflexivity. Qed.

(** The scenarios of the specification. *)

Example resolve_12x :
  settled (XRange.resolve date_2020_01_06 date_2020_01_06 (Some "12.x") (Some false))
  = Normal node12.
Proof. reflexivity. Qed.

Example resolve_6x :
  settled (XRange.resolve date_2020_01_06 date_2020_01_06 (Some "6.x") (Some false))
  = Abrupt (NowBuildError NODE_VERSION_INVALID
              (invalidIntroFound "6.x" ++ Js.nl ++ pleaseUseOf ["12.x"; "10.x"])).
Proof. reflexivity. Qed.

Example resolve_absent_discontinued :
  XRange.resolve date_2020_01_06 date_2020_01_06 None (Some true)
  = throw (NowBuildError NODE_VERSION_DISCONTINUED discontinuedMessageAuto).
Proof. reflexivity. Qed.

Example resolve_8_before_end_of_life :
  XRange.resolve 0 (date_2020_01_06 - 1) (Some "8") (Some false)
  = ([DebugLine "Found `engines` in `package.json`, selecting range: 8.10.x";
      ConsoleWarn (notice node8 "2020-01-06"
                          (pleaseUseOf ["12.x"; "10.x"; "8.10.x"]))],
     Normal node8).
Proof. reflexivity. Qed.

(** A string that is not a range: the [TypeError] of [semver] reaches the
    caller. *)
Example resolve_not_a_range :
  XRange.resolve 0 0 (Some "foo") (Some false) = throw TypeError.
Proof. reflexivity. Qed.

(** The empty string is a range that every option intersects, and yet
    the call answers with the fallback: the scan is not run. *)
Example resolve_empty_string :
  matches (list N) XRange.parse XRange.meets EmptyString node12 = true /\
  settled (XRange.resolve 0 0 (Some EmptyString) (Some false)) = Normal node8.
Proof. split; reflexivity. Qed.

(** The newest of several matches. *)
Example resolve_star :
  settled (XRange.resolve 0 0 (Some "*") (Some false)) = Normal node12.
Proof. reflexivity. Qed.

(** C1 as it is written fails, in two ways. On 2020-01-06 the request
    [8.10.x] intersects the range of one option, Node.js 8.10, which is
    the first match; the call does not return it, it is rejected with the
    discontinued error. And the empty string, a range that the newest
    option intersects, is answered with the oldest option: the scan is
    not run. *)
Lemma newest_match_returned_counterexample :
  Js.truthy (Some "8.10.x") = true /\
  firstMatch (list N) XRange.parse XRange.meets "8.10.x" = Some node8 /\
  settled (XRange.resolve date_2020_01_06 date_2020_01_06 (Some "8.10.x") (Some false))
  <> Normal node8 /\
  rejectionCode
    (settled (XRange.resolve date_2020_01_06 date_2020_01_06 (Some "8.10.x") (Some false)))
  = Some NODE_VERSION_DISCONTINUED /\
  firstMatch (list N) XRange.parse XRange.meets EmptyString = Some node12 /\
  settled (XRange.resolve 0 0 (Some EmptyString) (Some false)) = Normal node8 /\
  node8 <> node12.
Proof.
  split; [reflexivity|]. split; [reflexivity|]. split; [vm_compute; discriminate|].
  split; [reflexivity|]. split; [reflexivity|]. split; [reflexivity|discriminate].
Qed.

Lemma newest_match_wins_witness :
  knownRangesParse (list N) XRange.parse /\
  "*" <> EmptyString /\
  firstMatch (list N) XRange.parse XRange.meets "*" = Some node12 /\
  settled (select (list N) XRange.parse XRange.meets 0 (Some "*") (Some false))
  = Normal node12 /\
  (forall o', In o' allOptions ->
              matches (list N) XRange.parse XRange.meets "*" o' = true ->
              major o' <= major node12) /\
  settled (XRange.resolve 0 0 (Some "*") (Some false)) = Normal node12.
Proof.
  split; [exact XRange_knownRangesParse|]. split; [discriminate|].
  split; [reflexivity|].
  destruct (newest_match_wins (list N) XRange.parse XRange.meets XRange.plain
              0 0 "*" (Some false) node12
              XRange_knownRangesParse ltac:(discriminate) eq_refl)
    as (Hsel & Hnewest & Hlive & _).
  split; [exact Hsel|]. split; [exact Hnewest|]. apply Hlive. reflexivity.
Defined.

(** C2 as it is written fails: [latest] is not a range, so no known
    option matches it; the call is not rejected with the invalid-range
    error, the [TypeError] of [semver] reaches the caller. *)
Lemma invalid_range_no_match_counterexample :
  Js.truthy (Some "latest") = true /\
  (forall o, In o allOptions ->
             matches (list N) XRange.parse XRange.meets "latest" o = false) /\
  firstMatch (list N) XRange.parse XRange.meets "latest" = None /\
  settled (XRange.resolve 0 0 (Some "latest") (Some false)) = Abrupt TypeError /\
  rejectionCode (settled (XRange.resolve 0 0 (Some "latest") (Some false)))
  <> Some NODE_VERSION_INVALID.
Proof.
  split; [reflexivity|].
  split; [intros o [<-|[<-|[<-|[]]]]; reflexivity|].
  split; [reflexivity|]. split; [reflexivity|]. vm_compute. discriminate.
Qed.

Lemma invalid_range_iff_no_match_witness :
  knownRangesParse (list N) XRange.parse /\
  "6.x" <> EmptyString /\
  XRange.parse "6.x" <> None /\
  (forall o, In o allOptions ->
             matches (list N) XRange.parse XRange.meets "6.x" o = false) /\
  exists message,
    settled (XRange.resolve 0 0 (Some "6.x") (Some false))
    = Abrupt (NowBuildError NODE_VERSION_INVALID message).
Proof.
  assert (Hnone : forall o, In o allOptions ->
                    matches (list N) XRange.parse XRange.meets "6.x" o = false)
    by (intros o [<-|[<-|[<-|[]]]]; reflexivity).
  split; [exact XRange_knownRangesParse|]. split; [discriminate|].
  split; [vm_compute; discriminate|]. split; [exact Hnone|].
  apply (proj1 (invalid_range_iff_no_match (list N) XRange.parse XRange.meets
                  XRange.plain 0 0 "6.x" (Some false) XRange_knownRangesParse)
           ltac:(discriminate) ltac:(vm_compute; discriminate)).
  exact Hnone.
Defined.

Lemma discontinued_selection_fails_witness :
  settled (select (list N) XRange.parse XRange.meets 0 (Some "8") (Some false))
  = Normal node8 /\
  discontinueDate node8 = Some date_2020_01_06 /\
  date_2020_01_06 <= date_2020_01_06 /\
  rejectionCode (settled (XRange.resolve 0 date_2020_01_06 (Some "8") (Some false)))
  = Some NODE_VERSION_DISCONTINUED.
Proof.
  split; [reflexivity|]. split; [reflexivity|]. split; [lia|].
  apply (discontinued_selection_fails (list N) XRange.parse XRange.meets XRange.plain
           0 date_2020_01_06 (Some "8") (Some false) node8 date_2020_01_06);
    [reflexivity|reflexivity|lia].
Defined.

(** C5 as it is written fails: in a module loaded one millisecond before
    Node.js 8.10 is discontinued, a call made at the instant it is
    discontinued still lists [8.10.x], in both wordings, though the ranges
    supported at the time of the call are [12.x] and [10.x]. *)
Lemma invalid_message_current_ranges_counterexample :
  supportedRangesAt date_2020_01_06 = ["12.x"; "10.x"] /\
  settled (XRange.resolve (date_2020_01_06 - 1) date_2020_01_06 (Some "6.x") (Some false))
  = Abrupt (NowBuildError NODE_VERSION_INVALID
              (invalidIntroFound "6.x" ++ Js.nl
               ++ pleaseUseOf ["12.x"; "10.x"; "8.10.x"])) /\
  settled (XRange.resolve (date_2020_01_06 - 1) date_2020_01_06 (Some "6.x") (Some true))
  = Abrupt (NowBuildError NODE_VERSION_INVALID
              (invalidIntroAuto ++ Js.nl
               ++ pleaseUseOf ["12.x"; "10.x"; "8.10.x"])) /\
  rejectionMessage
    (settled (XRange.resolve (date_2020_01_06 - 1) date_2020_01_06
                             (Some "6.x") (Some false)))
  <> Some (invalidRangeMessageAt date_2020_01_06 "6.x" (Some false)) /\
  rejectionMessage
    (settled (XRange.resolve (date_2020_01_06 - 1) date_2020_01_06
                             (Some "6.x") (Some true)))
  <> Some (invalidRangeMessageAt date_2020_01_06 "6.x" (Some true)).
Proof.
  split; [reflexivity|]. split; [reflexivity|]. split; [reflexivity|].
  split; vm_compute; discriminate.
Qed.

Lemma invalid_message_lists_load_time_ranges_witness :
  settled (XRange.resolve 0 date_2020_01_06 (Some "6.x") (Some false))
  = Abrupt (NowBuildError NODE_VERSION_INVALID
              ("Found `engines` in `package.json` with an invalid Node.js version range: 6.x"
               ++ lineBreak
               ++ "Please use one of the following `engines` in your `package.json`: "
               ++ "[" ++ quoted "12.x" ++ "," ++ quoted "10.x" ++ ","
               ++ quoted "8.10.x" ++ "]")) /\
  listOfRanges (supportedRangesAt 0)
  = "[" ++ quoted "12.x" ++ "," ++ quoted "10.x" ++ "," ++ quoted "8.10.x" ++ "]" /\
  forall o, In o allOptions ->
            (occursIn (quoted (range o)) (listOfRanges (supportedRangesAt 0))
             <-> isDiscontinued 0 o = false).
Proof.
  split; [reflexivity|]. split; [reflexivity|].
  destruct (invalid_message_lists_load_time_ranges (list N) XRange.parse XRange.meets
              XRange.plain 0 date_2020_01_06 (Some "6.x") (Some false) _ eq_refl)
    as (requested & list & _ & _ & _ & -> & Hlisted & _).
  exact Hlisted.
Defined.

Lemma advisory_warning_witness :
  settled (select (list N) XRange.parse XRange.meets 0 (Some "8.10.x") (Some false))
  = Normal node8 /\
  discontinueDate node8 = Some date_2020_01_06 /\
  date_2020_01_06 - 1 < date_2020_01_06 /\
  readDate "2020-01-06" = Some (date_2020_01_06 / 86400000) /\
  keepsLines XRange.plain /\
  warnings (XRange.resolve 0 (date_2020_01_06 - 1) (Some "8.10.x") (Some false))
  = [XRange.plain
       ("NOTICE" ++ lineBreak ++ lineBreak
        ++ "Node.js version 8.10.x has reached end-of-life." ++ lineBreak
        ++ "As a result, deployments created on or after 2020-01-06 will fail to build."
        ++ lineBreak
        ++ "Please use one of the following `engines` in your `package.json`: "
        ++ "[" ++ quoted "12.x" ++ "," ++ quoted "10.x" ++ "," ++ quoted "8.10.x" ++ "]"
        ++ lineBreak
        ++ "This change is the result of a decision made by an upstream infrastructure provider (AWS)."
        ++ lineBreak
        ++ "Read more: https://docs.aws.amazon.com/lambda/latest/dg/runtime-support-policy.html")] /\
  settled (XRange.resolve 0 (date_2020_01_06 - 1) (Some "8.10.x") (Some false))
  = Normal node8 /\
  exists date text,
    readDate date = Some (date_2020_01_06 / 86400000) /\
    warnings (XRange.resolve 0 (date_2020_01_06 - 1) (Some "8.10.x") (Some false))
    = [XRange.plain text] /\
    occursIn ("deployments created on or after " ++ date ++ " will fail to build.") text /\
    (keepsLines XRange.plain -> occursIn date (XRange.plain text)).
Proof.
  split; [reflexivity|]. split; [reflexivity|]. split; [lia|].
  split; [reflexivity|].
  split; [intros needle text _ H; exact H|].
  split; [reflexivity|].
  apply (proj1 (advisory_warning (list N) XRange.parse XRange.meets XRange.plain
                  0 (date_2020_01_06 - 1) (Some "8.10.x") (Some false))
           node8 date_2020_01_06);
    [reflexivity|reflexivity|lia].
Defined.

Lemma table_newest_first_witness :
  nth_error allOptions 1 = Some node10 /\
  nth_error allOptions 2 = Some node8 /\
  major node8 < major node10.
Proof.
  split; [reflexivity|]. split; [reflexivity|].
  apply (table_newest_first 1 node10 node8); reflexivity.
Defined.

Lemma result_in_table_witness :
  settled (XRange.resolve 0 0 (Some "10.x") (Some true)) = Normal node10 /\
  In node10 allOptions.
Proof.
  split; [reflexivity|].
  apply (result_in_table (list N) XRange.parse XRange.meets XRange.plain
           0 0 (Some "10.x") (Some true) node10).
  reflexivity.
Defined.

(** ** Further properties of the resolver *)

Lemma isDiscontinued_later today today' o :
  today <= today' -> isDiscontinued today o = true -> isDiscontinued today' o = true.
Proof.
  unfold isDiscontinued. destruct (discontinueDate o) as [t|]; [|discriminate].
  rewrite !Z.leb_le. lia.
Qed.

Section Further.

Variable SemverRange : Type.
Variable parseRange : string -> option SemverRange.
Variable rangeIntersects : SemverRange -> SemverRange -> bool.
Variable boxen : string -> string.

Local Abbreviation meet := (intersection SemverRange parseRange rangeIntersects).
Local Abbreviation selection := (select SemverRange parseRange rangeIntersects).
Local Abbreviation resolve :=
  (getSupportedNodeVersion SemverRange parseRange rangeIntersects boxen).

(** How the first phase can fail. *)
Lemma select_abrupt_kind loadTime r isAuto e :
  settled (selection loadTime r isAuto) = Abrupt e ->
  e = TypeError \/
  (Js.truthy r = true /\
   e = NowBuildError NODE_VERSION_INVALID
         (invalidRangeMessageAt loadTime (Js.orUndefined r) isAuto)).
Proof.
  destruct (select_Selected SemverRange parseRange rangeIntersects loadTime r isAuto)
    as [Hr|Hr Hall|pre o post Hr Hl Hpre Ho|pre o post Hr Hl Hpre Ho];
    unfold settled, ret, throw; cbn [snd]; intros Heq; try discriminate;
    injection Heq as <-.
  - right. split; [exact Hr|reflexivity].
  - left. reflexivity.
Qed.

(** The load time has no part in the first phase but the wording. *)
Lemma select_loadTime loadTime loadTime' r isAuto :
  withoutWording (settled (selection loadTime r isAuto)) =
  withoutWording (settled (selection loadTime' r isAuto)).
Proof.
  destruct (select_Selected SemverRange parseRange rangeIntersects loadTime r isAuto)
    as [Hr|Hr Hall|pre o post Hr Hl Hpre Ho|pre o post Hr Hl Hpre Ho].
  - rewrite (select_fallback _ _ _ loadTime' _ isAuto Hr). reflexivity.
  - rewrite (select_invalid _ _ _ loadTime' _ isAuto Hr Hall). reflexivity.
  - rewrite (select_first _ _ _ loadTime' _ isAuto _ _ _ Hr Hl Hpre Ho). reflexivity.
  - rewrite (select_throws _ _ _ loadTime' _ isAuto _ _ _ Hr Hl Hpre Ho). reflexivity.
Qed.

(** What the second phase writes. *)
Lemma settle_events loadTime today r isAuto o :
  events (settle boxen loadTime today r isAuto o) =
  if isDiscontinued today o then []
  else DebugLine (debugLine r isAuto o)
       :: match discontinueDate o with
          | Some t =>
              [ConsoleWarn (boxen (notice o (Js.isoDate t) (hint loadTime r isAuto)))]
          | None => []
          end.
Proof.
  unfold settle. destruct (isDiscontinued today o); [reflexivity|].
  destruct (discontinueDate o); reflexivity.
Qed.

Lemma resolve_events loadTime today r isAuto :
  events (resolve loadTime today r isAuto) =
  match settled (selection loadTime r isAuto) with
  | Normal o => events (settle boxen loadTime today r isAuto o)
  | Abrupt e => []
  end.
Proof.
  destruct (settled (selection loadTime r isAuto)) as [o|e] eqn:H.
  - rewrite (resolve_selected _ _ _ boxen _ today _ _ _ (select_normal _ _ _ _ _ _ _ H)).
    reflexivity.
  - rewrite (resolve_thrown _ _ _ boxen _ today _ _ _ (select_abrupt _ _ _ _ _ _ _ H)).
    reflexivity.
Qed.

(** X1. Discontinuation is permanent. A call rejected with the
    discontinued error is rejected with that error at every later time,
    whenever the module was loaded, and in the module it was made in
    with the same message; a call that returns an option returns the same
    option at every earlier time, whenever the module was loaded. *)
Theorem time_only_discontinues loadTime loadTime' today today' r isAuto :
  today <= today' ->
  (rejectionCode (settled (resolve loadTime today r isAuto))
   = Some NODE_VERSION_DISCONTINUED ->
   rejectionCode (settled (resolve loadTime' today' r isAuto))
   = Some NODE_VERSION_DISCONTINUED /\
   resolve loadTime today' r isAuto = resolve loadTime today r isAuto) /\
  (forall o, settled (resolve loadTime' today' r isAuto) = Normal o ->
             settled (resolve loadTime today r isAuto) = Normal o).
Proof.
  intros Hle.
  pose proof (select_loadTime loadTime loadTime' r isAuto) as Hload.
  rewrite (resolve_outcome _ _ _ _ loadTime'), (resolve_outcome _ _ _ _ loadTime today).
  destruct (settled (selection loadTime r isAuto)) as [s|e] eqn:Hsel.
  - destruct (settled (selection loadTime' r isAuto)) as [s'|[c' m'|]];
      cbn [withoutWording] in Hload; try discriminate.
    injection Hload as <-.
    pose proof (select_normal _ _ _ _ _ _ _ Hsel) as Heq.
    rewrite !(resolve_selected _ _ _ boxen _ _ _ _ _ Heq).
    rewrite !settle_outcome. split.
    + destruct (isDiscontinued today s) eqn:Hd; [|discriminate]. intros _.
      rewrite (isDiscontinued_later _ _ _ Hle Hd). split; [reflexivity|].
      rewrite !settle_discontinued;
        [reflexivity|exact Hd|exact (isDiscontinued_later _ _ _ Hle Hd)].
    + intros o. destruct (isDiscontinued today' s) eqn:Hd'; [discriminate|].
      intros [= <-]. destruct (isDiscontinued today s) eqn:Hd; [|reflexivity].
      rewrite (isDiscontinued_later _ _ _ Hle Hd) in Hd'. discriminate.
  - destruct (select_abrupt_kind _ _ _ _ Hsel) as [->|[_ ->]].
    + destruct (settled (selection loadTime' r isAuto)) as [s'|[c' m'|]];
        cbn [withoutWording] in Hload; try discriminate.
      split; [discriminate|discriminate].
    + destruct (settled (selection loadTime' r isAuto)) as [s'|[c' m'|]];
        cbn [withoutWording] in Hload; try discriminate.
      split; [|discriminate].
      cbn [rejectionCode]. intros H. exfalso. apply codes_differ. congruence.
Qed.

(** X2. A call never returns a discontinued runtime: the option it
    returns is not discontinued at the time of the call, so it is one of
    the options supported at that time. *)
Theorem returned_option_is_supported loadTime today r isAuto o :
  settled (resolve loadTime today r isAuto) = Normal o ->
  isDiscontinued today o = false /\ In o (supportedOptions today).
Proof.
  rewrite resolve_outcome.
  destruct (settled (selection loadTime r isAuto)) as [s|e] eqn:Hsel; [|discriminate].
  rewrite settle_outcome. destruct (isDiscontinued today s) eqn:Hd; [discriminate|].
  intros [= <-]. split; [exact Hd|].
  unfold supportedOptions. apply filter_In. split.
  - exact (select_in_table _ _ _ _ _ _ _ Hsel).
  - rewrite Hd. reflexivity.
Qed.

(** X3. What a call writes: a rejected call writes nothing at all; a call
    that returns an option writes one [debug] line that names the selected
    range, and after it the notices given to [console.warn]. *)
Theorem events_of_call loadTime today r isAuto :
  events (resolve loadTime today r isAuto) =
  match settled (resolve loadTime today r isAuto) with
  | Normal o =>
      DebugLine (debugLine r isAuto o)
      :: map ConsoleWarn (warnings (resolve loadTime today r isAuto))
  | Abrupt _ => []
  end.
Proof.
  rewrite resolve_events, resolve_outcome, resolve_warnings.
  destruct (settled (selection loadTime r isAuto)) as [s|e]; [|reflexivity].
  rewrite settle_events, settle_outcome, settle_warnings.
  destruct (isDiscontinued today s); [reflexivity|].
  destruct (discontinueDate s); reflexivity.
Qed.

(** X4. The time at which the module was loaded changes the wording of
    error messages only: two calls that differ in it alone return the same
    option or fail with the same error code. *)
Theorem load_time_only_wording loadTime loadTime' today r isAuto :
  withoutWording (settled (resolve loadTime today r isAuto)) =
  withoutWording (settled (resolve loadTime' today r isAuto)).
Proof.
  rewrite !resolve_outcome.
  pose proof (select_loadTime loadTime loadTime' r isAuto) as Hload.
  destruct (settled (selection loadTime r isAuto)) as [o|[c m|]];
    destruct (settled (selection loadTime' r isAuto)) as [o'|[c' m'|]];
    cbn [withoutWording] in Hload; try discriminate.
  - injection Hload as <-. rewrite !settle_outcome.
    destruct (isDiscontinued today o); reflexivity.
  - exact Hload.
  - reflexivity.
Qed.

(** X5. The message of a discontinued rejection. In the default wording
    (flag set, or no usable range) it advises the range of the latest
    option of the table; otherwise it quotes the requested range and
    ends its advice with the list of the ranges supported when the module
    was loaded, in which a range of the table is exactly when its option
    was not discontinued then; both end with the note on the upstream
    provider. *)
Theorem discontinued_message loadTime today r isAuto message :
  settled (resolve loadTime today r isAuto)
  = Abrupt (NowBuildError NODE_VERSION_DISCONTINUED message) ->
  exists advice,
    message =
      advice ++ lineBreak
      ++ "This change is the result of a decision made by an upstream infrastructure provider (AWS)."
      ++ lineBreak
      ++ "Read more: https://docs.aws.amazon.com/lambda/latest/dg/runtime-support-policy.html" /\
    (Js.truthyFlag isAuto || negb (Js.truthy r) = true ->
     advice =
       "This project is using a discontinued version of Node.js and must be upgraded."
       ++ lineBreak
       ++ "Please add " ++ quoted "engines" ++ ": { " ++ quoted "node" ++ ": "
       ++ quoted "12.x" ++ " } to your `package.json` file." /\
     nth_error allOptions 0 = Some getLatestNodeVersion /\
     range getLatestNodeVersion = "12.x") /\
    (Js.truthyFlag isAuto || negb (Js.truthy r) = false ->
     exists requested list,
       r = Some requested /\
       advice =
         "Found `engines` in `package.json` with a discontinued Node.js version range: "
         ++ requested ++ lineBreak
         ++ "Please use one of the following `engines` in your `package.json`: "
         ++ list /\
       list = listOfRanges (supportedRangesAt loadTime) /\
       forall o, In o allOptions ->
                 (occursIn (quoted (range o)) list <-> isDiscontinued loadTime o = false)).
Proof.
  rewrite resolve_outcome.
  destruct (settled (selection loadTime r isAuto)) as [s|e] eqn:Hsel.
  - rewrite settle_outcome. destruct (isDiscontinued today s); [|discriminate].
    intros [= <-].
    destruct (Js.truthyFlag isAuto || negb (Js.truthy r)) eqn:Hdefault.
    + exists discontinuedIntroAuto. split; [reflexivity|].
      split; [intros _|discriminate]. repeat split.
    + exists (discontinuedIntroFound loadTime (Js.orUndefined r)).
      split; [reflexivity|]. split; [discriminate|intros _].
      apply orb_false_iff in Hdefault. destruct Hdefault as [_ Hr].
      destruct r as [requested|]; [|discriminate].
      exists requested, (listOfRanges (supportedRangesAt loadTime)).
      split; [reflexivity|]. split; [|split; [reflexivity|]].
      * unfold discontinuedIntroFound. rewrite pleaseUse_text. reflexivity.
      * intros o Hin. apply listed_ranges, Hin.
  - intros [= ->]. exfalso.
    destruct (select_abrupt_kind _ _ _ _ Hsel) as [H|[_ H]]; [discriminate|].
    apply codes_differ. congruence.
Qed.

(** X6. The list of supported options only shrinks as time goes by: an
    option supported at a later time is supported at every earlier time,
    and every supported option is in the table. *)
Theorem supported_shrinks time time' :
  time <= time' ->
  incl (supportedOptions time') (supportedOptions time) /\
  incl (supportedOptions time) allOptions.
Proof.
  intros Hle. unfold supportedOptions. split; intros o Ho; apply filter_In in Ho.
  - destruct Ho as [Hin Hlive]. apply filter_In. split; [exact Hin|].
    destruct (isDiscontinued time o) eqn:Hd; [|reflexivity].
    rewrite (isDiscontinued_later _ _ _ Hle Hd) in Hlive. discriminate.
  - apply Ho.
Qed.

(** X7. When the ranges of the table are ranges for [semver], a call
    fails with the [TypeError] of [semver], rather than with the
    invalid-range error, exactly when the requested range is a non-empty
    string that is not a range. *)
Theorem type_error_iff_not_a_range loadTime today r isAuto :
  knownRangesParse SemverRange parseRange ->
  (settled (resolve loadTime today r isAuto) = Abrupt TypeError <->
   Js.truthy r = true /\ parseRange (Js.orUndefined r) = None).
Proof.
  intros Hknown. rewrite resolve_outcome.
  assert (Hparsed : forall o b, In o allOptions ->
            meet (range o) (Js.orUndefined r) = Some b ->
            parseRange (Js.orUndefined r) <> None)
    by (intros o b _ H; exact (intersection_parses _ _ _ _ _ _ H)).
  destruct (select_Selected SemverRange parseRange rangeIntersects loadTime r isAuto)
    as [Hr|Hr Hall|pre o post Hr Hl Hpre Ho|pre o post Hr Hl Hpre Ho];
    unfold settled at 1, ret, throw; cbn [snd].
  - rewrite settle_outcome. split.
    + destruct (isDiscontinued today getOldestNodeVersion); discriminate.
    + intros [H _]. congruence.
  - split; [discriminate|]. intros [_ Hnone]. exfalso.
    apply (Hparsed node12 false); [left; reflexivity| |exact Hnone].
    apply Hall. left. reflexivity.
  - assert (Hin : In o allOptions)
      by (rewrite Hl; apply in_or_app; right; left; reflexivity).
    rewrite settle_outcome. split.
    + destruct (isDiscontinued today o); discriminate.
    + intros [_ Hnone]. exfalso. exact (Hparsed o true Hin Ho Hnone).
  - assert (Hin : In o allOptions)
      by (rewrite Hl; apply in_or_app; right; left; reflexivity).
    split; [intros _|reflexivity]. split; [exact Hr|].
    unfold intersection in Ho.
    destruct (parseRange (range o)) eqn:Hpo; [|exfalso; exact (Hknown o Hin Hpo)].
    destruct (parseRange (Js.orUndefined r)); [discriminate|reflexivity].
Qed.

(** X8. A request that the range of the latest option intersects is
    answered with the latest option, at every time, whatever older options
    it also matches, with one [debug] line and no notice. *)
Theorem newest_range_returns_latest loadTime today r isAuto :
  Js.truthy r = true ->
  meet (range getLatestNodeVersion) (Js.orUndefined r) = Some true ->
  resolve loadTime today r isAuto =
  ([DebugLine (debugLine r isAuto getLatestNodeVersion)], Normal getLatestNodeVersion).
Proof.
  intros Hr Hmeet.
  assert (Hsel : selection loadTime r isAuto = ret getLatestNodeVersion).
  { apply (select_first _ _ _ loadTime r isAuto [] getLatestNodeVersion [node10; node8]);
      [exact Hr|reflexivity|intros o' []|exact Hmeet]. }
  rewrite (resolve_selected _ _ _ boxen _ today _ _ _ Hsel).
  apply settle_undated; reflexivity.
Qed.

(** X9. With the flag set, the message of a [NowBuildError] does not
    carry the requested range: two calls in one module that are rejected
    with the same code carry the same message, whatever their requested
    ranges and their times, and it is one of two texts. (The [TypeError]
    of [semver] is not a [NowBuildError]; its text is the one [semver]
    gives it.) *)
Theorem flag_hides_range loadTime today today' r r' isAuto isAuto' code message message' :
  Js.truthyFlag isAuto = true ->
  Js.truthyFlag isAuto' = true ->
  settled (resolve loadTime today r isAuto) = Abrupt (NowBuildError code message) ->
  settled (resolve loadTime today' r' isAuto') = Abrupt (NowBuildError code message') ->
  message = message' /\
  (message =
     "This project is using an invalid version of Node.js and must be changed."
     ++ lineBreak
     ++ "Please use one of the following `engines` in your `package.json`: "
     ++ listOfRanges (supportedRangesAt loadTime) \/
   message = discontinuedMessageAuto).
Proof.
  intros Hflag Hflag'.
  assert (Hone : forall today0 r0 isAuto0 code0 message0,
    Js.truthyFlag isAuto0 = true ->
    settled (resolve loadTime today0 r0 isAuto0)
    = Abrupt (NowBuildError code0 message0) ->
    (code0 = NODE_VERSION_INVALID /\
     message0 = invalidIntroAuto ++ Js.nl ++ pleaseUse loadTime) \/
    (code0 = NODE_VERSION_DISCONTINUED /\ message0 = discontinuedMessageAuto)).
  { intros today0 r0 isAuto0 code0 message0 Hf. rewrite resolve_outcome.
    destruct (settled (selection loadTime r0 isAuto0)) as [s|e] eqn:Hsel.
    - rewrite settle_outcome, Hf.
      destruct (isDiscontinued today0 s); [|discriminate].
      intros [= <- <-]. right. split; reflexivity.
    - destruct (select_abrupt_kind _ _ _ _ Hsel) as [->|[_ ->]]; [discriminate|].
      intros [= <- <-]. left. split; [reflexivity|].
      unfold invalidRangeMessageAt. rewrite Hf. reflexivity. }
  intros H H'.
  destruct (Hone _ _ _ _ _ Hflag H) as [[Hc ->]|[Hc ->]];
    destruct (Hone _ _ _ _ _ Hflag' H') as [[Hc' ->]|[Hc' ->]].
  - split; [reflexivity|]. left. rewrite pleaseUse_text. reflexivity.
  - exfalso. apply codes_differ. congruence.
  - exfalso. apply codes_differ. congruence.
  - split; [reflexivity|]. right. reflexivity.
Qed.

(** X10. Without the flag, the error message of a call with a usable
    range quotes that range. *)
Theorem explicit_wording_quotes_range loadTime today r isAuto message :
  Js.truthyFlag isAuto = false ->
  Js.truthy r = true ->
  rejectionMessage (settled (resolve loadTime today r isAuto)) = Some message ->
  occursIn (Js.orUndefined r) message.
Proof.
  intros Hflag Hr. rewrite resolve_outcome.
  destruct (settled (selection loadTime r isAuto)) as [s|e] eqn:Hsel.
  - rewrite settle_outcome, Hflag, Hr.
    destruct (isDiscontinued today s); [|discriminate].
    intros [= <-].
    exists "Found `engines` in `package.json` with a discontinued Node.js version range: ",
           (Js.nl ++ pleaseUse loadTime ++ Js.nl ++ upstreamProvider).
    cbn [orb negb]. unfold discontinuedIntroFound.
    rewrite !append_assoc. reflexivity.
  - destruct (select_abrupt_kind _ _ _ _ Hsel) as [->|[_ ->]]; [discriminate|].
    intros [= <-].
    exists "Found `engines` in `package.json` with an invalid Node.js version range: ",
           (Js.nl ++ pleaseUse loadTime).
    unfold invalidRangeMessageAt, invalidIntroFound.
    rewrite Hflag, !append_assoc. reflexivity.
Qed.

(** X11. The ways a call can fail: with the [TypeError] of [semver], with
    the invalid-range error or with the discontinued error, and the first
    two only for a usable requested range. *)
Theorem rejection_kinds loadTime today r isAuto e :
  settled (resolve loadTime today r isAuto) = Abrupt e ->
  (Js.truthy r = true /\ e = TypeError) \/
  (Js.truthy r = true /\ exists m, e = NowBuildError NODE_VERSION_INVALID m) \/
  (exists m, e = NowBuildError NODE_VERSION_DISCONTINUED m).
Proof.
  rewrite resolve_outcome.
  destruct (select_Selected SemverRange parseRange rangeIntersects loadTime r isAuto)
    as [Hr|Hr Hall|pre o post Hr Hl Hpre Ho|pre o post Hr Hl Hpre Ho];
    unfold settled at 1, ret, throw; cbn [snd]; try rewrite settle_outcome.
  - destruct (isDiscontinued today getOldestNodeVersion); [|discriminate].
    intros [= <-]. right. right. eexists. reflexivity.
  - intros [= <-]. right. left. split; [exact Hr|]. eexists. reflexivity.
  - destruct (isDiscontinued today o); [|discriminate].
    intros [= <-]. right. right. eexists. reflexivity.
  - intros [= <-]. left. split; [exact Hr|reflexivity].
Qed.

End Further.

(** ** The further properties on concrete calls *)

Lemma time_only_discontinues_witness :
  date_2020_01_06 <= date_2020_01_06 + 2 /\
  rejectionCode
    (settled (XRange.resolve (date_2020_01_06 - 1) date_2020_01_06
                             (Some "8.10.x") (Some false)))
  = Some NODE_VERSION_DISCONTINUED /\
  rejectionCode
    (settled (XRange.resolve (date_2020_01_06 + 1) (date_2020_01_06 + 2)
                             (Some "8.10.x") (Some false)))
  = Some NODE_VERSION_DISCONTINUED /\
  XRange.resolve (date_2020_01_06 - 1) (date_2020_01_06 + 2) (Some "8.10.x") (Some false)
  = XRange.resolve (date_2020_01_06 - 1) date_2020_01_06 (Some "8.10.x") (Some false) /\
  rejectionMessage
    (settled (XRange.resolve (date_2020_01_06 + 1) (date_2020_01_06 + 2)
                             (Some "8.10.x") (Some false)))
  <> rejectionMessage
       (settled (XRange.resolve (date_2020_01_06 - 1) date_2020_01_06
                                (Some "8.10.x") (Some false))).
Proof.
  split; [lia|]. split; [reflexivity|].
  destruct (proj1 (time_only_discontinues (list N) XRange.parse XRange.meets XRange.plain
                     (date_2020_01_06 - 1) (date_2020_01_06 + 1)
                     date_2020_01_06 (date_2020_01_06 + 2)
                     (Some "8.10.x") (Some false) ltac:(lia)) eq_refl)
    as [Hcode Hsame].
  split; [exact Hcode|]. split; [exact Hsame|].
  vm_compute. discriminate.
Defined.

Lemma returned_option_is_supported_witness :
  settled (XRange.resolve 0 date_2020_01_06 (Some "10.x") None) = Normal node10 /\
  isDiscontinued date_2020_01_06 node10 = false /\
  In node10 (supportedOptions date_2020_01_06).
Proof.
  split; [reflexivity|].
  apply (returned_option_is_supported (list N) XRange.parse XRange.meets XRange.plain
           0 date_2020_01_06 (Some "10.x") None node10).
  reflexivity.
Defined.

Lemma discontinued_message_witness :
  settled (XRange.resolve date_2020_01_06 date_2020_01_06 (Some "8.10.x") None)
  = Abrupt (NowBuildError NODE_VERSION_DISCONTINUED
              ("Found `engines` in `package.json` with a discontinued Node.js version range: 8.10.x"
               ++ lineBreak
               ++ "Please use one of the following `engines` in your `package.json`: "
               ++ "[" ++ quoted "12.x" ++ "," ++ quoted "10.x" ++ "]"
               ++ lineBreak
               ++ "This change is the result of a decision made by an upstream infrastructure provider (AWS)."
               ++ lineBreak
               ++ "Read more: https://docs.aws.amazon.com/lambda/latest/dg/runtime-support-policy.html")) /\
  settled (XRange.resolve date_2020_01_06 date_2020_01_06 None None)
  = Abrupt (NowBuildError NODE_VERSION_DISCONTINUED
              ("This project is using a discontinued version of Node.js and must be upgraded."
               ++ lineBreak
               ++ "Please add " ++ quoted "engines" ++ ": { " ++ quoted "node" ++ ": "
               ++ quoted "12.x" ++ " } to your `package.json` file."
               ++ lineBreak
               ++ "This change is the result of a decision made by an upstream infrastructure provider (AWS)."
               ++ lineBreak
               ++ "Read more: https://docs.aws.amazon.com/lambda/latest/dg/runtime-support-policy.html")) /\
  exists advice,
    rejectionMessage
      (settled (XRange.resolve date_2020_01_06 date_2020_01_06 (Some "8.10.x") None))
    = Some (advice ++ lineBreak
            ++ "This change is the result of a decision made by an upstream infrastructure provider (AWS)."
            ++ lineBreak
            ++ "Read more: https://docs.aws.amazon.com/lambda/latest/dg/runtime-support-policy.html") /\
    occursIn (quoted "10.x") advice.
Proof.
  split; [reflexivity|]. split; [reflexivity|].
  destruct (discontinued_message (list N) XRange.parse XRange.meets XRange.plain
              date_2020_01_06 date_2020_01_06 (Some "8.10.x") None _ eq_refl)
    as (advice & Hmessage & _ & Hfound).
  destruct (Hfound eq_refl) as (requested & list & _ & Hadvice & _ & Hlisted).
  exists advice. split.
  - cbn [rejectionMessage]. rewrite <- Hmessage. reflexivity.
  - rewrite Hadvice.
    destruct (proj2 (Hlisted node10 (or_intror (or_introl eq_refl))) eq_refl)
      as (before & after & ->).
    exists ("Found `engines` in `package.json` with a discontinued Node.js version range: "
            ++ requested ++ lineBreak
            ++ "Please use one of the following `engines` in your `package.json`: "
            ++ before), after.
    rewrite !append_assoc. reflexivity.
Defined.

Lemma supported_shrinks_witness :
  0 <= date_2020_01_06 /\
  incl (supportedOptions date_2020_01_06) (supportedOptions 0) /\
  incl (supportedOptions 0) allOptions.
Proof.
  split; [unfold date_2020_01_06; lia|].
  apply (supported_shrinks 0 date_2020_01_06). unfold date_2020_01_06. lia.
Defined.

Lemma type_error_iff_not_a_range_witness :
  knownRangesParse (list N) XRange.parse /\
  Js.truthy (Some "latest") = true /\
  XRange.parse "latest" = None /\
  settled (XRange.resolve 0 0 (Some "latest") (Some false)) = Abrupt TypeError.
Proof.
  split; [exact XRange_knownRangesParse|]. split; [reflexivity|].
  split; [reflexivity|].
  apply (proj2 (type_error_iff_not_a_range (list N) XRange.parse XRange.meets
                  XRange.plain 0 0 (Some "latest") (Some false)
                  XRange_knownRangesParse)).
  split; reflexivity.
Defined.

Lemma newest_range_returns_latest_witness :
  Js.truthy (Some "*") = true /\
  intersection (list N) XRange.parse XRange.meets (range getLatestNodeVersion) "*"
  = Some true /\
  XRange.resolve 0 date_2020_01_06 (Some "*") None
  = ([DebugLine (debugLine (Some "*") None getLatestNodeVersion)],
     Normal getLatestNodeVersion).
Proof.
  split; [reflexivity|]. split; [reflexivity|].
  apply (newest_range_returns_latest (list N) XRange.parse XRange.meets XRange.plain
           0 date_2020_01_06 (Some "*") None); reflexivity.
Defined.

Lemma flag_hides_range_witness :
  Js.truthyFlag (Some true) = true /\
  rejectionMessage (settled (XRange.resolve 0 0 (Some "6.x") (Some true)))
  = rejectionMessage (settled (XRange.resolve 0 date_2020_01_06 (Some "4.x") (Some true))) /\
  rejectionMessage (settled (XRange.resolve 0 0 (Some "6.x") (Some true)))
  = Some ("This project is using an invalid version of Node.js and must be changed."
          ++ lineBreak
          ++ "Please use one of the following `engines` in your `package.json`: "
          ++ "[" ++ quoted "12.x" ++ "," ++ quoted "10.x" ++ "," ++ quoted "8.10.x" ++ "]").
Proof.
  split; [reflexivity|].
  destruct (flag_hides_range (list N) XRange.parse XRange.meets XRange.plain
              0 0 date_2020_01_06 (Some "6.x") (Some "4.x") (Some true) (Some true)
              NODE_VERSION_INVALID _ _ eq_refl eq_refl eq_refl eq_refl)
    as [Hsame _].
  split; [exact (f_equal Some Hsame)|reflexivity].
Defined.

Lemma explicit_wording_quotes_range_witness :
  Js.truthyFlag None = false /\
  Js.truthy (Some "6.x") = true /\
  rejectionMessage (settled (XRange.resolve 0 0 (Some "6.x") None))
  = Some (invalidRangeMessageAt 0 "6.x" None) /\
  occursIn "6.x" (invalidRangeMessageAt 0 "6.x" None).
Proof.
  split; [reflexivity|]. split; [reflexivity|]. split; [reflexivity|].
  apply (explicit_wording_quotes_range (list N) XRange.parse XRange.meets XRange.plain
           0 0 (Some "6.x") None); reflexivity.
Defined.

Lemma rejection_kinds_witness :
  settled (XRange.resolve 0 0 (Some "latest") None) = Abrupt TypeError /\
  ((Js.truthy (Some "latest") = true /\ TypeError = TypeError) \/
   (Js.truthy (Some "latest") = true /\
    exists m, TypeError = NowBuildError NODE_VERSION_INVALID m) \/
   (exists m, TypeError = NowBuildError NODE_VERSION_DISCONTINUED m)).
Proof.
  split; [reflexivity|].
  apply (rejection_kinds (list N) XRange.parse XRange.meets XRange.plain
           0 0 (Some "latest") None TypeError).
  reflexivity.
Defined.


(** ** Tactics for reading files by name *)

(** Decides the comparisons of two names that are both known. *)
Ltac eqb_closed :=
  repeat match goal with
         | |- context [String.eqb ?a ?b] =>
             let v := eval vm_compute in (String.eqb a b) in
             match v with
             | true => change (String.eqb a b) with true
             | false => change (String.eqb a b) with false
             end; cbv iota
         end.

(** Finds an element in a list that is known. *)
Ltac in_closed_list := vm_compute; repeat (first [left; reflexivity | right]).

(** Reads through the files an update has written, by cases on the
    files of [fs] that are looked at and on the name [p] that is read. *)
Ltac use_reads fs :=
  repeat match goal with
         | H : fs ?x = _ |- context [fs ?x] => rewrite H
         end.

Ltac crunch fs p :=
  repeat first
    [ progress (unfold Gatsby.put, Gatsby.del; eqb_closed; cbv beta iota; use_reads fs)
    | match goal with
      | |- context [match fs ?x with _ => _ end] =>
          lazymatch x with
          | p => fail
          | _ => let H := fresh "Hfs" in destruct (fs x) eqn:H
          end
      end
    | match goal with
      | |- context [String.eqb p ?a] => destruct (String.eqb_spec p a); subst
      end ].

(** ** The Gatsby configuration files *)

Section GatsbyFiles.

Import Gatsby.
Local Open Scope fs_scope.

Lemma put_same p c fs : put p c fs p = Some c.
Proof. unfold put. rewrite String.eqb_refl. reflexivity. Qed.

Lemma put_other p c fs p' : p' <> p -> put p c fs p' = fs p'.
Proof. intros H. unfold put. rewrite (proj2 (String.eqb_neq p' p) H). reflexivity. Qed.

Lemma del_same p fs : del p fs p = None.
Proof. unfold del. rewrite String.eqb_refl. reflexivity. Qed.

Lemma del_other p fs p' : p' <> p -> del p fs p' = fs p'.
Proof. intros H. unfold del. rewrite (proj2 (String.eqb_neq p' p) H). reflexivity. Qed.

Lemma startsWith_some content prefix :
  startsWith content prefix = true -> exists c, content = Some c.
Proof.
  destruct content as [c|]; [exists c; reflexivity|discriminate].
Qed.

Lemma round_runs baseFile backupFile fs :
  baseFile <> backupFile ->
  round baseFile backupFile fs = Ok tt (roundFiles baseFile backupFile fs).
Proof.
  intros Hne. unfold round, roundFiles, bind, tryReadFileSync.
  destruct (startsWith (fs baseFile) GENERATED_FILE_COMMENT) eqn:Hgen.
  - destruct (startsWith_some _ _ Hgen) as [c Hc].
    unfold rmSync at 1. rewrite Hc.
    destruct (fs backupFile) as [[|x rest]|] eqn:Hbk; cbn [Js.truthy ret]; try reflexivity.
    unfold rename. rewrite del_other by congruence. rewrite Hbk. reflexivity.
  - cbn [ret].
    destruct (fs backupFile) as [[|x rest]|] eqn:Hbk; cbn [Js.truthy ret]; try reflexivity.
    unfold rename. rewrite Hbk. reflexivity.
Qed.

Lemma roundFiles_read baseFile backupFile fs p :
  baseFile <> backupFile ->
  roundFiles baseFile backupFile fs p =
  if String.eqb p baseFile then restored fs baseFile backupFile
  else if String.eqb p backupFile then keptBackup fs backupFile
  else fs p.
Proof.
  intros Hne. unfold roundFiles, restored, keptBackup.
  destruct (String.eqb_spec p baseFile) as [->|Hb];
    [|destruct (String.eqb_spec p backupFile) as [->|Hk]].
  - destruct (fs backupFile) as [[|x rest]|]; cbn [Js.truthy].
    + destruct (startsWith (fs baseFile) GENERATED_FILE_COMMENT);
        [apply del_same|reflexivity].
    + apply put_same.
    + destruct (startsWith (fs baseFile) GENERATED_FILE_COMMENT);
        [apply del_same|reflexivity].
  - destruct (fs backupFile) as [[|x rest]|] eqn:Hbk; cbn [Js.truthy].
    + destruct (startsWith (fs baseFile) GENERATED_FILE_COMMENT);
        [rewrite del_other by congruence|]; exact Hbk.
    + rewrite put_other by congruence. apply del_same.
    + destruct (startsWith (fs baseFile) GENERATED_FILE_COMMENT);
        [rewrite del_other by congruence|]; exact Hbk.
  - destruct (fs backupFile) as [[|x rest]|]; cbn [Js.truthy];
      try (rewrite put_other by exact Hb; rewrite del_other by exact Hk);
      (destruct (startsWith (fs baseFile) GENERATED_FILE_COMMENT);
       [rewrite del_other by exact Hb|]; reflexivity).
Qed.

(** A loop whose rounds all run to their end. *)
Lemma forOf_runs {A} (l : list A) (body : A -> FsM unit) (after : A -> Files -> Files) :
  (forall x, In x l -> forall fs, body x fs = Ok tt (after x fs)) ->
  forall fs, forOf l body fs = Ok tt (fold_left (fun fs x => after x fs) l fs).
Proof.
  induction l as [|x l IH]; intros Hbody fs; [reflexivity|].
  cbn [forOf fold_left]. unfold bind at 1.
  rewrite (Hbody x (or_introl eq_refl)).
  apply IH. intros y Hy. apply Hbody. right. exact Hy.
Qed.

Lemma cleaned_outside l fs p : ~ In p (names l) -> cleaned l fs p = fs p.
Proof.
  induction l as [|[b k] l IH]; intros Hout; [reflexivity|].
  cbn [cleaned].
  assert (Hb : p <> b) by (intros ->; apply Hout; left; reflexivity).
  assert (Hk : p <> k).
  { intros ->. apply Hout. unfold names. apply in_or_app. right. left. reflexivity. }
  rewrite (proj2 (String.eqb_neq p b) Hb), (proj2 (String.eqb_neq p k) Hk).
  apply IH. intros Hin. apply Hout. unfold names in *.
  apply in_app_or in Hin. cbn [map]. destruct Hin as [Hin|Hin].
  - right. apply in_or_app. left. exact Hin.
  - right. apply in_or_app. right. right. exact Hin.
Qed.

Lemma cleaned_agree l fs fs' p :
  fs p = fs' p ->
  (forall x, In x (names l) -> fs x = fs' x) ->
  cleaned l fs p = cleaned l fs' p.
Proof.
  induction l as [|[b k] l IH]; intros Hp Hnames; [exact Hp|].
  cbn [cleaned].
  assert (Hb : fs b = fs' b) by (apply Hnames; left; reflexivity).
  assert (Hk : fs k = fs' k).
  { apply Hnames. unfold names. apply in_or_app. right. left. reflexivity. }
  unfold restored, keptBackup. rewrite Hb, Hk.
  destruct (String.eqb p b); [reflexivity|].
  destruct (String.eqb p k); [reflexivity|].
  apply IH; [exact Hp|]. intros x Hx. apply Hnames. unfold names in *.
  apply in_app_or in Hx. cbn [map]. destruct Hx as [Hx|Hx].
  - right. apply in_or_app. left. exact Hx.
  - right. apply in_or_app. right. right. exact Hx.
Qed.

(** The rounds of a loop over files of different names do not interfere. *)
Lemma rounds_cleaned l :
  NoDup (names l) ->
  forall fs p,
    fold_left (fun fs bk => roundFiles (fst bk) (snd bk) fs) l fs p = cleaned l fs p.
Proof.
  induction l as [|[b k] l IH]; intros Hnd fs p; [reflexivity|].
  assert (Hbk : b <> k /\ ~ In b (names l) /\ ~ In k (names l) /\ NoDup (names l)).
  { unfold names in *. cbn [map app] in Hnd. inversion Hnd as [|? ? Hb Hrest]; subst.
    apply NoDup_remove in Hrest. destruct Hrest as [Hnd' Hk].
    repeat split.
    - intros ->. apply Hb. apply in_or_app. right. left. reflexivity.
    - intros Hin. apply Hb. apply in_app_or in Hin. apply in_or_app.
      destruct Hin; [left|right; right]; assumption.
    - intros Hin. apply Hk. apply in_app_or in Hin. apply in_or_app. exact Hin.
    - exact Hnd'. }
  destruct Hbk as (Hne & Hb & Hk & Hnd').
  cbn [fold_left fst snd cleaned]. rewrite (IH Hnd').
  destruct (String.eqb_spec p b) as [->|Hpb];
    [|destruct (String.eqb_spec p k) as [->|Hpk]].
  - rewrite (cleaned_outside _ _ _ Hb), roundFiles_read by exact Hne.
    rewrite String.eqb_refl. reflexivity.
  - rewrite (cleaned_outside _ _ _ Hk), roundFiles_read by exact Hne.
    rewrite (proj2 (String.eqb_neq k b)) by congruence.
    rewrite String.eqb_refl. reflexivity.
  - apply cleaned_agree.
    + rewrite roundFiles_read by exact Hne.
      rewrite (proj2 (String.eqb_neq p b) Hpb), (proj2 (String.eqb_neq p k) Hpk).
      reflexivity.
    + intros x Hx. rewrite roundFiles_read by exact Hne.
      rewrite (proj2 (String.eqb_neq x b)) by (intros ->; contradiction).
      rewrite (proj2 (String.eqb_neq x k)) by (intros ->; contradiction).
      reflexivity.
Qed.

Lemma distinct_NoDup l : distinct l = true -> NoDup l.
Proof.
  induction l as [|x l IH]; [constructor|].
  cbn [distinct]. intros H. apply andb_true_iff in H. destruct H as [Hx Hl].
  constructor; [|exact (IH Hl)].
  intros Hin. apply negb_true_iff in Hx.
  assert (existsb (String.eqb x) l = true)
    by (apply existsb_exists; exists x; split; [exact Hin|apply String.eqb_refl]).
  congruence.
Qed.

Lemma pairs_NoDup : NoDup (names pairs).
Proof. apply distinct_NoDup. vm_compute. reflexivity. Qed.

Lemma cleanupBody_runs fs :
  cleanupBody fs =
  Ok tt (fold_left (fun fs bk => roundFiles (fst bk) (snd bk) fs) pairs fs).
Proof.
  unfold cleanupBody.
  rewrite (forOf_runs _ _
             (fun fileName fs =>
                fold_left
                  (fun fs fileEnding =>
                     roundFiles (fileName ++ fileEnding)
                                ((fileName ++ fileEnding)
                                 ++ ".__vercel_builder_backup__" ++ fileEnding) fs)
                  [".js"; ".ts"; ".mjs"] fs)).
  - unfold pairs. cbn [fold_left flat_map map app fst snd]. reflexivity.
  - intros fileName HfileName fs'.
    apply (forOf_runs _ _
             (fun fileEnding fs =>
                roundFiles (fileName ++ fileEnding)
                           ((fileName ++ fileEnding)
                            ++ ".__vercel_builder_backup__" ++ fileEnding) fs)).
    intros fileEnding HfileEnding fs''.
    apply (round_runs (fileName ++ fileEnding)).
    destruct HfileName as [<-|[<-|[]]];
      destruct HfileEnding as [<-|[<-|[<-|[]]]]; vm_compute; discriminate.
Qed.

(** What [cleanupGatsbyFiles] leaves, file by file; its [catch] does not
    run. *)
Lemma cleanup_cleaned fs :
  snd (cleanupGatsbyFiles fs) = false /\
  forall p, fst (cleanupGatsbyFiles fs) p = cleaned pairs fs p.
Proof.
  unfold cleanupGatsbyFiles, filesAfter, threw. rewrite cleanupBody_runs.
  split; [reflexivity|]. intros p. cbn [fst]. apply rounds_cleaned, pairs_NoDup.
Qed.

End GatsbyFiles.

Section GatsbyUpdates.

Import Gatsby.
Local Open Scope fs_scope.

Lemma prefix_append (a b : string) : String.prefix a (a ++ b) = true.
Proof.
  induction a as [|x a IH]; [destruct b; reflexivity|].
  cbn. destruct (ascii_dec x x); [exact IH|congruence].
Qed.

(** Every text an update writes starts with the comment by which
    [cleanupGatsbyFiles] knows a generated file. *)
Lemma generated_text rest :
  startsWith (Some (GENERATED_FILE_COMMENT ++ rest)) GENERATED_FILE_COMMENT = true.
Proof.
  unfold startsWith. cbn [Js.orUndefined]. rewrite prefix_append. reflexivity.
Qed.

Lemma updateGatsbyNode_runs fs :
  updateGatsbyNode fs =
  Ok tt (updatedFiles GATSBY_NODE_FILE nodeTs nodeMjs nodeJs nodeStub fs).
Proof.
  unfold updateGatsbyNode, updateGatsbyNodeTs, updateGatsbyNodeMjs, updateGatsbyNodeJs,
    updatedFiles, backedUp, GATSBY_NODE_FILE, bind, fileExists, rename, writeFile, ret.
  cbn [String.append].
  destruct (fs "gatsby-node.ts") eqn:Hts;
    [destruct (fs "gatsby-node.ts.__vercel_builder_backup__.ts");
     cbv beta iota delta [negb]; rewrite ?Hts; reflexivity|].
  destruct (fs "gatsby-node.mjs") eqn:Hmjs;
    [destruct (fs "gatsby-node.mjs.__vercel_builder_backup__.mjs");
     cbv beta iota delta [negb]; rewrite ?Hmjs; reflexivity|].
  destruct (fs "gatsby-node.js") eqn:Hjs;
    [destruct (fs "gatsby-node.js.__vercel_builder_backup__.js");
     cbv beta iota delta [negb]; rewrite ?Hjs; reflexivity|].
  reflexivity.
Qed.

Lemma updateGatsbyConfig_runs plugins fs :
  updateGatsbyConfig plugins fs =
  Ok tt (updatedFiles GATSBY_CONFIG_FILE (configTs plugins) (configMjs plugins)
                      (configJs plugins) (configStub plugins) fs).
Proof.
  unfold updateGatsbyConfig, updateGatsbyConfigTs, updateGatsbyConfigMjs,
    updateGatsbyConfigJs, updatedFiles, backedUp, GATSBY_CONFIG_FILE, bind,
    fileExists, rename, writeFile, ret.
  cbn [String.append].
  destruct (fs "gatsby-config.ts") eqn:Hts;
    [destruct (fs "gatsby-config.ts.__vercel_builder_backup__.ts");
     cbv beta iota delta [negb]; rewrite ?Hts; reflexivity|].
  destruct (fs "gatsby-config.mjs") eqn:Hmjs;
    [destruct (fs "gatsby-config.mjs.__vercel_builder_backup__.mjs");
     cbv beta iota delta [negb]; rewrite ?Hmjs; reflexivity|].
  destruct (fs "gatsby-config.js") eqn:Hjs;
    [destruct (fs "gatsby-config.js.__vercel_builder_backup__.js");
     cbv beta iota delta [negb]; rewrite ?Hjs; reflexivity|].
  reflexivity.
Qed.

(** The files after an update, file by file. *)
Lemma updatedFiles_read fileName textTs textMjs textJs textStub fs p :
  In fileName [GATSBY_CONFIG_FILE; GATSBY_NODE_FILE] ->
  updatedFiles fileName textTs textMjs textJs textStub fs p =
  let baseFile := fileName ++ chosenEnding fileName fs in
  let backupFile :=
    baseFile ++ ".__vercel_builder_backup__" ++ chosenEnding fileName fs in
  if String.eqb p baseFile
  then Some (writtenText fileName textTs textMjs textJs textStub fs)
  else if String.eqb p backupFile
       then match fs backupFile with
            | Some kept => Some kept
            | None => fs baseFile
            end
       else fs p.
Proof.
  intros [<-|[<-|[]]];
    unfold updatedFiles, backedUp, chosenEnding, writtenText,
      GATSBY_CONFIG_FILE, GATSBY_NODE_FILE;
    cbn [String.append];
    (match goal with
     | |- context [fs ?ts] =>
         match ts with
         | context [".ts"] => destruct (fs ts) eqn:Hts
         end
     end;
     [|match goal with
       | |- context [fs ?mjs] =>
           match mjs with
           | context [".mjs"] => destruct (fs mjs) eqn:Hmjs
           end
       end;
       [|match goal with
         | |- context [fs ?js] =>
             match js with
             | context [".js"] => destruct (fs js) eqn:Hjs
             end
         end]]);
    cbn [String.append]; cbv zeta;
    try match goal with
        | |- context [match fs ?bk with _ => _ end] => destruct (fs bk) eqn:Hbk
        end;
    unfold put, del;
    repeat match goal with
           | |- context [String.eqb p ?a] =>
               destruct (String.eqb_spec p a); subst
           end;
    eqb_closed; rewrite ?Hts, ?Hmjs, ?Hjs, ?Hbk; try reflexivity; try congruence.


Qed.

Lemma cleaned_pointwise l fs fs' p :
  (forall b k, In (b, k) l ->
               restored fs' b k = fs b /\ keptBackup fs' k = fs k) ->
  (~ In p (names l) -> fs' p = fs p) ->
  cleaned l fs' p = fs p.
Proof.
  induction l as [|[b k] l IH]; intros Hpairs Hout; [apply Hout; intros []|].
  cbn [cleaned].
  destruct (Hpairs b k (or_introl eq_refl)) as [Hb Hk].
  destruct (String.eqb_spec p b) as [->|Hpb]; [exact Hb|].
  destruct (String.eqb_spec p k) as [->|Hpk]; [exact Hk|].
  apply IH.
  - intros b' k' Hin. apply Hpairs. right. exact Hin.
  - intros Hnot. apply Hout. unfold names in *. cbn [map app fst snd].
    intros [Heq|Hin]; [congruence|].
    apply in_app_or in Hin. destruct Hin as [Hin|[Heq|Hin]]; [|congruence|];
      apply Hnot; apply in_or_app; [left|right]; exact Hin.
Qed.

(** [cleanupGatsbyFiles] undoes an injection into a pristine directory. *)
Lemma injected_cleaned fs fs' :
  pristine fs -> injected fs fs' -> forall p, cleaned pairs fs' p = fs p.
Proof.
  intros Hpr [Hpairs Hout] p. apply cleaned_pointwise; [|apply Hout].
  intros b k Hin. destruct (Hpr b k Hin) as [Hk Hgen].
  unfold restored, keptBackup.
  destruct (Hpairs b k Hin) as [[Hb' Hk']|(Hgen' & Hk' & Hne)].
  - rewrite Hb', Hk', Hk, Hgen. cbn [Js.truthy]. split; reflexivity.
  - rewrite Hk', Hgen', Hk.
    destruct (fs b) as [[|c rest]|] eqn:Hb; cbn [Js.truthy];
      [congruence|split; reflexivity|split; reflexivity].
Qed.

Lemma injected_refl fs : injected fs fs.
Proof. split; [intros b k _; left; split; reflexivity|reflexivity]. Qed.

Lemma in_names_base b k : In (b, k) pairs -> In b (names pairs).
Proof.
  intros H. unfold names. apply in_or_app. left.
  exact (in_map fst _ _ H).
Qed.

Lemma in_names_backup b k : In (b, k) pairs -> In k (names pairs).
Proof.
  intros H. unfold names. apply in_or_app. right.
  exact (in_map snd _ _ H).
Qed.

(** Two of the six files with their backups are the same file, or their
    four names differ. *)
Lemma pairs_apart b k b' k' :
  In (b, k) pairs -> In (b', k') pairs ->
  (b', k') = (b, k) \/ (b' <> b /\ b' <> k /\ k' <> b /\ k' <> k).
Proof.
  intros H H'. vm_compute in H, H'.
  repeat (destruct H as [H|H]; [injection H as <- <-|]); try contradiction;
    repeat (destruct H' as [H'|H']; [injection H' as <- <-|]); try contradiction;
    first [left; reflexivity | right; repeat split; discriminate].
Qed.

End GatsbyUpdates.

Section GatsbyInjection.

Import Gatsby.
Local Open Scope fs_scope.

(** Replacing one more file by a generated one. *)
Lemma inject_one fs fs1 fs2 b k t :
  In (b, k) pairs ->
  (forall x, fs2 x =
             if String.eqb x b then Some t
             else if String.eqb x k
                  then match fs1 k with Some kept => Some kept | None => fs1 b end
                  else fs1 x) ->
  startsWith (Some t) GENERATED_FILE_COMMENT = true ->
  fs1 b = fs b -> fs1 k = fs k -> fs b <> Some EmptyString ->
  pristine fs -> injected fs fs1 -> injected fs fs2.
Proof.
  intros Hin Hread Hgen Hb Hk Hne Hpr [Hpairs Hout].
  assert (Hbk : b <> k).
  { destruct (pairs_apart b k b k Hin Hin) as [_|(H & _)];
      [|congruence].
    clear - Hin. vm_compute in Hin.
    repeat (destruct Hin as [Hin|Hin]; [injection Hin as <- <-; discriminate|]).
    contradiction. }
  split.
  - intros b' k' Hin'.
    destruct (pairs_apart b k b' k' Hin Hin') as [[= -> ->]|(H1 & H2 & H3 & H4)].
    + right. rewrite !Hread, String.eqb_refl.
      rewrite (proj2 (String.eqb_neq k b)) by congruence.
      rewrite String.eqb_refl, Hk, (proj1 (Hpr b k Hin)), Hb.
      repeat split; [exact Hgen|exact Hne].
    + rewrite !Hread.
      rewrite (proj2 (String.eqb_neq b' b) H1), (proj2 (String.eqb_neq b' k) H2),
        (proj2 (String.eqb_neq k' b) H3), (proj2 (String.eqb_neq k' k) H4).
      apply Hpairs, Hin'.
  - intros p Hp. rewrite Hread.
    rewrite (proj2 (String.eqb_neq p b))
      by (intros ->; exact (Hp (in_names_base _ _ Hin))).
    rewrite (proj2 (String.eqb_neq p k))
      by (intros ->; exact (Hp (in_names_backup _ _ Hin))).
    apply Hout, Hp.
Qed.

(** An update of files that are as they were in a pristine directory
    replaces one of them by a generated one. *)
Lemma update_injected fileName textTs textMjs textJs textStub fs fs1 :
  In fileName [GATSBY_CONFIG_FILE; GATSBY_NODE_FILE] ->
  pristine fs -> injected fs fs1 ->
  (forall e, In e [".js"; ".ts"; ".mjs"] ->
             fs1 (fileName ++ e) = fs (fileName ++ e) /\
             fs1 ((fileName ++ e) ++ ".__vercel_builder_backup__" ++ e)
             = fs ((fileName ++ e) ++ ".__vercel_builder_backup__" ++ e)) ->
  (forall path, selected fileName fs = Some path -> fs path <> Some EmptyString) ->
  startsWith (Some textTs) GENERATED_FILE_COMMENT = true ->
  startsWith (Some textMjs) GENERATED_FILE_COMMENT = true ->
  startsWith (Some textJs) GENERATED_FILE_COMMENT = true ->
  startsWith (Some textStub) GENERATED_FILE_COMMENT = true ->
  injected fs (updatedFiles fileName textTs textMjs textJs textStub fs1).
Proof.
  intros Hn Hpr Hinj Hsame Hsel HTs HMjs HJs HStub.
  destruct (Hsame ".js" ltac:(in_closed_list)) as [Hjs Hjsk].
  destruct (Hsame ".ts" ltac:(in_closed_list)) as [Hts Htsk].
  destruct (Hsame ".mjs" ltac:(in_closed_list)) as [Hmjs Hmjsk].
  pose proof (fun x => updatedFiles_read fileName textTs textMjs textJs textStub fs1 x Hn)
    as Hread.
  unfold chosenEnding, writtenText, selected in *.
  cbv zeta in Hread. rewrite Hts, Hmjs, Hjs in Hread.
  destruct (fs (fileName ++ ".ts")) as [cts|] eqn:Ets;
    [|destruct (fs (fileName ++ ".mjs")) as [cmjs|] eqn:Emjs;
      [|destruct (fs (fileName ++ ".js")) as [cjs|] eqn:Ejs]].
  - apply (inject_one fs fs1 _ (fileName ++ ".ts")
             ((fileName ++ ".ts") ++ ".__vercel_builder_backup__" ++ ".ts") _
             ltac:(destruct Hn as [<-|[<-|[]]]; in_closed_list) Hread HTs);
      [congruence|assumption|exact (Hsel _ eq_refl)|assumption|assumption].
  - apply (inject_one fs fs1 _ (fileName ++ ".mjs")
             ((fileName ++ ".mjs") ++ ".__vercel_builder_backup__" ++ ".mjs") _
             ltac:(destruct Hn as [<-|[<-|[]]]; in_closed_list) Hread HMjs);
      [congruence|assumption|exact (Hsel _ eq_refl)|assumption|assumption].
  - apply (inject_one fs fs1 _ (fileName ++ ".js")
             ((fileName ++ ".js") ++ ".__vercel_builder_backup__" ++ ".js") _
             ltac:(destruct Hn as [<-|[<-|[]]]; in_closed_list) Hread HJs);
      [congruence|assumption|exact (Hsel _ eq_refl)|assumption|assumption].
  - apply (inject_one fs fs1 _ (fileName ++ ".js")
             ((fileName ++ ".js") ++ ".__vercel_builder_backup__" ++ ".js") _
             ltac:(destruct Hn as [<-|[<-|[]]]; in_closed_list) Hread HStub);
      [congruence|assumption|rewrite Ejs; discriminate|assumption|assumption].
Qed.

Lemma updates_commute_files textTs textMjs textJs textStub
      textTs' textMjs' textJs' textStub' fs p :
  updatedFiles GATSBY_NODE_FILE textTs' textMjs' textJs' textStub'
    (updatedFiles GATSBY_CONFIG_FILE textTs textMjs textJs textStub fs) p
  = updatedFiles GATSBY_CONFIG_FILE textTs textMjs textJs textStub
      (updatedFiles GATSBY_NODE_FILE textTs' textMjs' textJs' textStub' fs) p.
Proof.
  unfold updatedFiles, backedUp, GATSBY_CONFIG_FILE, GATSBY_NODE_FILE.
  cbn [String.append].
  crunch fs p; reflexivity.
Qed.

Lemma update_twice_files fileName textTs textMjs textJs textStub fs p :
  In fileName [GATSBY_CONFIG_FILE; GATSBY_NODE_FILE] ->
  selected fileName fs <> None ->
  updatedFiles fileName textTs textMjs textJs textStub
    (updatedFiles fileName textTs textMjs textJs textStub fs) p
  = updatedFiles fileName textTs textMjs textJs textStub fs p.
Proof.
  intros [<-|[<-|[]]];
    unfold selected, updatedFiles, backedUp, GATSBY_CONFIG_FILE, GATSBY_NODE_FILE;
    cbn [String.append]; intros Hsel;
    crunch fs p; try reflexivity; try congruence.
Qed.

Lemma filesAfter_config plugins fs :
  filesAfter (updateGatsbyConfig plugins) fs =
  updatedFiles GATSBY_CONFIG_FILE (configTs plugins) (configMjs plugins)
               (configJs plugins) (configStub plugins) fs.
Proof. unfold filesAfter. rewrite updateGatsbyConfig_runs. reflexivity. Qed.

Lemma filesAfter_node fs :
  filesAfter updateGatsbyNode fs =
  updatedFiles GATSBY_NODE_FILE nodeTs nodeMjs nodeJs nodeStub fs.
Proof. unfold filesAfter. rewrite updateGatsbyNode_runs. reflexivity. Qed.

Lemma filesAfter_then {A B} (m : FsM A) (k : FsM B) fs :
  threw m fs = false ->
  filesAfter (m ;; k) fs = filesAfter k (filesAfter m fs).
Proof.
  unfold threw, filesAfter, bind. destruct (m fs); [reflexivity|discriminate].
Qed.

Lemma config_never_throws plugins fs : threw (updateGatsbyConfig plugins) fs = false.
Proof. unfold threw. rewrite updateGatsbyConfig_runs. reflexivity. Qed.

Lemma node_never_throws fs : threw updateGatsbyNode fs = false.
Proof. unfold threw. rewrite updateGatsbyNode_runs. reflexivity. Qed.

Lemma node_texts_generated :
  startsWith (Some nodeTs) GENERATED_FILE_COMMENT = true /\
  startsWith (Some nodeMjs) GENERATED_FILE_COMMENT = true /\
  startsWith (Some nodeJs) GENERATED_FILE_COMMENT = true /\
  startsWith (Some nodeStub) GENERATED_FILE_COMMENT = true.
Proof. repeat split; apply generated_text. Qed.

Lemma config_texts_generated plugins :
  startsWith (Some (configTs plugins)) GENERATED_FILE_COMMENT = true /\
  startsWith (Some (configMjs plugins)) GENERATED_FILE_COMMENT = true /\
  startsWith (Some (configJs plugins)) GENERATED_FILE_COMMENT = true /\
  startsWith (Some (configStub plugins)) GENERATED_FILE_COMMENT = true.
Proof. repeat split; apply generated_text. Qed.

Lemma not_in_names p :
  (forall fileName fileEnding,
      In fileName [GATSBY_CONFIG_FILE; GATSBY_NODE_FILE] ->
      In fileEnding [".js"; ".ts"; ".mjs"] ->
      p <> fileName ++ fileEnding /\
      p <> (fileName ++ fileEnding) ++ ".__vercel_builder_backup__" ++ fileEnding) ->
  ~ In p (names pairs).
Proof.
  intros H Hin. unfold names in Hin. apply in_app_or in Hin.
  destruct Hin as [Hin|Hin]; apply in_map_iff in Hin;
    destruct Hin as ([b k] & Hp & Hin); cbn [fst snd] in Hp; subst p;
    unfold pairs in Hin;
    apply in_flat_map in Hin; destruct Hin as (fileName & HfileName & Hin);
    apply in_map_iff in Hin; destruct Hin as (fileEnding & Heq & HfileEnding);
    injection Heq as <- <-;
    destruct (H fileName fileEnding HfileName HfileEnding) as [Hb Hk];
    first [exact (Hb eq_refl)|exact (Hk eq_refl)].
Qed.

Lemma in_pairs fileName fileEnding :
  In fileName [GATSBY_CONFIG_FILE; GATSBY_NODE_FILE] ->
  In fileEnding [".js"; ".ts"; ".mjs"] ->
  In (fileName ++ fileEnding,
      (fileName ++ fileEnding) ++ ".__vercel_builder_backup__" ++ fileEnding) pairs.
Proof.
  intros HfileName HfileEnding. unfold pairs. apply in_flat_map.
  exists fileName. split; [exact HfileName|].
  apply in_map_iff. exists fileEnding. split; [reflexivity|exact HfileEnding].
Qed.

Lemma cleaned_at l fs b k :
  NoDup (names l) -> In (b, k) l ->
  cleaned l fs b = restored fs b k /\ cleaned l fs k = keptBackup fs k.
Proof.
  intros Hnd Hin.
  induction l as [|[b' k'] l IH]; [destruct Hin|].
  assert (Hbk : b' <> k' /\ ~ In b' (names l) /\ ~ In k' (names l) /\ NoDup (names l)).
  { unfold names in *. cbn [map app fst snd] in Hnd.
    inversion Hnd as [|? ? Hb Hrest]; subst.
    apply NoDup_remove in Hrest. destruct Hrest as [Hnd' Hk].
    repeat split.
    - intros ->. apply Hb. apply in_or_app. right. left. reflexivity.
    - intros Hin'. apply Hb. apply in_app_or in Hin'. apply in_or_app.
      destruct Hin'; [left|right; right]; assumption.
    - intros Hin'. apply Hk. apply in_app_or in Hin'. apply in_or_app. exact Hin'.
    - exact Hnd'. }
  destruct Hbk as (Hne & Hb & Hk & Hnd').
  cbn [cleaned]. destruct Hin as [[= -> ->]|Hin].
  - rewrite String.eqb_refl.
    rewrite (proj2 (String.eqb_neq k b)) by congruence.
    rewrite String.eqb_refl. split; reflexivity.
  - assert (Hb' : In b (map fst l)) by exact (in_map fst _ _ Hin).
    assert (Hk' : In k (map snd l)) by exact (in_map snd _ _ Hin).
    assert (Hbn : In b (names l)) by (apply in_or_app; left; exact Hb').
    assert (Hkn : In k (names l)) by (apply in_or_app; right; exact Hk').
    rewrite (proj2 (String.eqb_neq b b')) by (intros ->; contradiction).
    rewrite (proj2 (String.eqb_neq b k')) by (intros ->; contradiction).
    rewrite (proj2 (String.eqb_neq k b')) by (intros ->; contradiction).
    rewrite (proj2 (String.eqb_neq k k')) by (intros ->; contradiction).
    exact (IH Hnd' Hin).
Qed.

Lemma chosenEnding_in fileName fs :
  In (chosenEnding fileName fs) [".js"; ".ts"; ".mjs"].
Proof.
  unfold chosenEnding.
  destruct (fs (fileName ++ ".ts")); [right; left; reflexivity|].
  destruct (fs (fileName ++ ".mjs")); [right; right; left; reflexivity|].
  left. reflexivity.
Qed.

Lemma chosen_in_pairs fileName fs :
  In fileName [GATSBY_CONFIG_FILE; GATSBY_NODE_FILE] ->
  In (fileName ++ chosenEnding fileName fs,
      (fileName ++ chosenEnding fileName fs)
      ++ ".__vercel_builder_backup__" ++ chosenEnding fileName fs) pairs.
Proof. intros H. apply in_pairs; [exact H|apply chosenEnding_in]. Qed.

(** An update leaves the files alone that are not of its kind. *)
Lemma update_frame fileName textTs textMjs textJs textStub fs p :
  In fileName [GATSBY_CONFIG_FILE; GATSBY_NODE_FILE] ->
  (forall fileEnding,
      In fileEnding [".js"; ".ts"; ".mjs"] ->
      p <> fileName ++ fileEnding /\
      p <> (fileName ++ fileEnding) ++ ".__vercel_builder_backup__" ++ fileEnding) ->
  updatedFiles fileName textTs textMjs textJs textStub fs p = fs p.
Proof.
  intros Hn Hp. rewrite updatedFiles_read by exact Hn. cbv zeta.
  destruct (Hp _ (chosenEnding_in fileName fs)) as [Hb Hk].
  rewrite (proj2 (String.eqb_neq _ _) Hb), (proj2 (String.eqb_neq _ _) Hk).
  reflexivity.
Qed.

Lemma update_keeps_backup fileName textTs textMjs textJs textStub fs b k kept :
  In fileName [GATSBY_CONFIG_FILE; GATSBY_NODE_FILE] ->
  In (b, k) pairs ->
  fs k = Some kept ->
  updatedFiles fileName textTs textMjs textJs textStub fs k = Some kept.
Proof.
  intros Hn Hin Hk. rewrite updatedFiles_read by exact Hn. cbv zeta.
  destruct (pairs_apart _ _ _ _ (chosen_in_pairs fileName fs Hn) Hin)
    as [Heq|(H1 & H2 & H3 & H4)].
  - assert (Hbk : k <> b).
    { destruct (pairs_apart b k b k Hin Hin) as [_|(H & _)]; [|congruence].
      clear - Hin. vm_compute in Hin.
      repeat (destruct Hin as [Hin|Hin]; [injection Hin as <- <-; discriminate|]).
      contradiction. }
    pose proof (f_equal fst Heq) as Hb'. pose proof (f_equal snd Heq) as Hk'.
    cbn [fst snd] in Hb', Hk'. subst b k.
    rewrite (proj2 (String.eqb_neq _ _) Hbk), String.eqb_refl, Hk. reflexivity.
  - rewrite (proj2 (String.eqb_neq _ _) H3), (proj2 (String.eqb_neq _ _) H4).
    exact Hk.
Qed.


End GatsbyInjection.

(** ** The contract of the Gatsby file updates *)

Section GatsbyContract.

Import Gatsby.
Local Open Scope fs_scope.

(** X12. What [cleanupGatsbyFiles] does to each of the six configuration
    files: a backup with content takes the place of the file and is gone;
    otherwise a generated file is removed and any other file stays; the
    [catch] never runs. *)
Theorem cleanup_file_by_file fs fileName fileEnding :
  In fileName [GATSBY_CONFIG_FILE; GATSBY_NODE_FILE] ->
  In fileEnding [".js"; ".ts"; ".mjs"] ->
  let baseFile := fileName ++ fileEnding in
  let backupFile := baseFile ++ ".__vercel_builder_backup__" ++ fileEnding in
  snd (cleanupGatsbyFiles fs) = false /\
  fst (cleanupGatsbyFiles fs) baseFile
  = (if Js.truthy (fs backupFile) then fs backupFile
     else if startsWith (fs baseFile) GENERATED_FILE_COMMENT then None
          else fs baseFile) /\
  fst (cleanupGatsbyFiles fs) backupFile
  = (if Js.truthy (fs backupFile) then None else fs backupFile).
Proof.
  intros HfileName HfileEnding baseFile backupFile.
  destruct (cleanup_cleaned fs) as [Hcatch Hread].
  split; [exact Hcatch|]. rewrite !Hread.
  exact (cleaned_at pairs fs baseFile backupFile pairs_NoDup
                    (in_pairs fileName fileEnding HfileName HfileEnding)).
Qed.

(** X13. [cleanupGatsbyFiles] touches no file but the six configuration
    files and their backups. *)
Theorem cleanup_leaves_other_files fs p :
  (forall fileName fileEnding,
      In fileName [GATSBY_CONFIG_FILE; GATSBY_NODE_FILE] ->
      In fileEnding [".js"; ".ts"; ".mjs"] ->
      p <> fileName ++ fileEnding /\
      p <> (fileName ++ fileEnding) ++ ".__vercel_builder_backup__" ++ fileEnding) ->
  fst (cleanupGatsbyFiles fs) p = fs p.
Proof.
  intros Hp. rewrite (proj2 (cleanup_cleaned fs)).
  apply cleaned_outside, not_in_names, Hp.
Qed.

(** X14. [cleanupGatsbyFiles] undoes [updateGatsbyNode]: in a directory
    without backups and generated files, where the gatsby-node file the
    update works on is not empty, every file is after the update and the
    cleanup what it was before. *)
Theorem cleanup_undoes_updateGatsbyNode fs :
  pristine fs ->
  (forall path, selected GATSBY_NODE_FILE fs = Some path ->
                fs path <> Some EmptyString) ->
  forall p, fst (cleanupGatsbyFiles (filesAfter updateGatsbyNode fs)) p = fs p.
Proof.
  intros Hpr Hsel p. rewrite (proj2 (cleanup_cleaned _)), filesAfter_node.
  apply injected_cleaned; [exact Hpr|].
  destruct node_texts_generated as (HTs & HMjs & HJs & HStub).
  apply update_injected; try assumption.
  - right. left. reflexivity.
  - apply injected_refl.
  - intros e _. split; reflexivity.
Qed.

(** X15. [cleanupGatsbyFiles] undoes [updateGatsbyConfig], under the same
    conditions on the gatsby-config file, whatever the plug-ins. *)
Theorem cleanup_undoes_updateGatsbyConfig plugins fs :
  pristine fs ->
  (forall path, selected GATSBY_CONFIG_FILE fs = Some path ->
                fs path <> Some EmptyString) ->
  forall p,
    fst (cleanupGatsbyFiles (filesAfter (updateGatsbyConfig plugins) fs)) p = fs p.
Proof.
  intros Hpr Hsel p. rewrite (proj2 (cleanup_cleaned _)), filesAfter_config.
  apply injected_cleaned; [exact Hpr|].
  destruct (config_texts_generated plugins) as (HTs & HMjs & HJs & HStub).
  apply update_injected; try assumption.
  - left. reflexivity.
  - apply injected_refl.
  - intros e _. split; reflexivity.
Qed.

(** X16. [cleanupGatsbyFiles] undoes the two updates run one after the
    other, as for a project that gets both plug-ins. *)
Theorem cleanup_undoes_both_updates plugins fs :
  pristine fs ->
  (forall path, selected GATSBY_CONFIG_FILE fs = Some path ->
                fs path <> Some EmptyString) ->
  (forall path, selected GATSBY_NODE_FILE fs = Some path ->
                fs path <> Some EmptyString) ->
  forall p,
    fst (cleanupGatsbyFiles
           (filesAfter (updateGatsbyConfig plugins ;; updateGatsbyNode) fs)) p
    = fs p.
Proof.
  intros Hpr Hconfig Hnode p.
  rewrite (proj2 (cleanup_cleaned _)).
  rewrite filesAfter_then by apply config_never_throws.
  rewrite filesAfter_node, filesAfter_config.
  apply injected_cleaned; [exact Hpr|].
  destruct node_texts_generated as (HTs & HMjs & HJs & HStub).
  destruct (config_texts_generated plugins) as (HTs' & HMjs' & HJs' & HStub').
  apply update_injected; try assumption.
  - right. left. reflexivity.
  - apply update_injected; try assumption.
    + left. reflexivity.
    + apply injected_refl.
    + intros e _. split; reflexivity.
  - intros e He.
    split; apply update_frame; try (left; reflexivity);
      intros e' He'; destruct He as [<-|[<-|[<-|[]]]];
      destruct He' as [<-|[<-|[<-|[]]]]; split; vm_compute; discriminate.
Qed.


(** X18. Updating twice is updating once, when there is a configuration
    file of the kind to work on. *)
Theorem update_twice plugins fs :
  (selected GATSBY_NODE_FILE fs <> None ->
   forall p, filesAfter (updateGatsbyNode ;; updateGatsbyNode) fs p
             = filesAfter updateGatsbyNode fs p) /\
  (selected GATSBY_CONFIG_FILE fs <> None ->
   forall p,
     filesAfter (updateGatsbyConfig plugins ;; updateGatsbyConfig plugins) fs p
     = filesAfter (updateGatsbyConfig plugins) fs p).
Proof.
  split; intros Hsel p.
  - rewrite filesAfter_then by apply node_never_throws.
    rewrite !filesAfter_node.
    apply update_twice_files; [right; left; reflexivity|exact Hsel].
  - rewrite filesAfter_then by apply config_never_throws.
    rewrite !filesAfter_config.
    apply update_twice_files; [left; reflexivity|exact Hsel].
Qed.

(** X19. The two updates commute: run in either order they leave the same
    files. *)
Theorem updates_commute plugins fs p :
  filesAfter (updateGatsbyConfig plugins ;; updateGatsbyNode) fs p
  = filesAfter (updateGatsbyNode ;; updateGatsbyConfig plugins) fs p.
Proof.
  rewrite filesAfter_then by apply config_never_throws.
  rewrite (filesAfter_then updateGatsbyNode) by apply node_never_throws.
  rewrite !filesAfter_node, !filesAfter_config.
  apply updates_commute_files.
Qed.

(** X20. An update never changes a backup there is already. *)
Theorem existing_backup_is_kept plugins fs fileName fileEnding kept :
  In fileName [GATSBY_CONFIG_FILE; GATSBY_NODE_FILE] ->
  In fileEnding [".js"; ".ts"; ".mjs"] ->
  let backupFile :=
    (fileName ++ fileEnding) ++ ".__vercel_builder_backup__" ++ fileEnding in
  fs backupFile = Some kept ->
  filesAfter updateGatsbyNode fs backupFile = Some kept /\
  filesAfter (updateGatsbyConfig plugins) fs backupFile = Some kept.
Proof.
  intros HfileName HfileEnding backupFile Hkept.
  pose proof (in_pairs fileName fileEnding HfileName HfileEnding) as Hin.
  rewrite filesAfter_node, filesAfter_config.
  split; apply (update_keeps_backup _ _ _ _ _ _ (fileName ++ fileEnding));
    try assumption.
  - right. left. reflexivity.
  - left. reflexivity.
Qed.


End GatsbyContract.

(** ** The Gatsby file updates on concrete directories *)

Lemma exampleProject_pristine : Gatsby.pristine Gatsby.exampleProject.
Proof.
  intros b k H. vm_compute in H.
  repeat (destruct H as [H|H]; [injection H as <- <-; split; reflexivity|]).
  contradiction.
Qed.

Lemma exampleProject_node_not_empty path :
  Gatsby.selected Gatsby.GATSBY_NODE_FILE Gatsby.exampleProject = Some path ->
  Gatsby.exampleProject path <> Some EmptyString.
Proof. intros H. vm_compute in H. injection H as <-. vm_compute. discriminate. Qed.

Lemma exampleProject_config_not_empty path :
  Gatsby.selected Gatsby.GATSBY_CONFIG_FILE Gatsby.exampleProject = Some path ->
  Gatsby.exampleProject path <> Some EmptyString.
Proof. intros H. vm_compute in H. injection H as <-. vm_compute. discriminate. Qed.

(** The lengths of the generated texts, as in the source. *)
Example generated_text_lengths :
  (String.length Gatsby.nodeTs, String.length Gatsby.nodeMjs,
   String.length Gatsby.nodeJs, String.length Gatsby.nodeStub)
  = (580, 497, 492, 131)%nat /\
  (String.length (Gatsby.configTs ["a"; "b"]), String.length (Gatsby.configMjs ["a"; "b"]),
   String.length (Gatsby.configJs ["a"; "b"]), String.length (Gatsby.configStub ["a"; "b"]))
  = (671, 610, 612, 89)%nat.
Proof. split; vm_compute; reflexivity. Qed.

(** The update of a TypeScript gatsby-node file: the file is kept under
    the name of the backup and the generated text takes its place. *)
Example updateGatsbyNode_exampleProject :
  Gatsby.filesAfter Gatsby.updateGatsbyNode Gatsby.exampleProject "gatsby-node.ts"
  = Some Gatsby.nodeTs /\
  Gatsby.filesAfter Gatsby.updateGatsbyNode Gatsby.exampleProject
    "gatsby-node.ts.__vercel_builder_backup__.ts"
  = Some "export const onPreInit = () => {}" /\
  Gatsby.filesAfter Gatsby.updateGatsbyNode Gatsby.exampleProject "gatsby-node.js"
  = None.
Proof. repeat split; reflexivity. Qed.

(** Without a gatsby-node file the update writes the stub, and a second
    update takes the stub for a file of the project. *)
Example updateGatsbyNode_twice_without_file :
  let empty : Gatsby.Files := fun _ => None in
  Gatsby.filesAfter Gatsby.updateGatsbyNode empty "gatsby-node.js"
  = Some Gatsby.nodeStub /\
  Gatsby.filesAfter (Gatsby.bind Gatsby.updateGatsbyNode
                                 (fun _ => Gatsby.updateGatsbyNode)) empty
    "gatsby-node.js.__vercel_builder_backup__.js"
  = Some Gatsby.nodeStub /\
  fst (Gatsby.cleanupGatsbyFiles
         (Gatsby.filesAfter (Gatsby.bind Gatsby.updateGatsbyNode
                                         (fun _ => Gatsby.updateGatsbyNode)) empty))
      "gatsby-node.js"
  = Some Gatsby.nodeStub.
Proof. repeat split; vm_compute; reflexivity. Qed.

Lemma cleanup_file_by_file_witness :
  In Gatsby.GATSBY_NODE_FILE [Gatsby.GATSBY_CONFIG_FILE; Gatsby.GATSBY_NODE_FILE] /\
  In ".ts" [".js"; ".ts"; ".mjs"] /\
  snd (Gatsby.cleanupGatsbyFiles
         (Gatsby.filesAfter Gatsby.updateGatsbyNode Gatsby.exampleProject)) = false.
Proof.
  assert (H1 : In Gatsby.GATSBY_NODE_FILE
                  [Gatsby.GATSBY_CONFIG_FILE; Gatsby.GATSBY_NODE_FILE])
    by (right; left; reflexivity).
  assert (H2 : In ".ts" [".js"; ".ts"; ".mjs"]) by (right; left; reflexivity).
  split; [exact H1|]. split; [exact H2|].
  exact (proj1 (cleanup_file_by_file
                  (Gatsby.filesAfter Gatsby.updateGatsbyNode Gatsby.exampleProject)
                  Gatsby.GATSBY_NODE_FILE ".ts" H1 H2)).
Defined.

Lemma cleanup_leaves_other_files_witness :
  fst (Gatsby.cleanupGatsbyFiles Gatsby.exampleProject) "package.json"
  = Gatsby.exampleProject "package.json".
Proof.
  apply (cleanup_leaves_other_files Gatsby.exampleProject "package.json").
  intros fileName fileEnding [<-|[<-|[]]] [<-|[<-|[<-|[]]]];
    split; vm_compute; discriminate.
Defined.

Lemma cleanup_undoes_updateGatsbyNode_witness :
  Gatsby.pristine Gatsby.exampleProject /\
  fst (Gatsby.cleanupGatsbyFiles
         (Gatsby.filesAfter Gatsby.updateGatsbyNode Gatsby.exampleProject))
      "gatsby-node.ts"
  = Gatsby.exampleProject "gatsby-node.ts".
Proof.
  split; [exact exampleProject_pristine|].
  exact (cleanup_undoes_updateGatsbyNode Gatsby.exampleProject
           exampleProject_pristine exampleProject_node_not_empty "gatsby-node.ts").
Defined.

Lemma cleanup_undoes_updateGatsbyConfig_witness :
  Gatsby.pristine Gatsby.exampleProject /\
  fst (Gatsby.cleanupGatsbyFiles
         (Gatsby.filesAfter
            (Gatsby.updateGatsbyConfig ["@vercel/gatsby-plugin-vercel-analytics"])
            Gatsby.exampleProject))
      "gatsby-config.js"
  = Gatsby.exampleProject "gatsby-config.js".
Proof.
  split; [exact exampleProject_pristine|].
  exact (cleanup_undoes_updateGatsbyConfig
           ["@vercel/gatsby-plugin-vercel-analytics"] Gatsby.exampleProject
           exampleProject_pristine exampleProject_config_not_empty "gatsby-config.js").
Defined.

Lemma cleanup_undoes_both_updates_witness :
  Gatsby.pristine Gatsby.exampleProject /\
  fst (Gatsby.cleanupGatsbyFiles
         (Gatsby.filesAfter
            (Gatsby.bind
               (Gatsby.updateGatsbyConfig ["@vercel/gatsby-plugin-vercel-analytics"])
               (fun _ => Gatsby.updateGatsbyNode))
            Gatsby.exampleProject))
      "gatsby-config.js.__vercel_builder_backup__.js"
  = Gatsby.exampleProject "gatsby-config.js.__vercel_builder_backup__.js".
Proof.
  split; [exact exampleProject_pristine|].
  exact (cleanup_undoes_both_updates
           ["@vercel/gatsby-plugin-vercel-analytics"] Gatsby.exampleProject
           exampleProject_pristine exampleProject_config_not_empty
           exampleProject_node_not_empty
           "gatsby-config.js.__vercel_builder_backup__.js").
Defined.



Lemma update_twice_witness :
  Gatsby.selected Gatsby.GATSBY_NODE_FILE Gatsby.exampleProject <> None /\
  Gatsby.filesAfter (Gatsby.bind Gatsby.updateGatsbyNode
                                 (fun _ => Gatsby.updateGatsbyNode))
    Gatsby.exampleProject "gatsby-node.ts"
  = Gatsby.filesAfter Gatsby.updateGatsbyNode Gatsby.exampleProject "gatsby-node.ts".
Proof.
  assert (H : Gatsby.selected Gatsby.GATSBY_NODE_FILE Gatsby.exampleProject <> None)
    by (vm_compute; discriminate).
  split; [exact H|].
  exact (proj1 (update_twice [] Gatsby.exampleProject) H "gatsby-node.ts").
Defined.

Lemma existing_backup_is_kept_witness :
  Gatsby.filesAfter Gatsby.updateGatsbyNode
    (Gatsby.filesAfter Gatsby.updateGatsbyNode Gatsby.exampleProject)
    "gatsby-node.ts.__vercel_builder_backup__.ts"
  = Some "export const onPreInit = () => {}".
Proof.
  apply (existing_backup_is_kept [] _ Gatsby.GATSBY_NODE_FILE ".ts").
  - right. left. reflexivity.
  - right. left. reflexivity.
  - reflexivity.
Defined.


(** ** The contract of the domain transfer *)

Section TransferInContract.

Import TransferIn.

Variable getScope : ScopeOutcome.
Variable pslParse : string -> ParsedDomain.
Variable textInput : PromptOutcome.
Variable transferInDomain : string -> string -> TransferOutcome.
Variable cmd : string -> string.
Variable param : string -> string.
Variable cyan : string -> string.
Variable elapsed : string.

Local Abbreviation run :=
  (transferIn getScope pslParse textInput transferInDomain cmd param cyan elapsed).
Local Abbreviation request :=
  (transfer transferInDomain param cyan elapsed).

Lemma transfer_requests domainName authCode :
  requests (fst (request domainName authCode)) = [(domainName, authCode)].
Proof.
  unfold transfer. destruct (transferInDomain domainName authCode); reflexivity.
Qed.

Lemma transfer_prompts domainName authCode :
  prompts (fst (request domainName authCode)) = O.
Proof.
  unfold transfer. destruct (transferInDomain domainName authCode); reflexivity.
Qed.

(** The checks before the transfer request, by cases. *)
Lemma transferIn_accepted code args domainName :
  scopeResolved getScope = true ->
  acceptedName pslParse args = Some domainName ->
  run code args =
  if isValidAuthCode code then request domainName (Js.orUndefined code)
  else match textInput with
       | PromptRejected err => ([Prompt "Transfer auth code: "], Thrown err)
       | Typed authCode =>
           (Prompt "Transfer auth code: " :: fst (request domainName authCode),
            snd (request domainName authCode))
       end.
Proof.
  unfold transferIn, acceptedName, scopeResolved.
  destruct getScope; [|discriminate]. intros _.
  destruct (nth_error args 0) as [[|c rest]|]; try discriminate.
  cbn [Js.truthy negb Js.orUndefined].
  destruct (Js.truthy (subdomain (pslParse (String c rest)))
            || negb (Js.truthy (domain (pslParse (String c rest))))); [discriminate|].
  intros [= <-].
  destruct (isValidAuthCode code); [reflexivity|].
  destruct textInput; [|reflexivity].
  destruct (request (String c rest) value). reflexivity.
Qed.

Lemma transferIn_refused code args :
  scopeResolved getScope = false \/ acceptedName pslParse args = None ->
  requests (fst (run code args)) = [] /\
  prompts (fst (run code args)) = O /\
  successLines (fst (run code args)) = [] /\
  spinnerStarts (fst (run code args)) = O /\
  spinnerStops (fst (run code args)) = O /\
  (snd (run code args) = Returned 1 /\
   (exists m, errorLines (fst (run code args)) = [m]) \/
   (exists err, snd (run code args) = Thrown err /\ fst (run code args) = [] /\
                getScope = ScopeRejected err)).
Proof.
  unfold transferIn, acceptedName, scopeResolved.
  destruct getScope as [contextName|err].
  - intros [H|H]; [discriminate|].
    destruct (nth_error args 0) as [[|c rest]|];
      cbn [Js.truthy negb Js.orUndefined] in *;
      try (repeat split; try reflexivity; left; split; [reflexivity|eexists; reflexivity]).
    destruct (Js.truthy (subdomain (pslParse (String c rest)))
              || negb (Js.truthy (domain (pslParse (String c rest)))));
      [|discriminate].
    repeat split; try reflexivity. left. split; [reflexivity|eexists; reflexivity].
  - intros _.
    destruct (match errorCode err with
              | Some c => String.eqb c "not_authorized"
              | None => false
              end).
    + repeat split; try reflexivity. left. split; [reflexivity|eexists; reflexivity].
    + repeat split; try reflexivity. right. exists err. repeat split; reflexivity.
Qed.

Lemma accepted_or_refused args :
  (exists domainName, scopeResolved getScope = true /\
                      acceptedName pslParse args = Some domainName) \/
  (scopeResolved getScope = false \/ acceptedName pslParse args = None).
Proof.
  destruct (scopeResolved getScope); [|right; left; reflexivity].
  destruct (acceptedName pslParse args) as [d|];
    [left; exists d; split; reflexivity|right; right; reflexivity].
Qed.

(** X22. The transfer request is guarded: [transferInDomain] is called at
    most once, and only when the scope is resolved, for the first argument
    when it is a non-empty name that [psl] parses to a root domain without
    subdomain, with the auth code of the option when that is valid and the
    typed one otherwise. *)
Theorem transfer_request_is_guarded code args domainName authCode :
  In (domainName, authCode) (requests (fst (run code args))) ->
  scopeResolved getScope = true /\
  acceptedName pslParse args = Some domainName /\
  authCodeFor code textInput = Some authCode /\
  requests (fst (run code args)) = [(domainName, authCode)].
Proof.
  destruct (accepted_or_refused args) as [(d & Hscope & Hname)|Hrefused].
  - rewrite (transferIn_accepted code args d Hscope Hname). unfold authCodeFor.
    destruct (isValidAuthCode code).
    + rewrite transfer_requests. intros [[= <- <-]|[]]. repeat split; assumption.
    + destruct textInput as [value|err]; [|intros []].
      cbn [fst requests flat_map app]. rewrite transfer_requests.
      intros [[= <- <-]|[]]. repeat split; assumption.
  - destruct (transferIn_refused code args Hrefused) as (Hreq & _).
    rewrite Hreq. intros [].
Qed.

(** X23. The command returns 0 exactly when the checks pass and the
    transfer request gives a value that is none of the three errors. *)
Theorem exit_zero_iff_transfer_started code args :
  snd (run code args) = Returned 0 <->
  exists domainName authCode,
    scopeResolved getScope = true /\
    acceptedName pslParse args = Some domainName /\
    authCodeFor code textInput = Some authCode /\
    transferInDomain domainName authCode = OtherValue.
Proof.
  assert (Hrequest : forall d c,
             snd (request d c) = Returned 0 <-> transferInDomain d c = OtherValue).
  { intros d c. unfold transfer.
    destruct (transferInDomain d c); split; (reflexivity || discriminate). }
  destruct (accepted_or_refused args) as [(d & Hscope & Hname)|Hrefused].
  - rewrite (transferIn_accepted code args d Hscope Hname). unfold authCodeFor.
    destruct (isValidAuthCode code).
    + rewrite Hrequest. split.
      * intros H. exists d, (Js.orUndefined code). repeat split; assumption.
      * intros (d' & c' & _ & Hd & [= <-] & H). congruence.
    + destruct textInput as [value|err]; cbn [snd].
      * rewrite Hrequest. split.
        -- intros H. exists d, value. repeat split; assumption.
        -- intros (d' & c' & _ & Hd & [= <-] & H). congruence.
      * split; [discriminate|]. intros (d' & c' & _ & _ & H & _). discriminate.
  - split.
    + intros H.
      destruct (transferIn_refused code args Hrefused)
        as (_ & _ & _ & _ & _ & [[H1 _]|(err & H1 & _)]); congruence.
    + intros (d & c & Hscope & Hname & _). destruct Hrefused; congruence.
Qed.

(** X24. What a run reports: the command returns 0 or 1 or throws; with
    0 it writes the two success lines and no error line, with 1 exactly
    one error line and no success line; and when it returns, the spinner
    it started has been stopped. *)
Theorem reports_of_a_run code args :
  (forall exitCode,
      snd (run code args) = Returned exitCode ->
      (exitCode = 0 \/ exitCode = 1) /\
      spinnerStarts (fst (run code args)) = spinnerStops (fst (run code args))) /\
  (snd (run code args) = Returned 0 ->
   errorLines (fst (run code args)) = [] /\
   List.length (successLines (fst (run code args))) = 2%nat) /\
  (snd (run code args) = Returned 1 ->
   List.length (errorLines (fst (run code args))) = 1%nat /\
   successLines (fst (run code args)) = []).
Proof.
  assert (Hrequest : forall d c (pre : list Step),
             errorLines pre = [] -> successLines pre = [] ->
             spinnerStarts pre = O -> spinnerStops pre = O ->
             let steps := (pre ++ fst (request d c))%list in
             let result := snd (request d c) in
             (forall exitCode, result = Returned exitCode ->
                               (exitCode = 0 \/ exitCode = 1) /\
                               spinnerStarts steps = spinnerStops steps) /\
             (result = Returned 0 ->
              errorLines steps = [] /\ List.length (successLines steps) = 2%nat) /\
             (result = Returned 1 ->
              List.length (errorLines steps) = 1%nat /\ successLines steps = [])).
  { intros d c pre He Hs Hstart Hstop steps result. subst steps result.
    unfold errorLines, successLines, spinnerStarts, spinnerStops in *.
    rewrite !flat_map_app, !filter_app, !length_app, He, Hs, Hstart, Hstop.
    unfold transfer. destruct (transferInDomain d c); cbn;
      repeat split; intros; repeat split; try discriminate; try reflexivity;
      match goal with
      | H : Returned _ = Returned _ |- _ \/ _ =>
          injection H as <-; first [left; reflexivity|right; reflexivity]
      end. }
  destruct (accepted_or_refused args) as [(d & Hscope & Hname)|Hrefused].
  - rewrite (transferIn_accepted code args d Hscope Hname).
    destruct (isValidAuthCode code).
    + exact (Hrequest d (Js.orUndefined code) [] eq_refl eq_refl eq_refl eq_refl).
    + destruct textInput as [value|err].
      * exact (Hrequest d value [Prompt "Transfer auth code: "]
                        eq_refl eq_refl eq_refl eq_refl).
      * repeat split; discriminate.
  - destruct (transferIn_refused code args Hrefused)
      as (_ & _ & Hsuccess & Hstart & Hstop & Hcases).
    rewrite Hsuccess, Hstart, Hstop.
    destruct Hcases as [[Hone (m & Hm)]|(err & Hthrown & _)].
    + rewrite Hone, Hm.
      repeat split; intros; repeat split; try discriminate; try reflexivity.
      match goal with
      | H : Returned _ = Returned _ |- _ => injection H as <-
      end.
      right. reflexivity.
    + rewrite Hthrown. repeat split; discriminate.
Qed.

(** X25. The user is asked for the auth code exactly when the checks pass
    and the option is missing or empty, and then once. *)
Theorem prompt_iff_code_missing code args :
  prompts (fst (run code args)) =
  if scopeResolved getScope
     && match acceptedName pslParse args with Some _ => true | None => false end
     && negb (isValidAuthCode code)
  then 1%nat else 0%nat.
Proof.
  destruct (accepted_or_refused args) as [(d & Hscope & Hname)|Hrefused].
  - rewrite (transferIn_accepted code args d Hscope Hname), Hscope, Hname.
    destruct (isValidAuthCode code); cbn [andb negb].
    + apply transfer_prompts.
    + destruct textInput as [value|err]; [|reflexivity].
      cbn [fst]. unfold prompts. cbn [filter List.length].
      change (S (prompts (fst (request d value))) = 1%nat).
      rewrite transfer_prompts. reflexivity.
  - destruct (transferIn_refused code args Hrefused) as (_ & Hprompts & _).
    rewrite Hprompts. destruct Hrefused as [H|H]; rewrite H;
      [reflexivity|rewrite andb_false_r; reflexivity].
Qed.

End TransferInContract.

(** ** The domain transfer on concrete runs *)

Example transferIn_with_code :
  TransferIn.exampleRun (Some "auth-code") ["zeit.co"] =
  ([TransferIn.SpinnerStart "Transferring";
    TransferIn.TransferRequest "zeit.co" "auth-code";
    TransferIn.SpinnerStop;
    TransferIn.ConsoleLog "> Success! Domain zeit.co transfer started [1s]";
    TransferIn.OutputPrint
      ("We have initiated a transfer for zeit.co." ++ Js.nl
       ++ "To finalize the transfer, we are waiting for approval from your current registrar.")],
   TransferIn.Returned 0).
Proof. reflexivity. Qed.

Example transferIn_without_name :
  TransferIn.exampleRun (Some "auth-code") [] =
  ([TransferIn.OutputError "Missing domain name. Run now domains --help"],
   TransferIn.Returned 1).
Proof. reflexivity. Qed.

Example transferIn_with_subdomain :
  snd (TransferIn.exampleRun (Some "auth-code") ["www.zeit.co"]) = TransferIn.Returned 1 /\
  TransferIn.requests (fst (TransferIn.exampleRun (Some "auth-code") ["www.zeit.co"]))
  = [].
Proof. split; reflexivity. Qed.

Example transferIn_with_empty_code :
  TransferIn.requests (fst (TransferIn.exampleRun (Some EmptyString) ["zeit.co"]))
  = [("zeit.co", "typed-code")].
Proof. reflexivity. Qed.

Lemma transfer_request_is_guarded_witness :
  In ("zeit.co", "typed-code")
     (TransferIn.requests (fst (TransferIn.exampleRun None ["zeit.co"]))) /\
  TransferIn.acceptedName TransferIn.examplePsl ["zeit.co"] = Some "zeit.co" /\
  TransferIn.authCodeFor None (TransferIn.Typed "typed-code") = Some "typed-code".
Proof.
  assert (H : In ("zeit.co", "typed-code")
                 (TransferIn.requests (fst (TransferIn.exampleRun None ["zeit.co"]))))
    by (left; reflexivity).
  split; [exact H|].
  destruct (transfer_request_is_guarded
              (TransferIn.ScopeResolved "me") TransferIn.examplePsl
              (TransferIn.Typed "typed-code") (fun _ _ => TransferIn.OtherValue)
              (fun s => s) (fun s => s) (fun s => s) "[1s]"
              None ["zeit.co"] "zeit.co" "typed-code" H) as (_ & Hname & Hcode & _).
  split; [exact Hname|exact Hcode].
Defined.

Lemma exit_zero_iff_transfer_started_witness :
  snd (TransferIn.exampleRun (Some "auth-code") ["zeit.co"]) = TransferIn.Returned 0.
Proof.
  apply (proj2 (exit_zero_iff_transfer_started
                  (TransferIn.ScopeResolved "me") TransferIn.examplePsl
                  (TransferIn.Typed "typed-code") (fun _ _ => TransferIn.OtherValue)
                  (fun s => s) (fun s => s) (fun s => s) "[1s]"
                  (Some "auth-code") ["zeit.co"])).
  exists "zeit.co", "auth-code". repeat split; reflexivity.
Defined.

Lemma reports_of_a_run_witness :
  snd (TransferIn.exampleRun None ["localhost"]) = TransferIn.Returned 1 /\
  List.length (TransferIn.errorLines (fst (TransferIn.exampleRun None ["localhost"])))
  = 1%nat /\
  TransferIn.successLines (fst (TransferIn.exampleRun None ["localhost"])) = [].
Proof.
  split; [reflexivity|].
  apply (proj2 (proj2 (reports_of_a_run
                  (TransferIn.ScopeResolved "me") TransferIn.examplePsl
                  (TransferIn.Typed "typed-code") (fun _ _ => TransferIn.OtherValue)
                  (fun s => s) (fun s => s) (fun s => s) "[1s]"
                  None ["localhost"]))).
  reflexivity.
Defined.
